(** * Observation log, rotation and session-state hooks: a shallow embedding

    The development follows the Python sources

      - scripts/lib/utils.py
      - scripts/hooks/session_start.py, session_end.py, pre_compact.py,
        suggest_compact.py, evaluate_session.py, check_print.py
      - skills/continuous-learning/evaluate_session.py
      - skills/continuous-learning-v2/hooks/observe.py

    Modelling conventions.

      - A Python [str] is a [string]; its characters are Rocq's 8-bit
        characters.  A text file holds the text that was written to it and
        its [st_size] is the length of the UTF-8 encoding of that text.
        Reading gives that text back: where the text read matters, it is
        taken without carriage returns, which text mode turns into line
        feeds.  The transcript is the file of another program: the
        environment says whether its bytes are UTF-8 text, and reading it
        raises [UnicodeDecodeError] when they are not.
      - A path is the list of its components from the root; the file system
        is a finite map from paths to nodes (regular files and directories).
        Symbolic links and permission bits are not modelled.
      - POSIX timestamps and ages are rationals: the arithmetic the hooks do
        on them is taken exactly.
      - The interpreter's own library (the json codec, [str()] and [repr()],
        the regular-expression matcher) is an interface, [PyRuntime]; the
        hooks are defined and verified against any implementation of it.
      - Effects are explicit: a hook is a function from a world (file
        system, clock position, diagnostic stream, system-call trace) to an
        outcome and a new world. *)

From Stdlib Require Import ZArith QArith Lqa String Ascii List Lia Bool Sorted.
From stdpp Require Import base option list gmap strings pretty fin_maps.

Local Open Scope Z_scope.

(** ** Python string primitives *)

Module PyStr.

Fixpoint take (n : nat) (s : string) : string :=
  match n, s with
  | S k, String c s' => String c (take k s')
  | _, _ => EmptyString
  end.

Fixpoint drop (n : nat) (s : string) : string :=
  match n, s with
  | S k, String _ s' => drop k s'
  | _, _ => s
  end.

(** Index normalisation of a slice bound: a negative bound counts from the
    end, and every bound is clamped to [0, len]. *)
Definition clamp (len i : Z) : Z :=
  if i <? 0 then Z.max (len + i) 0 else Z.min i len.

(** [s[start:stop]] with optional bounds (step 1). *)
Definition slice (s : string) (start stop : option Z) : string :=
  let len := Z.of_nat (String.length s) in
  let lo := from_option (clamp len) 0 start in
  let hi := from_option (clamp len) len stop in
  take (Z.to_nat (hi - lo)) (drop (Z.to_nat lo) s).

(** [sub in s] *)
Fixpoint contains (sub s : string) : bool :=
  String.prefix sub s ||
  match s with
  | EmptyString => false
  | String _ s' => contains sub s'
  end.

(** [s.count(sub)]: occurrences are counted left to right without overlap;
    [skip] is the number of characters still covered by the last match. *)
Fixpoint count_go (sub : string) (skip : nat) (s : string) : nat :=
  match s with
  | EmptyString => 0
  | String _ s' =>
      match skip with
      | S k => count_go sub k s'
      | O =>
          if String.prefix sub s
          then S (count_go sub (String.length sub - 1) s')
          else count_go sub 0 s'
      end
  end.

Definition count (s sub : string) : nat :=
  match sub with
  | EmptyString => S (String.length s)
  | _ => count_go sub 0 s
  end.

(** [s.replace(old, new)] *)
Fixpoint replace_go (old new : string) (skip : nat) (s : string) : string :=
  match s with
  | EmptyString => EmptyString
  | String c s' =>
      match skip with
      | S k => replace_go old new k s'
      | O =>
          if String.prefix old s
          then new +:+ replace_go old new (String.length old - 1) s'
          else String c (replace_go old new 0 s')
      end
  end.

Fixpoint interleave (new s : string) : string :=
  match s with
  | EmptyString => new
  | String c s' => new +:+ String c (interleave new s')
  end.

Definition replace (s old new : string) : string :=
  match old with
  | EmptyString => interleave new s
  | _ => replace_go old new 0 s
  end.

(** [str.isspace] on the characters below 256. *)
Definition is_space (c : ascii) : bool :=
  let n := N_of_ascii c in
  ((9 <=? n) && (n <=? 13) || (28 <=? n) && (n <=? 32)
   || (n =? 133) || (n =? 160))%N.

Fixpoint lstrip (s : string) : string :=
  match s with
  | String c s' => if is_space c then lstrip s' else s
  | EmptyString => EmptyString
  end.

Definition rstrip (s : string) : string :=
  String.rev (lstrip (String.rev s)).

Definition strip (s : string) : string := rstrip (lstrip s).

(** Stripping for another notion of white space. *)
Fixpoint lstrip_of (space : ascii -> bool) (s : string) : string :=
  match s with
  | String c s' => if space c then lstrip_of space s' else s
  | EmptyString => EmptyString
  end.

Definition strip_of (space : ascii -> bool) (s : string) : string :=
  String.rev (lstrip_of space (String.rev (lstrip_of space s))).

(** Length of the UTF-8 encoding: one byte below 128, two up to 255. *)
Fixpoint utf8_length (s : string) : Z :=
  match s with
  | EmptyString => 0
  | String c s' => (if (N_of_ascii c <? 128)%N then 1 else 2) + utf8_length s'
  end.

Definition join (sep : string) (l : list string) : string :=
  match l with
  | [] => ""
  | x :: l' => fold_left (fun acc y => acc +:+ sep +:+ y) l' x
  end.

(** [s.split(sep)] for a one-character separator: never the empty list. *)
Fixpoint split (sep : ascii) (s : string) : list string :=
  match s with
  | EmptyString => [EmptyString]
  | String c s' =>
      if Ascii.eqb c sep then EmptyString :: split sep s'
      else match split sep s' with
           | x :: l => String c x :: l
           | [] => [String c EmptyString]
           end
  end.

(** No character of [s] is [c]. *)
Fixpoint free_of (c : ascii) (s : string) : bool :=
  match s with
  | EmptyString => true
  | String c' s' => negb (Ascii.eqb c' c) && free_of c s'
  end.

(** Every character of [s] passes [f]. *)
Fixpoint every (f : ascii -> bool) (s : string) : bool :=
  match s with
  | EmptyString => true
  | String c s' => f c && every f s'
  end.

(** A text without carriage return: what reading in text mode gives back
    as it was written. *)
Definition unix_text (s : string) : bool := free_of "013" s.

(** [s.startswith(prefix)] and [s.endswith(suffix)] *)
Definition startswith (prefix s : string) : bool := String.prefix prefix s.

Definition endswith (suffix s : string) : bool :=
  (String.length suffix <=? String.length s)%nat
  && String.eqb (drop (String.length s - String.length suffix) s) suffix.

(** The line feed and the double quote. *)
Definition nl : string := String "010" EmptyString.
Definition dq : string := String "034" EmptyString.

End PyStr.

(** ** Python values and exceptions *)

#[local] Set Warnings "-register-all".

(** The values a json document decodes to, which are also the values the
    hooks keep in their dictionaries.  A [dict] is its list of items in
    insertion order. *)
Inductive pyval :=
| PNone
| PBool (b : bool)
| PInt (n : Z)
| PFloat (x : Q)
| PStr (s : string)
| PList (l : list pyval)
| PDict (d : list (string * pyval)).

(** A path is the list of its components, from the root. *)
Abbreviation path := (list string).

Inductive errno := ENOENT | EEXIST | ENOTDIR | EISDIR | ENOTEMPTY.

(** The exceptions the hooks meet, with what their handlers and messages
    depend on.  [IntMaxStrDigits n] is the [ValueError] of [str(n)] for an
    [n] of more digits than the interpreter converts. *)
Inductive exn :=
| OSError (code : errno) (p : path)
| JSONDecodeError (doc : string)
| ValueError (arg : string)
| TypeError (v : pyval)
| AttributeError (v : pyval)
| ReError (pattern : string)
| KeyError (key : string)
| UnicodeDecodeError
| IntMaxStrDigits (n : Z)
| SystemExit (code : Z).

(** [isinstance(e, Exception)]: [SystemExit] derives from [BaseException]
    only. *)
Definition is_Exception (e : exn) : bool :=
  match e with SystemExit _ => false | _ => true end.

Definition is_JSONDecodeError (e : exn) : bool :=
  match e with JSONDecodeError _ => true | _ => false end.

Definition is_OSError (e : exn) : bool :=
  match e with OSError _ _ => true | _ => false end.

(** [json.JSONDecodeError] and [UnicodeDecodeError] are [ValueError]s;
    [IntMaxStrDigits n] is the [ValueError] that [str(n)] raises for an [n]
    of too many digits. *)
Definition is_ValueError (e : exn) : bool :=
  match e with
  | ValueError _ | JSONDecodeError _ | UnicodeDecodeError
  | IntMaxStrDigits _ => true
  | _ => false
  end.

Definition is_UnicodeDecodeError (e : exn) : bool :=
  match e with UnicodeDecodeError => true | _ => false end.

(** A computation that returns or raises, without touching the world. *)
Definition res (A : Type) : Type := exn + A.

#[global] Instance res_ret : MRet res := fun A a => inr a.

#[global] Instance res_bind : MBind res := fun A B f r =>
  match r with inl e => inl e | inr a => f a end.

(** What the interpreter and its standard library provide. *)
Class PyRuntime := {
  json_loads : string -> option pyval;
  json_dumps : pyval -> string;
  json_dumps_indent : Z -> pyval -> string;
  py_repr : pyval -> string;
  exn_str : exn -> string;
  re_compile : string -> option (string -> bool)
}.

Module Py.

(** [bool(v)] *)
Definition truthy (v : pyval) : bool :=
  match v with
  | PNone => false
  | PBool b => b
  | PInt n => negb (n =? 0)
  | PFloat x => negb (Qeq_bool x 0)
  | PStr s => negb (String.eqb s "")
  | PList l => match l with [] => false | _ => true end
  | PDict d => match d with [] => false | _ => true end
  end.

(** [n < v] for an [int] on the left. *)
Definition int_lt (n : Z) (v : pyval) : res bool :=
  match v with
  | PInt m => inr (n <? m)
  | PBool b => inr (n <? (if b then 1 else 0))
  | PFloat x => inr (negb (Qle_bool x (inject_Z n)))
  | _ => inl (TypeError v)
  end.

Definition is_dict (v : pyval) : bool :=
  match v with PDict _ => true | _ => false end.

Fixpoint assoc (k : string) (d : list (string * pyval)) : option pyval :=
  match d with
  | [] => None
  | (k', v) :: d' => if String.eqb k k' then Some v else assoc k d'
  end.

(** [d[k] = v] *)
Fixpoint setitem (k : string) (v : pyval) (d : list (string * pyval))
  : list (string * pyval) :=
  match d with
  | [] => [(k, v)]
  | (k', v') :: d' =>
      if String.eqb k k' then (k, v) :: d' else (k', v') :: setitem k v d'
  end.

Definition has_key (k : string) (d : list (string * pyval)) : bool :=
  bool_decide (is_Some (assoc k d)).

(** [x[k]] *)
Definition getitem (x : pyval) (k : string) : res pyval :=
  match x with
  | PDict d => from_option inr (inl (KeyError k)) (assoc k d)
  | _ => inl (TypeError x)
  end.

(** [x.get(k, default)]: an [AttributeError] when [x] has no [get]. *)
Definition get (x : pyval) (k : string) (default : pyval) : res pyval :=
  match x with
  | PDict d => inr (from_option id default (assoc k d))
  | _ => inl (AttributeError x)
  end.

(** [sub in x] for a string [sub]: substring test on a [str], membership on
    a list, key membership on a [dict], a [TypeError] otherwise. *)
Definition str_in (sub : string) (x : pyval) : res bool :=
  match x with
  | PStr s => inr (PyStr.contains sub s)
  | PList l =>
      inr (existsb (fun v => match v with PStr s => String.eqb s sub | _ => false end) l)
  | PDict d => inr (has_key sub d)
  | _ => inl (TypeError x)
  end.

(** [str(v)] *)
Definition str `{PyRuntime} (v : pyval) : string :=
  match v with
  | PStr s => s
  | PNone => "None"
  | PBool true => "True"
  | PBool false => "False"
  | PInt n => pretty n
  | _ => py_repr v
  end.

Definition is_digit (c : ascii) : bool :=
  let n := N_of_ascii c in ((48 <=? n) && (n <=? 57))%N.

(** Digits with single underscores between them, most significant first. *)
Fixpoint digits_go (acc : Z) (after_digit : bool) (s : string) : option Z :=
  match s with
  | EmptyString => if after_digit then Some acc else None
  | String c s' =>
      if is_digit c
      then digits_go (10 * acc + (Z.of_N (N_of_ascii c) - 48)) true s'
      else if Ascii.eqb c "_" && after_digit
           then match s' with
                | String c' _ => if is_digit c' then digits_go acc false s' else None
                | EmptyString => None
                end
           else None
  end.

(** The white space [int()] skips around a numeral: the white space of C
    and, beyond ASCII, the characters [str.isspace] accepts.  Unlike
    [str.strip], it keeps the separators 28 to 31. *)
Definition is_int_space (c : ascii) : bool :=
  let n := N_of_ascii c in
  ((9 <=? n) && (n <=? 13) || (n =? 32) || (n =? 133) || (n =? 160))%N.

(** The default of [sys.get_int_max_str_digits()]. *)
Definition max_str_digits : Z := 4300.

Fixpoint count_digits (s : string) : Z :=
  match s with
  | EmptyString => 0
  | String c s' => (if is_digit c then 1 else 0) + count_digits s'
  end.

(** [int(s)] in base 10: surrounding white space, an optional sign, digits;
    a numeral of more than [max_str_digits] digits is refused. *)
Definition int (s : string) : res Z :=
  let body := PyStr.strip_of is_int_space s in
  let r :=
    if max_str_digits <? count_digits body then None
    else
      match body with
      | String "-" d => Z.opp <$> digits_go 0 false d
      | String "+" d => digits_go 0 false d
      | _ => digits_go 0 false body
      end in
  match r with
  | Some n => inr n
  | None => inl (ValueError s)
  end.

(** [str(n)]: an integer of more than [max_str_digits] digits is refused. *)
Definition str_int (n : Z) : res string :=
  let text := pretty n in
  if max_str_digits <? count_digits text then inl (IntMaxStrDigits n)
  else inr text.

End Py.

(** ** Paths, after [pathlib.PurePosixPath] *)

Module PathLib.

(** Components of a path string: empty components and [.] are dropped. *)
Definition parts (s : string) : list string :=
  filter (fun c => c <> "" /\ c <> ".") (PyStr.split "/" s).

(** [p / s]: an absolute [s] replaces [p]. *)
Definition join (p : path) (s : string) : path :=
  if String.prefix "/" s then parts s else p ++ parts s.

Definition parent (p : path) : path := removelast p.

Definition name (p : path) : string := List.last p "".

(** [str(p)] *)
Definition to_str (p : path) : string := "/" +:+ PyStr.join "/" p.

End PathLib.

Infix "//" := PathLib.join (at level 40, left associativity).

(** ** Clock *)

Record datetime := {
  year : Z; month : Z; day : Z;
  hour : Z; minute : Z; second : Z; microsecond : Z
}.

(** One reading of the clock: [datetime.now()], [datetime.now(timezone.utc)]
    and [datetime.now().timestamp()]. *)
Record instant := {
  local_time : datetime;
  utc_time : datetime;
  posix : Q
}.

Module Strftime.

Fixpoint zeros (n : nat) : string :=
  match n with O => "" | S k => String "0" (zeros k) end.

Definition pad (w : nat) (n : Z) : string :=
  let s := pretty n in zeros (w - String.length s) +:+ s.

(** [%Y-%m-%d] *)
Definition date (d : datetime) : string :=
  pad 4 (year d) +:+ "-" +:+ pad 2 (month d) +:+ "-" +:+ pad 2 (day d).

(** [%H:%M] *)
Definition hm (d : datetime) : string :=
  pad 2 (hour d) +:+ ":" +:+ pad 2 (minute d).

(** [%H:%M:%S] *)
Definition hms (d : datetime) : string :=
  hm d +:+ ":" +:+ pad 2 (second d).

(** [%Y-%m-%d %H:%M:%S] *)
Definition date_time (d : datetime) : string := date d +:+ " " +:+ hms d.

(** [%Y%m%d-%H%M%S] *)
Definition compact (d : datetime) : string :=
  pad 4 (year d) +:+ pad 2 (month d) +:+ pad 2 (day d) +:+ "-"
  +:+ pad 2 (hour d) +:+ pad 2 (minute d) +:+ pad 2 (second d).

(** [%Y-%m-%dT%H:%M:%SZ] *)
Definition iso_z (d : datetime) : string :=
  date d +:+ "T" +:+ hms d +:+ "Z".

(** [d.isoformat()]: the microseconds are printed only when not zero. *)
Definition isoformat (d : datetime) : string :=
  date d +:+ "T" +:+ hms d +:+
  (if microsecond d =? 0 then "" else "." +:+ pad 6 (microsecond d)).

End Strftime.

(** ** The world a hook runs in *)

Inductive node :=
| File (data : string) (mtime : Q)
| Dir (mtime : Q).

(** What is fixed during one invocation.  [undecodable] tells, of the files
    other programs wrote, those whose bytes are no UTF-8 text. *)
Record env := {
  environ : gmap string string;
  home : path;
  cwd : path;
  script_dir : path;
  tmpdir : path;
  stdin : option string;
  clock : nat -> instant;
  undecodable : path -> bool
}.

(** The trace keeps the successful mutations of the file system and the
    rotation checks, in the order they happen. *)
Inductive event :=
| EvMkdir (p : path)
| EvAppend (p : path) (text : string)
| EvWrite (p : path) (text : string)
| EvRename (src dst : path)
| EvArchiveCheck (p : path).

Record world := {
  fs : gmap path node;
  ticks : nat;
  stderr : list string;
  trace : list event
}.

Definition with_fs (m : gmap path node) (w : world) : world :=
  {| fs := m; ticks := ticks w; stderr := stderr w; trace := trace w |}.

Definition with_event (e : event) (w : world) : world :=
  {| fs := fs w; ticks := ticks w; stderr := stderr w;
     trace := trace w ++ [e] |}.

Definition tick (w : world) : world :=
  {| fs := fs w; ticks := S (ticks w); stderr := stderr w; trace := trace w |}.

(** The world after [k] more readings of the clock. *)
Definition nticks (k : nat) (w : world) : world :=
  {| fs := fs w; ticks := ticks w + k; stderr := stderr w; trace := trace w |}.

Definition with_line (line : string) (w : world) : world :=
  {| fs := fs w; ticks := ticks w; stderr := stderr w ++ [line];
     trace := trace w |}.

Inductive outcome (A : Type) :=
| Ret (a : A)
| Raise (e : exn).
Arguments Ret {A} a.
Arguments Raise {A} e.

Definition M (A : Type) : Type := world -> outcome A * world.

#[global] Instance M_ret : MRet M := fun A a w => (Ret a, w).

#[global] Instance M_bind : MBind M := fun A B f m w =>
  match m w with
  | (Ret a, w') => f a w'
  | (Raise e, w') => (Raise e, w')
  end.

Definition raise {A} (e : exn) : M A := fun w => (Raise e, w).

(** [try: m  except <handles>: h] *)
Definition try_except {A} (m : M A) (handles : exn -> bool) (h : exn -> M A)
  : M A := fun w =>
  match m w with
  | (Raise e, w') => if handles e then h e w' else (Raise e, w')
  | r => r
  end.

Definition lift {A} (r : res A) : M A :=
  match r with inl e => raise e | inr a => mret a end.

Definition when (b : bool) (m : M unit) : M unit :=
  if b then m else mret tt.

(** [print(line, file=sys.stderr)] *)
Definition eprint (line : string) : M unit := fun w =>
  (Ret tt, with_line line w).

Definition sys_exit {A} (code : Z) : M A := raise (SystemExit code).

(** ** Shell-style patterns: [*], [?] and literal characters *)

Module Glob.

Fixpoint star (f : string -> bool) (s : string) : bool :=
  f s || match s with
         | EmptyString => false
         | String _ s' => star f s'
         end.

Fixpoint fnmatch (pattern s : string) {struct pattern} : bool :=
  match pattern with
  | EmptyString => match s with EmptyString => true | _ => false end
  | String c p' =>
      if Ascii.eqb c "*" then star (fnmatch p') s
      else match s with
           | EmptyString => false
           | String c' s' =>
               (Ascii.eqb c "?" || Ascii.eqb c c') && fnmatch p' s'
           end
  end.

(** The patterns that [fnmatch] reads as [pathlib] does: one component,
    not empty, without character class and without [**]. *)
Definition plain (pattern : string) : bool :=
  negb (String.eqb pattern "") && PyStr.free_of "/" pattern
  && PyStr.free_of "[" pattern && negb (PyStr.contains "**" pattern).

End Glob.

(** ** File system calls *)

Module Os.

Definition node_at (m : gmap path node) (p : path) : option node :=
  match p with
  | [] => Some (Dir 0)
  | _ => m !! p
  end.

Definition is_file_node (o : option node) : bool :=
  match o with Some (File _ _) => true | _ => false end.

Definition is_dir_node (o : option node) : bool :=
  match o with Some (Dir _) => true | _ => false end.

(** The non-empty prefixes of [p], shortest first. *)
Definition prefixes (p : path) : list path :=
  (fun n => take n p) <$> seq 1 (length p).

Definition make_dirs (t : Q) (m : gmap path node) (p : path) : gmap path node :=
  foldl (fun acc q => match node_at acc q with
                      | None => <[q := Dir t]> acc
                      | Some _ => acc
                      end) m (prefixes p).

(** The first prefix of [p] that is a regular file, if any. *)
Definition blocking (m : gmap path node) (p : path) : option path :=
  List.find (fun q => is_file_node (node_at m q)) (prefixes p).

(** [st_size] of a directory entry; the value is the file system's own. *)
Definition dir_size : Z := 4096.

Definition st_size (n : node) : Z :=
  match n with
  | File data _ => PyStr.utf8_length data
  | Dir _ => dir_size
  end.

Definition st_mtime (n : node) : Q :=
  match n with File _ t | Dir t => t end.

(** Keys under [src] move under [dst]. *)
Definition relocate (src dst k : path) : path :=
  if bool_decide (src `prefix_of` k) then dst ++ drop (length src) k else k.

Definition has_children (m : gmap path node) (d : path) : bool :=
  bool_decide (Exists (fun kv => PathLib.parent kv.1 = d /\ kv.1 <> [])
                      (map_to_list m)).

Definition move_tree (src dst : path) (m : gmap path node) : gmap path node :=
  list_to_map ((fun kv => (relocate src dst kv.1, kv.2)) <$> map_to_list m).

Section calls.
Context (E : env).

(** Each reading moves the clock to its next position. *)
Definition now : M instant := fun w => (Ret (clock E (ticks w)), tick w).

(** The instant the file system stamps a write with. *)
Definition stamp (w : world) : Q := posix (clock E (ticks w)).

Definition exists_ (p : path) : M bool := fun w =>
  (Ret (bool_decide (is_Some (node_at (fs w) p))), w).

Definition stat (p : path) : M node := fun w =>
  match node_at (fs w) p with
  | Some n => (Ret n, w)
  | None => (Raise (OSError ENOENT p), w)
  end.

(** [p.mkdir(parents=True, exist_ok=True)] *)
Definition mkdir (p : path) : M unit := fun w =>
  match blocking (fs w) p with
  | Some q =>
      (Raise (OSError (if bool_decide (q = p) then EEXIST else ENOTDIR) p), w)
  | None =>
      (Ret tt, with_event (EvMkdir p) (with_fs (make_dirs (stamp w) (fs w) p) w))
  end.

(** Why a file cannot be opened for writing at [p], if it cannot. *)
Definition open_error (m : gmap path node) (p : path) : option errno :=
  match node_at m p with
  | Some (Dir _) => Some EISDIR
  | Some (File _ _) => None
  | None =>
      match node_at m (PathLib.parent p) with
      | Some (Dir _) => None
      | Some (File _ _) => Some ENOTDIR
      | None => Some ENOENT
      end
  end.

Definition old_data (m : gmap path node) (p : path) : string :=
  match node_at m p with Some (File data _) => data | _ => "" end.

(** [with open(p, "a", encoding="utf-8") as f: f.write(text)] *)
Definition append_text (p : path) (text : string) : M unit := fun w =>
  match open_error (fs w) p with
  | Some c => (Raise (OSError c p), w)
  | None =>
      (Ret tt,
       with_event (EvAppend p text)
         (with_fs (<[p := File (old_data (fs w) p +:+ text) (stamp w)]> (fs w)) w))
  end.

(** [with open(p, "a", encoding="utf-8") as f: f.write(text(now))]: the
    clock is read once the file is open. *)
Definition append_text_opened (p : path) (text : instant -> string) : M unit :=
  fun w =>
  match open_error (fs w) p with
  | Some c => (Raise (OSError c p), w)
  | None => (now ≫= fun t => append_text p (text t)) w
  end.

(** [p.write_text(text, encoding="utf-8")] *)
Definition write_text (p : path) (text : string) : M unit := fun w =>
  match open_error (fs w) p with
  | Some c => (Raise (OSError c p), w)
  | None =>
      (Ret tt,
       with_event (EvWrite p text)
         (with_fs (<[p := File text (stamp w)]> (fs w)) w))
  end.

(** [p.read_text(encoding="utf-8")] *)
Definition read_text (p : path) : M string := fun w =>
  match node_at (fs w) p with
  | Some (File data _) => (Ret data, w)
  | Some (Dir _) => (Raise (OSError EISDIR p), w)
  | None => (Raise (OSError ENOENT p), w)
  end.

(** [p.read_text(encoding="utf-8")] of a file that another program wrote:
    the decoder raises when its bytes are no UTF-8 text. *)
Definition read_text_decoding (p : path) : M string := fun w =>
  match node_at (fs w) p with
  | Some (File data _) =>
      if undecodable E p then (Raise UnicodeDecodeError, w) else (Ret data, w)
  | Some (Dir _) => (Raise (OSError EISDIR p), w)
  | None => (Raise (OSError ENOENT p), w)
  end.

(** [src.rename(dst)]: a regular file replaces a regular file at [dst]; a
    directory moves with everything below it, onto nothing or onto an empty
    directory. *)
Definition rename (src dst : path) : M unit := fun w =>
  let m := fs w in
  let done m' := (Ret tt, with_event (EvRename src dst) (with_fs m' w)) in
  let fail c := (Raise (OSError c dst), w) in
  match node_at m src with
  | None => (Raise (OSError ENOENT src), w)
  | Some (File data t) =>
      match node_at m dst with
      | Some (Dir _) => fail EISDIR
      | Some (File _ _) => done (<[dst := File data t]> (delete src m))
      | None =>
          match node_at m (PathLib.parent dst) with
          | Some (Dir _) => done (<[dst := File data t]> (delete src m))
          | Some (File _ _) => fail ENOTDIR
          | None => fail ENOENT
          end
      end
  | Some (Dir t) =>
      match node_at m dst with
      | Some (File _ _) => fail ENOTDIR
      | Some (Dir _) =>
          if has_children m dst then fail ENOTEMPTY
          else done (move_tree src dst (delete dst m))
      | None =>
          match node_at m (PathLib.parent dst) with
          | Some (Dir _) => done (move_tree src dst m)
          | Some (File _ _) => fail ENOTDIR
          | None => fail ENOENT
          end
      end
  end.

(** The entries of directory [d], as [(path, node)] pairs, in the order the
    file system lists them. *)
Definition entries (m : gmap path node) (d : path) : list (path * node) :=
  filter (fun kv => PathLib.parent kv.1 = d /\ kv.1 <> []) (map_to_list m).

Definition iterdir (d : path) : M (list (path * node)) := fun w =>
  match node_at (fs w) d with
  | Some (Dir _) => (Ret (entries (fs w) d), w)
  | Some (File _ _) => (Raise (OSError ENOTDIR d), w)
  | None => (Raise (OSError ENOENT d), w)
  end.

(** [d.glob(pattern)] for a pattern of one component: nothing when [d] is
    not a directory. *)
Definition glob (d : path) (pattern : string) : M (list (path * node)) :=
  fun w =>
  (Ret (if is_dir_node (node_at (fs w) d)
        then filter (fun kv => Glob.fnmatch pattern (PathLib.name kv.1) = true)
                    (entries (fs w) d)
        else []), w).

End calls.

End Os.

(** [sorted(l, key=key, reverse=True)]: stable, largest key first. *)
Fixpoint insert_newest {A} (key : A -> Q) (x : A) (l : list A) : list A :=
  match l with
  | [] => [x]
  | y :: l' =>
      if Qle_bool (key y) (key x) then x :: l else y :: insert_newest key x l'
  end.

Definition sort_newest {A} (key : A -> Q) (l : list A) : list A :=
  foldr (insert_newest key) [] l.

(** The head of the list, if any, has the largest key. *)
Definition topped {A} (key : A -> Q) (l : list A) : Prop :=
  match l with
  | [] => True
  | x :: _ => forall y, y ∈ l -> (key y <= key x)%Q
  end.

Fixpoint foldM {A B} (f : B -> A -> M B) (b : B) (l : list A) : M B :=
  match l with
  | [] => mret b
  | x :: l' => b' ← f b x; foldM f b' l'
  end.

Definition Qlt_bool (x y : Q) : bool := negb (Qle_bool y x).

(** ** scripts/lib/utils.py *)

Module Utils.

Record found := { found_path : string; found_mtime : Q }.

(** The deepest path of the file system: no scan nests further. *)
Definition max_depth (m : gmap path node) : nat :=
  max_list (length <$> (map_to_list m).*1).

Section utils.
Context `{PyRuntime} (E : env).

Definition get_home_dir : path := home E.
Definition get_claude_dir : path := get_home_dir // ".claude".
Definition get_sessions_dir : path := get_claude_dir // "sessions".
Definition get_learned_skills_dir : path := get_claude_dir // "skills" // "learned".

Definition get_session_id_short (fallback : string) : string :=
  let session_id := default "" (environ E !! "CLAUDE_SESSION_ID") in
  if negb (Py.truthy (PStr session_id)) then fallback
  else PyStr.slice session_id (Some (-8)) None.

(** [age_days > max_age_days] for an entry stamped [mtime], read at [t]. *)
Definition too_old (max_age_days : Q) (t : instant) (mtime : Q) : bool :=
  let age_days := ((posix t - mtime) / inject_Z (60 * 60 * 24))%Q in
  Qlt_bool max_age_days age_days.

(** One turn of the loop of [search_dir] on [entry]; [descend] is the
    recursive call.  The list [results] the function appends to is passed
    along. *)
Definition visit (descend : path -> list found -> M (list found))
    (regex : string -> bool) (max_age_days : option Q) (recursive : bool)
    (results : list found) (entry : path * node) : M (list found) :=
  match entry.2 with
  | File _ mtime =>
      if regex (PathLib.name entry.1) then
        let hit := {| found_path := PathLib.to_str entry.1;
                      found_mtime := mtime |} in
        match max_age_days with
        | Some max =>
            t ← Os.now E;
            if too_old max t mtime then mret results
            else mret (results ++ [hit])
        | None => mret (results ++ [hit])
        end
      else mret results
  | Dir _ =>
      if recursive then descend entry.1 results else mret results
  end.

(** The inner function [search_dir].  No call in this model raises
    [PermissionError], so the handler around the loop is left out. *)
Fixpoint search_dir (fuel : nat) (regex : string -> bool)
    (max_age_days : option Q) (recursive : bool)
    (current_dir : path) (results : list found) : M (list found) :=
  match fuel with
  | O => mret results
  | S fuel' =>
      listing ← Os.iterdir current_dir;
      foldM (visit (search_dir fuel' regex max_age_days recursive)
               regex max_age_days recursive)
            results listing
  end.

Definition glob_to_regex (pattern : string) : string :=
  let regex_pattern :=
    PyStr.replace (PyStr.replace (PyStr.replace pattern "." "\.") "*" ".*")
                  "?" "." in
  "^" +:+ regex_pattern +:+ "$".

Definition find_files (directory : path) (pattern : string)
    (max_age_days : option Q) (recursive : bool) : M (list found) :=
  present ← Os.exists_ directory;
  if negb present then mret []
  else
    match re_compile (glob_to_regex pattern) with
    | None => raise (ReError (glob_to_regex pattern))
    | Some regex =>
        w ← (fun w => (Ret w, w));
        results ← search_dir (S (max_depth (fs w))) regex max_age_days
                    recursive directory [];
        mret (sort_newest found_mtime results)
    end.

End utils.

(** The matching files below [d], in the order [search_dir] meets them. *)
Fixpoint hits (fuel : nat) (regex : string -> bool) (recursive : bool)
    (m : gmap path node) (d : path) : list found :=
  match fuel with
  | O => []
  | S fuel' =>
      flat_map (fun entry : path * node =>
        match entry.2 with
        | File _ mtime =>
            if regex (PathLib.name entry.1)
            then [{| found_path := PathLib.to_str entry.1;
                     found_mtime := mtime |}]
            else []
        | Dir _ =>
            if recursive then hits fuel' regex recursive m entry.1 else []
        end) (Os.entries m d)
  end.

(** What the age test keeps of [l] when its first element is examined at
    clock position [t], the next one at [t + 1], and so on. *)
Fixpoint judge (E : env) (max_age_days : Q) (t : nat) (l : list found)
  : list found :=
  match l with
  | [] => []
  | x :: l' =>
      if too_old max_age_days (clock E t) (found_mtime x)
      then judge E max_age_days (S t) l'
      else x :: judge E max_age_days (S t) l'
  end.

(** [re.search] and [re.findall] with the pattern given as text; [None]
    when the pattern does not compile.  [re_findall] gives the matches. *)
Class PyRegex := {
  re_search : string -> option (string -> bool);
  re_findall : string -> option (string -> list string)
}.

(** One entry of what [grep_file] returns. *)
Record grep_hit := { line_number : Z; content : string }.

Section files.
Context `{PyRuntime} `{PyRegex} (E : env).

Definition get_temp_dir : path := tmpdir E.

Definition ensure_dir (dir_path : path) : M path :=
  Os.mkdir E dir_path;; mret dir_path.

Definition get_date_string : M string :=
  t ← Os.now E; mret (Strftime.date (local_time t)).

Definition get_time_string : M string :=
  t ← Os.now E; mret (Strftime.hm (local_time t)).

Definition get_datetime_string : M string :=
  t ← Os.now E; mret (Strftime.date_time (local_time t)).

Definition log (message : string) : M unit := eprint message.

(** [None] is the Python [None]. *)
Definition read_file (file_path : path) : M (option string) :=
  try_except (text ← Os.read_text file_path; mret (Some text))
             is_OSError
             (fun _ => mret None).

Definition write_file (file_path : path) (content : string) : M unit :=
  ensure_dir (PathLib.parent file_path);;
  Os.write_text E file_path content.

Definition append_file (file_path : path) (content : string) : M unit :=
  ensure_dir (PathLib.parent file_path);;
  Os.append_text E file_path content.

Definition replace_in_file (file_path : path) (search replace : string)
  : M bool :=
  content ← read_file file_path;
  match content with
  | None => mret false
  | Some content =>
      let new_content := PyStr.replace content search replace in
      write_file file_path new_content;;
      mret true
  end.

Definition count_in_file (file_path : path) (pattern : string) : M Z :=
  content ← read_file file_path;
  match content with
  | None => mret 0
  | Some content =>
      match re_findall pattern with
      | None => raise (ReError pattern)
      | Some findall => mret (Z.of_nat (length (findall content)))
      end
  end.

(** The loop of [grep_file] from line number [idx] on; [results] is the
    list it appends to.  Each turn calls [re.search] with the pattern. *)
Fixpoint grep_lines (pattern : string) (idx : Z) (lines : list string)
    (results : list grep_hit) : res (list grep_hit) :=
  match lines with
  | [] => inr results
  | line :: lines' =>
      match re_search pattern with
      | None => inl (ReError pattern)
      | Some search =>
          grep_lines pattern (idx + 1) lines'
            (if search line
             then results ++ [{| line_number := idx; content := line |}]
             else results)
      end
  end.

Definition grep_file (file_path : path) (pattern : string)
  : M (list grep_hit) :=
  content ← read_file file_path;
  match content with
  | None => mret []
  | Some content =>
      lift (grep_lines pattern 1 (PyStr.split "010" content) [])
  end.

(** [project_dir or Path.cwd()]: a path is never falsy. *)
Definition is_poetry_project (project_dir : option path) : M bool :=
  Os.exists_ (default (cwd E) project_dir // "pyproject.toml").

End files.

(** What a finished process leaves behind, with its output captured as
    text: [subprocess.CompletedProcess]. *)
Record completed := { returncode : Z; out : string; err : string }.

(** [subprocess.run] with a list of arguments, and with a command line for
    the shell in directory [cwd]; [inl] when the call raises. *)
Class Subprocess := {
  run_argv : list string -> res completed;
  run_shell : string -> option string -> res completed
}.

(** The dictionary [run_command] returns. *)
Record command_result := { success : bool; output : string }.

Section processes.
Context `{PyRuntime} `{PyRegex} `{Subprocess} (is_windows : bool).

Definition is_command_char (c : ascii) : bool :=
  let n := N_of_ascii c in
  ((48 <=? n) && (n <=? 57) || (65 <=? n) && (n <=? 90)
   || (97 <=? n) && (n <=? 122)
   || (n =? 95) || (n =? 46) || (n =? 45))%N.

(** [re.match(r"^[a-zA-Z0-9_.-]+$", cmd)]: the [$] also matches before a
    line feed that ends the text. *)
Definition command_name_ok (cmd : string) : bool :=
  let body :=
    match String.rev cmd with
    | String "010" rbody => String.rev rbody
    | _ => cmd
    end in
  negb (String.eqb body "") && PyStr.every is_command_char body.

Definition command_exists (cmd : string) : res bool :=
  if negb (command_name_ok cmd) then inr false
  else
    match run_argv [if is_windows then "where" else "which"; cmd] with
    | inr result => inr (returncode result =? 0)
    | inl e => if is_Exception e then inr false else inl e
    end.

Definition run_command (cmd : string) (cwd : option string)
  : res command_result :=
  match run_shell cmd cwd with
  | inr result =>
      if returncode result =? 0
      then inr {| success := true; output := PyStr.strip (out result) |}
      else inr {| success := false;
                  output := if Py.truthy (PStr (err result))
                            then err result else out result |}
  | inl e =>
      if is_Exception e
      then inr {| success := false; output := exn_str e |}
      else inl e
  end.

Definition is_git_repo : res bool :=
  result ← run_command "git rev-parse --git-dir" None;
  mret (success result).

(** The inner loop of [get_git_modified_files]: whether [file] is appended;
    the loop stops at the first pattern that matches. *)
Fixpoint matches_one (patterns : list string) (file : string) : res bool :=
  match patterns with
  | [] => inr false
  | pattern :: patterns' =>
      match re_search pattern with
      | None => inl (ReError pattern)
      | Some search =>
          if search file then inr true else matches_one patterns' file
      end
  end.

(** The outer loop, appending to [filtered]. *)
Fixpoint filter_files (patterns : list string) (files filtered : list string)
  : res (list string) :=
  match files with
  | [] => inr filtered
  | file :: files' =>
      hit ← matches_one patterns file;
      filter_files patterns files'
        (if hit : bool then filtered ++ [file] else filtered)
  end.

Definition get_git_modified_files (patterns : option (list string))
  : res (list string) :=
  repo ← is_git_repo;
  if negb repo then inr []
  else
    result ← run_command "git diff --name-only HEAD" None;
    if negb (success result) then inr []
    else
      let files :=
        List.filter (fun f => Py.truthy (PStr f))
                    (PyStr.split "010" (output result)) in
      match patterns with
      | Some ((_ :: _) as patterns) => filter_files patterns files []
      | _ => inr files
      end.

End processes.

Definition poetry_commands : gmap string string :=
  list_to_map
    [("install", "poetry install");
     ("test", "poetry run pytest");
     ("lint", "poetry run ruff check .");
     ("format", "poetry run ruff format . && poetry run black .");
     ("check", "poetry run ruff check . && poetry run black --check .");
     ("dev", "poetry run uvicorn app.main:app --reload")].

Definition get_poetry_command (action : string) : string :=
  default ("poetry run " +:+ action) (poetry_commands !! action).

End Utils.

(** ** scripts/hooks/session_start.py *)

Module SessionStart.

Section session_start.
Context (E : env).

Definition find_recent_files (directory : path) (pattern : string)
    (max_age_days : Z) : M (list path) :=
  present ← Os.exists_ directory;
  if negb present then mret []
  else
    t ← Os.now E;
    let cutoff := (posix t - inject_Z (max_age_days * 24 * 60 * 60))%Q in
    listing ← Os.glob directory pattern;
    let files :=
      filter (fun kv => Os.is_file_node (Some kv.2) = true
                        /\ Qle_bool cutoff (Os.st_mtime kv.2) = true) listing in
    mret ((sort_newest (fun kv => Os.st_mtime kv.2) files).*1).

End session_start.

Section session_start_main.
Context `{PyRuntime} (E : env).

Definition get_claude_dir : path := home E // ".claude".
Definition get_sessions_dir : path := get_claude_dir // "sessions".
Definition get_learned_skills_dir : path :=
  get_claude_dir // "skills" // "learned".

Definition is_poetry_project (project_dir : option path) : M bool :=
  Os.exists_ (default (cwd E) project_dir // "pyproject.toml").

Definition found_line (recent_sessions : list path) : string :=
  "[SessionStart] Found " +:+ pretty (length recent_sessions)
  +:+ " recent session(s)".

Definition latest_line (latest : path) : string :=
  "[SessionStart] Latest: " +:+ PathLib.to_str latest.

Definition learned_line (learned_skills : list (path * node))
    (learned_dir : path) : string :=
  "[SessionStart] " +:+ pretty (length learned_skills)
  +:+ " learned skill(s) available in " +:+ PathLib.to_str learned_dir.

Definition poetry_line : string := "[SessionStart] Poetry project detected".

Definition lock_line : string :=
  "[SessionStart] poetry.lock found - dependencies are locked".

Definition requirements_line : string :=
  "[SessionStart] requirements.txt found - pip project detected".

Definition main : M unit :=
  let sessions_dir := get_sessions_dir in
  let learned_dir := get_learned_skills_dir in
  Os.mkdir E sessions_dir;;
  Os.mkdir E learned_dir;;
  recent_sessions ← find_recent_files E sessions_dir "*-session.tmp" 7;
  match recent_sessions with
  | latest :: _ =>
      eprint (found_line recent_sessions);;
      eprint (latest_line latest)
  | [] => mret tt
  end;;
  learned_skills ← Os.glob learned_dir "*.md";
  match learned_skills with
  | _ :: _ => eprint (learned_line learned_skills learned_dir)
  | [] => mret tt
  end;;
  let cwd := cwd E in
  poetry ← is_poetry_project (Some cwd);
  if poetry : bool
  then
    eprint poetry_line;;
    locked ← Os.exists_ (cwd // "poetry.lock");
    when locked (eprint lock_line)
  else
    pip ← Os.exists_ (cwd // "requirements.txt");
    when pip (eprint requirements_line).

Definition run : M unit :=
  try_except main is_Exception
    (fun e => eprint ("[SessionStart] Error: " +:+ exn_str e)).

End session_start_main.

End SessionStart.

(** ** scripts/hooks/session_end.py *)

Module SessionEnd.

Section session_end.
Context `{PyRuntime} (E : env).

Definition get_claude_dir : path := home E // ".claude".
Definition get_sessions_dir : path := get_claude_dir // "sessions".

Definition get_session_id_short : string :=
  let session_id := default "" (environ E !! "CLAUDE_SESSION_ID") in
  if Py.truthy (PStr session_id)
  then PyStr.slice session_id (Some (-8)) None
  else "default".

Definition session_file_name (date_str session_id : string) : string :=
  date_str +:+ "-" +:+ session_id +:+ "-session.tmp".

Definition metadata_file_name (date_str session_id : string) : string :=
  date_str +:+ "-" +:+ session_id +:+ "-metadata.json".

Definition end_marker (t : datetime) : string :=
  PyStr.nl +:+ "---" +:+ PyStr.nl +:+ "**[Session ended at "
  +:+ Strftime.hm t +:+ "]**" +:+ PyStr.nl.

Definition metadata (session_id : string) (t : datetime) : pyval :=
  PDict [("session_id", PStr session_id);
         ("ended_at", PStr (Strftime.isoformat t));
         ("cwd", PStr (PathLib.to_str (cwd E)))].

Definition main : M unit :=
  let sessions_dir := get_sessions_dir in
  Os.mkdir E sessions_dir;;
  let session_id := get_session_id_short in
  t ← Os.now E;
  let date_str := Strftime.date (local_time t) in
  let session_file := sessions_dir // session_file_name date_str session_id in
  present ← Os.exists_ session_file;
  when present
    (Os.append_text_opened E session_file
       (fun t => end_marker (local_time t)));;
  let metadata_file := sessions_dir // metadata_file_name date_str session_id in
  t ← Os.now E;
  Os.write_text E metadata_file
    (json_dumps_indent 2 (metadata session_id (local_time t)));;
  eprint ("[SessionEnd] Session state saved to " +:+ PathLib.to_str sessions_dir).

(** The [__main__] block. *)
Definition run : M unit :=
  try_except main is_Exception
    (fun e => eprint ("[SessionEnd] Error: " +:+ exn_str e)).

End session_end.

End SessionEnd.

(** ** scripts/hooks/pre_compact.py *)

Module PreCompact.

Section pre_compact.
Context `{PyRuntime} (E : env).

Definition get_claude_dir : path := home E // ".claude".
Definition get_sessions_dir : path := get_claude_dir // "sessions".

Definition log_line (t : datetime) : string :=
  "[" +:+ Strftime.date_time t +:+ "] Context compaction triggered" +:+ PyStr.nl.

Definition annotation (t : datetime) : string :=
  PyStr.nl +:+ "---" +:+ PyStr.nl +:+ "**[Compaction occurred at "
  +:+ Strftime.hm t +:+ "]** - Context was summarized" +:+ PyStr.nl.

Definition main : M unit :=
  let sessions_dir := get_sessions_dir in
  let compaction_log := sessions_dir // "compaction-log.txt" in
  Os.mkdir E sessions_dir;;
  t ← Os.now E;
  Os.append_text E compaction_log (log_line (local_time t));;
  listing ← Os.glob sessions_dir "*-session.tmp";
  let sessions := sort_newest (fun kv => Os.st_mtime kv.2) listing in
  match sessions with
  | active_session :: _ =>
      t ← Os.now E;
      Os.append_text E active_session.1 (annotation (local_time t))
  | [] => mret tt
  end;;
  eprint "[PreCompact] State saved before compaction".

Definition run : M unit :=
  try_except main is_Exception
    (fun e => eprint ("[PreCompact] Error: " +:+ exn_str e)).

End pre_compact.

End PreCompact.

(** ** scripts/hooks/suggest_compact.py *)

Module SuggestCompact.

Section suggest_compact.
Context `{PyRuntime} (E : env).

(** [os.environ.get(a) or os.environ.get(b) or "default"] *)
Definition session_id : string :=
  match environ E !! "CLAUDE_SESSION_ID" with
  | Some s => if Py.truthy (PStr s) then s else
      match environ E !! "PPID" with
      | Some s' => if Py.truthy (PStr s') then s' else "default"
      | None => "default"
      end
  | None =>
      match environ E !! "PPID" with
      | Some s' => if Py.truthy (PStr s') then s' else "default"
      | None => "default"
      end
  end.

Definition counter_file : path :=
  tmpdir E // ("claude-tool-count-" +:+ session_id).

(** [int(os.environ.get("COMPACT_THRESHOLD", "50"))] *)
Definition read_threshold : res Z :=
  Py.int (default "50" (environ E !! "COMPACT_THRESHOLD")).

Definition reached_line (threshold : Z) : string :=
  "[StrategicCompact] " +:+ pretty threshold
  +:+ " tool calls reached - consider /compact if transitioning phases".

Definition checkpoint_line (count : Z) : string :=
  "[StrategicCompact] " +:+ pretty count
  +:+ " tool calls - good checkpoint for /compact if context is stale".

(** The body of [main] once the threshold is known. *)
Definition check (threshold : Z) : M unit :=
  present ← Os.exists_ counter_file;
  count ←
    (if present : bool
     then try_except
            (text ← Os.read_text counter_file;
             n ← lift (Py.int (PyStr.strip text));
             mret (n + 1))
            (fun e => is_ValueError e || is_OSError e)
            (fun _ => mret 1)
     else mret 1 : M Z);
  text ← lift (Py.str_int count);
  Os.write_text E counter_file text;;
  when (count =? threshold) (eprint (reached_line threshold));;
  when ((threshold <? count) && (count `mod` 25 =? 0))
    (eprint (checkpoint_line count)).

Definition main : M unit :=
  threshold ← lift read_threshold;
  check threshold.

Definition run : M unit :=
  try_except main is_Exception
    (fun e => eprint ("[StrategicCompact] Error: " +:+ exn_str e)).

End suggest_compact.

End SuggestCompact.

(** ** scripts/hooks/evaluate_session.py *)

Module EvaluateHook.

Section evaluate_hook.
Context `{PyRuntime} (E : env).

Definition get_claude_dir : path := home E // ".claude".
Definition get_sessions_dir : path := get_claude_dir // "sessions".
Definition get_learned_skills_dir : path :=
  get_claude_dir // "skills" // "learned".

Definition log_line (t : datetime) : string :=
  "[" +:+ Strftime.date_time t +:+ "] Session evaluation triggered"
  +:+ PyStr.nl.

Definition evaluated_line (learned_count : nat) : string :=
  "[EvaluateSession] Session evaluated - " +:+ pretty learned_count
  +:+ " learned skills in library".

Definition learn_line : string :=
  "[EvaluateSession] Use /learn command to manually extract patterns".

Definition main : M unit :=
  let sessions_dir := get_sessions_dir in
  let learned_dir := get_learned_skills_dir in
  Os.mkdir E learned_dir;;
  let evaluation_log := sessions_dir // "evaluation-log.txt" in
  t ← Os.now E;
  let timestamp := local_time t in
  Os.append_text E evaluation_log (log_line timestamp);;
  listing ← Os.glob learned_dir "*.md";
  let learned_count := length listing in
  eprint (evaluated_line learned_count);;
  eprint learn_line.

Definition run : M unit :=
  try_except main is_Exception
    (fun e => eprint ("[EvaluateSession] Error: " +:+ exn_str e)).

End evaluate_hook.

End EvaluateHook.

(** ** skills/continuous-learning/evaluate_session.py *)

Module EvaluateSession.

(** The two spellings of the user-message marker. *)
Definition marker_tight : string :=
  PyStr.dq +:+ "type" +:+ PyStr.dq +:+ ":" +:+ PyStr.dq +:+ "user" +:+ PyStr.dq.

Definition marker_spaced : string :=
  PyStr.dq +:+ "type" +:+ PyStr.dq +:+ ": " +:+ PyStr.dq +:+ "user" +:+ PyStr.dq.

Definition user_messages (content : string) : Z :=
  Z.of_nat (PyStr.count content marker_tight)
  + Z.of_nat (PyStr.count content marker_spaced).

(** The root of a path text: exactly two leading slashes are kept, one
    slash or three and more make one. *)
Definition root (s : string) : string :=
  match s with
  | String "/" (String "/" (String "/" _)) => "/"
  | String "/" (String "/" _) => "//"
  | String "/" _ => "/"
  | _ => ""
  end.

(** [str(Path(s))] *)
Definition shown (s : string) : string :=
  match PathLib.parts s with
  | [] => if String.eqb (root s) "" then "." else root s
  | l => root s +:+ PyStr.join "/" l
  end.

Definition too_short_line (message_count : Z) : string :=
  "[ContinuousLearning] Session too short (" +:+ pretty message_count
  +:+ " messages), skipping".

Definition evaluate_line (message_count : Z) : string :=
  "[ContinuousLearning] Session has " +:+ pretty message_count
  +:+ " messages - evaluate for extractable patterns".

Definition save_line (learned_skills_path : string) : string :=
  "[ContinuousLearning] Save learned skills to: " +:+ learned_skills_path.

Section evaluate_session.
Context `{PyRuntime} (E : env).

Definition get_config_dir : path := script_dir E.

Definition get_learned_skills_path : path :=
  home E // ".claude" // "skills" // "learned".

Definition load_config : M pyval :=
  let config_file := get_config_dir // "config.json" in
  present ← Os.exists_ config_file;
  if present : bool
  then try_except
         (text ← Os.read_text config_file;
          match json_loads text with
          | Some v => mret v
          | None => raise (JSONDecodeError text)
          end)
         (fun e => is_JSONDecodeError e || is_OSError e)
         (fun _ => mret (PDict []))
  else mret (PDict []).

Definition count_messages (transcript_path : path) : M Z :=
  present ← Os.exists_ transcript_path;
  if negb present then mret 0
  else try_except
         (content ← Os.read_text_decoding E transcript_path;
          mret (user_messages content))
         (fun e => is_OSError e || is_UnicodeDecodeError e)
         (fun _ => mret 0).

(** The configured destination: the path the system calls use and the text
    the path prints as. *)
Definition learned_skills_path (config : pyval) : res (path * string) :=
  learned_path_str ← Py.get config "learned_skills_path" (PStr "");
  if Py.truthy learned_path_str
  then match learned_path_str with
       | PStr s =>
           let s' := PyStr.replace s "~" (PathLib.to_str (home E)) in
           mret (cwd E // s', shown s')
       | v => inl (AttributeError v)
       end
  else mret (get_learned_skills_path, PathLib.to_str get_learned_skills_path).

Definition main : M unit :=
  config ← load_config;
  min_session_length ← lift (Py.get config "min_session_length" (PInt 10));
  dest ← lift (learned_skills_path config);
  Os.mkdir E dest.1;;
  let transcript_path_str := default "" (environ E !! "CLAUDE_TRANSCRIPT_PATH") in
  if negb (Py.truthy (PStr transcript_path_str)) then sys_exit 0
  else
    let transcript_path := cwd E // transcript_path_str in
    present ← Os.exists_ transcript_path;
    if negb present then sys_exit 0
    else
      message_count ← count_messages transcript_path;
      short ← lift (Py.int_lt message_count min_session_length);
      if short : bool
      then eprint (too_short_line message_count);; sys_exit 0
      else
        eprint (evaluate_line message_count);;
        eprint (save_line dest.2).

End evaluate_session.

End EvaluateSession.

(** ** skills/continuous-learning-v2/hooks/observe.py *)

Module Observe.

Section observe.
Context `{PyRuntime} (E : env).

Definition get_config_dir : path := home E // ".claude" // "homunculus".

Definition get_observations_file : path :=
  get_config_dir // "observations.jsonl".

Definition archive_name (t : datetime) : string :=
  "observations-" +:+ Strftime.compact t +:+ ".jsonl".

(** [st_size / (1024 * 1024)] *)
Definition size_mb (n : node) : Q :=
  (inject_Z (Os.st_size n) / inject_Z (1024 * 1024))%Q.

Definition archive_if_needed (observations_file : path) (max_size_mb : Z)
  : M unit :=
  (fun w => (Ret tt, with_event (EvArchiveCheck observations_file) w));;
  present ← Os.exists_ observations_file;
  if negb present then mret tt
  else
    try_except
      (st ← Os.stat observations_file;
       if Qle_bool (inject_Z max_size_mb) (size_mb st)
       then
         let archive_dir := get_config_dir // "observations.archive" in
         Os.mkdir E archive_dir;;
         t ← Os.now E;
         let archive_path := archive_dir // archive_name (local_time t) in
         Os.rename observations_file archive_path
       else mret tt)
      is_OSError
      (fun _ => mret tt).

(** [json.dumps(v)[:5000]] for a [dict], [str(v)[:5000]] otherwise. *)
Definition truncated (v : pyval) : string :=
  PyStr.slice (if Py.is_dict v then json_dumps v else Py.str v)
              None (Some 5000).

Definition parse_hook_input (input_json : string) : pyval :=
  let body : res pyval :=
    data ← from_option inr (inl (JSONDecodeError input_json))
           (json_loads input_json);
    hook_type ← Py.get data "hook_type" (PStr "unknown");
    tool_name ← (alt ← Py.get data "tool" (PStr "unknown");
                 Py.get data "tool_name" alt);
    tool_input ← (alt ← Py.get data "input" (PDict []);
                  Py.get data "tool_input" alt);
    tool_output ← (alt ← Py.get data "output" (PStr "");
                   Py.get data "tool_output" alt);
    session_id ← Py.get data "session_id" (PStr "unknown");
    let tool_input_str := truncated tool_input in
    let tool_output_str := truncated tool_output in
    pre ← Py.str_in "Pre" hook_type;
    let event := if pre : bool then "tool_start" else "tool_complete" in
    mret (PDict
      [("parsed", PBool true);
       ("event", PStr event);
       ("tool", tool_name);
       ("input", if String.eqb event "tool_start"
                 then PStr tool_input_str else PNone);
       ("output", if String.eqb event "tool_complete"
                  then PStr tool_output_str else PNone);
       ("session", session_id)]) in
  match body with
  | inr parsed => parsed
  | inl e => PDict [("parsed", PBool false); ("error", PStr (exn_str e))]
  end.

Definition write_observation (observation : pyval) (observations_file : path)
  : M unit :=
  Os.mkdir E (PathLib.parent observations_file);;
  Os.append_text E observations_file (json_dumps observation +:+ PyStr.nl).

Definition parse_error_observation (timestamp input_json : string) : pyval :=
  PDict [("timestamp", PStr timestamp);
         ("event", PStr "parse_error");
         ("raw", PStr (PyStr.slice input_json None (Some 1000)))].

(** The record [main] builds from a parsed event. *)
Definition build_observation (timestamp : string) (parsed : pyval)
  : res pyval :=
  event ← Py.getitem parsed "event";
  tool ← Py.getitem parsed "tool";
  session ← Py.getitem parsed "session";
  let observation :=
    [("timestamp", PStr timestamp); ("event", event); ("tool", tool);
     ("session", session)] in
  input ← Py.get parsed "input" PNone;
  observation ←
    (if Py.truthy input
     then v ← Py.getitem parsed "input"; mret (Py.setitem "input" v observation)
     else mret observation);
  output ← Py.get parsed "output" PNone;
  observation ←
    (if Py.truthy output
     then v ← Py.getitem parsed "output"; mret (Py.setitem "output" v observation)
     else mret observation);
  mret (PDict observation).

Definition main : M unit :=
  let config_dir := get_config_dir in
  let observations_file := get_observations_file in
  Os.mkdir E config_dir;;
  disabled ← Os.exists_ (config_dir // "disabled");
  if disabled : bool then sys_exit 0
  else
    match stdin E with
    | None => sys_exit 0
    | Some input_json =>
        if negb (Py.truthy (PStr (PyStr.strip input_json))) then sys_exit 0
        else
          let parsed := parse_hook_input input_json in
          t ← Os.now E;
          let timestamp := Strftime.iso_z (utc_time t) in
          ok ← lift (Py.get parsed "parsed" PNone);
          if negb (Py.truthy ok)
          then
            write_observation (parse_error_observation timestamp input_json)
                              observations_file;;
            sys_exit 0
          else
            archive_if_needed observations_file 10;;
            observation ← lift (build_observation timestamp parsed);
            write_observation observation observations_file
    end.

End observe.

End Observe.

(** ** scripts/hooks/check_print.py *)

Module CheckPrint.

Section check_print.
Context `{Utils.Subprocess} (E : env).

Definition warning_line (file : string) (line_num : Z) : string :=
  "[Hook] WARNING: print() found in " +:+ file +:+ ":" +:+ pretty line_num.

Definition hint_line : string :=
  "[Hook] Consider removing print() statements or using logger before committing".

(** Three quotation marks in a row. *)
Definition triple (q : ascii) : string := String q (String q (String q "")).

(** The loop over the lines of one file, numbered from [line_num]. *)
Fixpoint scan_lines (file : string) (line_num : Z) (lines : list string)
    (has_print : bool) : M bool :=
  match lines with
  | [] => mret has_print
  | line :: lines' =>
      let stripped := PyStr.lstrip line in
      if PyStr.startswith "#" stripped
      then scan_lines file (line_num + 1) lines' has_print
      else if PyStr.contains "print(" line
              && negb (PyStr.contains (triple "034") line)
              && negb (PyStr.contains (triple "'") line)
      then
        eprint (warning_line file line_num);;
        scan_lines file (line_num + 1) lines' true
      else scan_lines file (line_num + 1) lines' has_print
  end.

(** The loop over the files; a file name is relative to the working
    directory. *)
Fixpoint scan_files (files : list string) (has_print : bool) : M bool :=
  match files with
  | [] => mret has_print
  | file :: files' =>
      content ← Os.read_text (cwd E // file);
      has_print ← scan_lines file 1 (PyStr.split "010" content) has_print;
      scan_files files' has_print
  end.

(** [[f for f in names if f.endswith(".py") and Path(f).exists()]] *)
Fixpoint python_files (names : list string) : M (list string) :=
  match names with
  | [] => mret []
  | f :: names' =>
      keep ← (if PyStr.endswith ".py" f then Os.exists_ (cwd E // f)
              else mret false);
      files ← python_files names';
      mret (if keep : bool then f :: files else files)
  end.

(** The [try] block.  The result is what it printed on standard output, one
    entry for each [print], when it left through [return]. *)
Definition checks (data : string) : M (option (list string)) :=
  result ← lift (Utils.run_argv ["git"; "rev-parse"; "--git-dir"]);
  if negb (Utils.returncode result =? 0) then mret (Some [data])
  else
    result ← lift (Utils.run_argv ["git"; "diff"; "--name-only"; "HEAD"]);
    files ← python_files
              (PyStr.split "010" (PyStr.strip (Utils.out result)));
    has_print ← scan_files files false;
    when has_print (eprint hint_line);;
    mret None.

(** [main] from its second statement on, [data] being what was read from
    standard input.  The result is what was printed on standard output, one
    entry for each [print]. *)
Definition main (data : string) : M (list string) :=
  returned ← try_except (checks data) is_Exception (fun _ => mret None);
  match returned with
  | Some printed => mret printed
  | None => mret [data]
  end.

(** What the scan says about the text of one file: whether a line is
    reported, and the warnings of the file in the order of its lines. *)
Definition reported (line : string) : bool :=
  negb (PyStr.startswith "#" (PyStr.lstrip line))
  && PyStr.contains "print(" line
  && negb (PyStr.contains (triple "034") line)
  && negb (PyStr.contains (triple "'") line).

Definition file_warnings (file content : string) : list string :=
  omap id
    (imap (fun i line =>
             if reported line
             then Some (warning_line file (Z.of_nat (S i)))
             else None)
          (PyStr.split "010" content)).

(** Whether [file] can be read: it names a regular file. *)
Definition readable (m : gmap path node) (file : string) : bool :=
  Os.is_file_node (Os.node_at m (cwd E // file)).

(** The files of [files] that come before the first one that cannot be
    read. *)
Fixpoint readable_prefix (m : gmap path node) (files : list string)
  : list string :=
  match files with
  | file :: files' =>
      if readable m file then file :: readable_prefix m files' else []
  | [] => []
  end.

End check_print.

End CheckPrint.

(** ** A reference runtime

    An executable [PyRuntime] for running the hooks on concrete inputs.  It
    follows CPython on json documents without floating-point numbers and
    without [\u] escapes, on ASCII text, and on the regular expressions
    [glob_to_regex] builds from literals, [.], [*] and [?]; outside that
    fragment it rejects the input. *)

Module Ref.

Definition hex_digit (n : N) : ascii :=
  ascii_of_N (if (n <? 10)%N then 48 + n else 87 + n).

Definition hex2 (c : ascii) : string :=
  let n := N_of_ascii c in
  String (hex_digit (n / 16)) (String (hex_digit (n mod 16)) EmptyString).

(** One character inside a json string literal. *)
Definition json_char (c : ascii) : string :=
  let n := N_of_ascii c in
  if (n =? 34)%N then "\" +:+ PyStr.dq
  else if (n =? 92)%N then "\\"
  else if (n =? 10)%N then "\n"
  else if (n =? 13)%N then "\r"
  else if (n =? 9)%N then "\t"
  else if (n =? 8)%N then "\b"
  else if (n =? 12)%N then "\f"
  else if (n <? 32)%N || (127 <? n)%N then "\u00" +:+ hex2 c
  else String c EmptyString.

Fixpoint json_chars (s : string) : string :=
  match s with
  | EmptyString => EmptyString
  | String c s' => json_char c +:+ json_chars s'
  end.

Definition json_quote (s : string) : string :=
  PyStr.dq +:+ json_chars s +:+ PyStr.dq.

Definition float_text (x : Q) : string :=
  pretty (Qnum x) +:+ "/" +:+ pretty (Zpos (Qden x)).

Fixpoint dumps (v : pyval) : string :=
  match v with
  | PNone => "null"
  | PBool true => "true"
  | PBool false => "false"
  | PInt n => pretty n
  | PFloat x => float_text x
  | PStr s => json_quote s
  | PList l => "[" +:+ PyStr.join ", " (List.map dumps l) +:+ "]"
  | PDict d =>
      "{" +:+ PyStr.join ", "
                (List.map (fun '(k, x) => json_quote k +:+ ": " +:+ dumps x) d)
      +:+ "}"
  end.

Fixpoint spaces (n : nat) : string :=
  match n with O => "" | S k => String " " (spaces k) end.

Fixpoint dumps_indent (step level : nat) (v : pyval) : string :=
  let inner := PyStr.nl +:+ spaces (step * S level) in
  let close := PyStr.nl +:+ spaces (step * level) in
  match v with
  | PList ((_ :: _) as l) =>
      "[" +:+ inner
      +:+ PyStr.join ("," +:+ inner) (List.map (dumps_indent step (S level)) l)
      +:+ close +:+ "]"
  | PDict ((_ :: _) as d) =>
      "{" +:+ inner
      +:+ PyStr.join ("," +:+ inner)
            (List.map (fun '(k, x) =>
               json_quote k +:+ ": " +:+ dumps_indent step (S level) x) d)
      +:+ close +:+ "}"
  | _ => dumps v
  end.

(** [repr] of a string: single quotes unless the text has one and no
    double quote. *)
Definition repr_char (quote : ascii) (c : ascii) : string :=
  let n := N_of_ascii c in
  if Ascii.eqb c quote then String "\" (String c EmptyString)
  else if (n =? 92)%N then "\\"
  else if (n =? 10)%N then "\n"
  else if (n =? 13)%N then "\r"
  else if (n =? 9)%N then "\t"
  else if (n <? 32)%N || (n =? 127)%N then "\x" +:+ hex2 c
  else String c EmptyString.

Fixpoint repr_chars (quote : ascii) (s : string) : string :=
  match s with
  | EmptyString => EmptyString
  | String c s' => repr_char quote c +:+ repr_chars quote s'
  end.

Definition repr_str (s : string) : string :=
  let quote : ascii :=
    if PyStr.contains "'" s && negb (PyStr.contains PyStr.dq s)
    then "034"%char else "'"%char in
  String quote (repr_chars quote s) +:+ String quote EmptyString.

Fixpoint repr (v : pyval) : string :=
  match v with
  | PNone => "None"
  | PBool true => "True"
  | PBool false => "False"
  | PInt n => pretty n
  | PFloat x => float_text x
  | PStr s => repr_str s
  | PList l => "[" +:+ PyStr.join ", " (List.map repr l) +:+ "]"
  | PDict d =>
      "{" +:+ PyStr.join ", "
                (List.map (fun '(k, x) => repr_str k +:+ ": " +:+ repr x) d)
      +:+ "}"
  end.

(** *** Decoding *)

Definition is_ws (c : ascii) : bool :=
  let n := N_of_ascii c in
  ((n =? 32) || (n =? 9) || (n =? 10) || (n =? 13))%N.

Fixpoint skip_ws (s : string) : string :=
  match s with
  | String c s' => if is_ws c then skip_ws s' else s
  | EmptyString => EmptyString
  end.

Definition unescape (c : ascii) : option ascii :=
  let n := N_of_ascii c in
  if (n =? 34)%N || (n =? 92)%N || (n =? 47)%N then Some c
  else if Ascii.eqb c "n" then Some "010"%char
  else if Ascii.eqb c "r" then Some "013"%char
  else if Ascii.eqb c "t" then Some "009"%char
  else if Ascii.eqb c "b" then Some "008"%char
  else if Ascii.eqb c "f" then Some "012"%char
  else None.

(** The rest of a string literal after its opening quote; [acc] is the text
    read so far, reversed. *)
Fixpoint string_body (acc : string) (s : string) : option (string * string) :=
  match s with
  | EmptyString => None
  | String c s' =>
      let n := N_of_ascii c in
      if (n =? 34)%N then Some (String.rev acc, s')
      else if (n =? 92)%N then
        match s' with
        | String e s'' =>
            match unescape e with
            | Some c' => string_body (String c' acc) s''
            | None => None
            end
        | EmptyString => None
        end
      else if (n <? 32)%N then None
      else string_body (String c acc) s'
  end.

Fixpoint digits (acc : Z) (s : string) : Z * string :=
  match s with
  | String c s' =>
      if Py.is_digit c
      then digits (10 * acc + (Z.of_N (N_of_ascii c) - 48)) s'
      else (acc, s)
  | EmptyString => (acc, s)
  end.

(** An integer literal: no leading zero, no fraction, no exponent. *)
Definition number (s : string) : option (Z * string) :=
  let after (neg : bool) (d : string) :=
    match d with
    | String c d' =>
        if negb (Py.is_digit c) then None
        else
          let '(n, rest) :=
            if Ascii.eqb c "0" then (0, d') else digits 0 d in
          match rest with
          | String c' _ =>
              if Py.is_digit c' || Ascii.eqb c' "." || Ascii.eqb c' "e"
                 || Ascii.eqb c' "E"
              then None
              else Some (if neg then - n else n, rest)
          | EmptyString => Some (if neg then - n else n, rest)
          end
    | EmptyString => None
    end in
  match s with
  | String "-" d => after true d
  | _ => after false s
  end.

Definition literal (word : string) (v : pyval) (s : string)
  : option (pyval * string) :=
  if String.prefix word s then Some (v, PyStr.drop (String.length word) s)
  else None.

Fixpoint value (fuel : nat) (s : string) {struct fuel}
  : option (pyval * string) :=
  match fuel with
  | O => None
  | S fuel' =>
      match skip_ws s with
      | String c rest =>
          let n := N_of_ascii c in
          if (n =? 34)%N then
            '(text, rest') ← string_body "" rest; Some (PStr text, rest')
          else if Ascii.eqb c "[" then
            match skip_ws rest with
            | String "]" rest' => Some (PList [], rest')
            | _ => elements fuel' [] rest
            end
          else if Ascii.eqb c "{" then
            match skip_ws rest with
            | String "}" rest' => Some (PDict [], rest')
            | _ => members fuel' [] rest
            end
          else if Ascii.eqb c "n" then literal "null" PNone (String c rest)
          else if Ascii.eqb c "t" then literal "true" (PBool true) (String c rest)
          else if Ascii.eqb c "f" then literal "false" (PBool false) (String c rest)
          else '(k, rest') ← number (String c rest); Some (PInt k, rest')
      | EmptyString => None
      end
  end
with elements (fuel : nat) (acc : list pyval) (s : string) {struct fuel}
  : option (pyval * string) :=
  match fuel with
  | O => None
  | S fuel' =>
      '(v, rest) ← value fuel' s;
      match skip_ws rest with
      | String "," rest' => elements fuel' (acc ++ [v]) rest'
      | String "]" rest' => Some (PList (acc ++ [v]), rest')
      | _ => None
      end
  end
with members (fuel : nat) (acc : list (string * pyval)) (s : string)
    {struct fuel} : option (pyval * string) :=
  match fuel with
  | O => None
  | S fuel' =>
      match skip_ws s with
      | String c rest =>
          if negb (N_of_ascii c =? 34)%N then None
          else
            '(k, rest1) ← string_body "" rest;
            match skip_ws rest1 with
            | String ":" rest2 =>
                '(v, rest3) ← value fuel' rest2;
                let acc' := Py.setitem k v acc in
                match skip_ws rest3 with
                | String "," rest4 => members fuel' acc' rest4
                | String "}" rest4 => Some (PDict acc', rest4)
                | _ => None
                end
            | _ => None
            end
      | EmptyString => None
      end
  end.

Definition loads (s : string) : option pyval :=
  '(v, rest) ← value (2 * String.length s + 2) s;
  match skip_ws rest with
  | EmptyString => Some v
  | _ => None
  end.

(** *** Regular expressions *)

Inductive atom := Lit (c : ascii) | AnyChar | AnyStar.

Definition is_meta (c : ascii) : bool :=
  existsb (Ascii.eqb c)
    ["["%char; "]"%char; "("%char; ")"%char; "{"%char; "}"%char;
     "+"%char; "*"%char; "?"%char; "|"%char; "^"%char; "$"%char].

Fixpoint atoms (s : string) : option (list atom) :=
  match s with
  | EmptyString => Some []
  | String "\" (String c s') => cons (Lit c) <$> atoms s'
  | String "\" EmptyString => None
  | String "." (String "*" s') => cons AnyStar <$> atoms s'
  | String "." s' => cons AnyChar <$> atoms s'
  | String c s' => if is_meta c then None else cons (Lit c) <$> atoms s'
  end.

Definition not_newline (c : ascii) : bool := negb (N_of_ascii c =? 10)%N.

(** [f] on [s] or on any rest of [s] reached over characters [.] accepts. *)
Fixpoint any_star (f : string -> bool) (s : string) : bool :=
  f s || match s with
         | String c s' => not_newline c && any_star f s'
         | EmptyString => false
         end.

(** The end of the subject, or the line feed that ends it. *)
Definition at_end (s : string) : bool :=
  match s with
  | EmptyString => true
  | String c EmptyString => negb (not_newline c)
  | _ => false
  end.

Fixpoint run (l : list atom) (s : string) {struct l} : bool :=
  match l with
  | [] => at_end s
  | AnyStar :: l' => any_star (run l') s
  | a :: l' =>
      match s with
      | String c s' =>
          match a with
          | Lit c' => Ascii.eqb c c'
          | _ => not_newline c
          end && run l' s'
      | EmptyString => false
      end
  end.

(** A pattern of the shape [^...$]. *)
Definition compile (pattern : string) : option (string -> bool) :=
  match pattern with
  | String "^" body =>
      match String.rev body with
      | String "$" rbody => run <$> atoms (String.rev rbody)
      | _ => None
      end
  | _ => None
  end.

(** *** Exception messages *)

Definition type_name (v : pyval) : string :=
  match v with
  | PNone => "NoneType"
  | PBool _ => "bool"
  | PInt _ => "int"
  | PFloat _ => "float"
  | PStr _ => "str"
  | PList _ => "list"
  | PDict _ => "dict"
  end.

Definition strerror (c : errno) : string :=
  match c with
  | ENOENT => "[Errno 2] No such file or directory"
  | EEXIST => "[Errno 17] File exists"
  | ENOTDIR => "[Errno 20] Not a directory"
  | EISDIR => "[Errno 21] Is a directory"
  | ENOTEMPTY => "[Errno 39] Directory not empty"
  end.

Definition message (e : exn) : string :=
  match e with
  | OSError c p => strerror c +:+ ": " +:+ repr_str (PathLib.to_str p)
  | JSONDecodeError _ => "Expecting value"
  | ValueError arg =>
      let digits := Py.count_digits arg in
      if Py.max_str_digits <? digits
      then "Exceeds the limit (4300 digits) for integer string conversion: "
           +:+ "value has " +:+ pretty digits
           +:+ " digits; use sys.set_int_max_str_digits() to increase the limit"
      else "invalid literal for int() with base 10: " +:+ repr_str arg
  | TypeError v => "argument of type '" +:+ type_name v +:+ "' is not iterable"
  | AttributeError v =>
      "'" +:+ type_name v +:+ "' object has no attribute 'get'"
  | ReError pattern => "bad pattern " +:+ repr_str pattern
  | KeyError key => repr_str key
  | UnicodeDecodeError =>
      "'utf-8' codec can't decode byte 0xff in position 0: invalid start byte"
  | IntMaxStrDigits _ =>
      "Exceeds the limit (4300 digits) for integer string conversion; "
      +:+ "use sys.set_int_max_str_digits() to increase the limit"
  | SystemExit code => pretty code
  end.

(** *** Patterns without operators

    A pattern of letters, digits, [_] and blanks matches its own text. *)

Definition is_plain (c : ascii) : bool :=
  let n := N_of_ascii c in
  ((48 <=? n) && (n <=? 57) || (65 <=? n) && (n <=? 90)
   || (97 <=? n) && (n <=? 122) || (n =? 95) || (n =? 32))%N.

Definition search (pattern : string) : option (string -> bool) :=
  if PyStr.every is_plain pattern then Some (PyStr.contains pattern) else None.

Definition findall (pattern : string) : option (string -> list string) :=
  if PyStr.every is_plain pattern
  then Some (fun s => replicate (PyStr.count s pattern) pattern)
  else None.

#[global] Instance regex : Utils.PyRegex := {|
  Utils.re_search := search;
  Utils.re_findall := findall
|}.

#[global] Instance runtime : PyRuntime := {|
  json_loads := loads;
  json_dumps := dumps;
  json_dumps_indent := fun n => dumps_indent (Z.to_nat n) 0;
  py_repr := repr;
  exn_str := message;
  re_compile := compile
|}.

End Ref.

(** ** Concrete worlds for the scenarios *)

Module Scenario.

Definition at_time (h m sec : Z) : datetime :=
  {| year := 2025; month := 3; day := 14;
     hour := h; minute := m; second := sec; microsecond := 0 |}.

(** A clock that stands at 12:30:05 local time, thirty days after the
    epoch of the file stamps used below. *)
Definition reading : instant :=
  {| local_time := at_time 12 30 5; utc_time := at_time 11 30 5;
     posix := inject_Z (30 * 86400) |}.

Definition base_env : env :=
  {| environ := ∅;
     home := ["home"; "dev"];
     cwd := ["work"];
     script_dir := ["opt"; "skill"];
     tmpdir := ["tmp"];
     stdin := None;
     clock := fun _ => reading;
     undecodable := fun _ => false |}.

Definition with_var (k v : string) (E : env) : env :=
  {| environ := <[k := v]> (environ E);
     home := home E; cwd := cwd E; script_dir := script_dir E;
     tmpdir := tmpdir E; stdin := stdin E; clock := clock E;
     undecodable := undecodable E |}.

Definition with_stdin (text : string) (E : env) : env :=
  {| environ := environ E;
     home := home E; cwd := cwd E; script_dir := script_dir E;
     tmpdir := tmpdir E; stdin := Some text; clock := clock E;
     undecodable := undecodable E |}.

(** The file at [p] holds bytes that are no UTF-8 text. *)
Definition with_undecodable (p : path) (E : env) : env :=
  {| environ := environ E;
     home := home E; cwd := cwd E; script_dir := script_dir E;
     tmpdir := tmpdir E; stdin := stdin E; clock := clock E;
     undecodable := fun q => bool_decide (q = p) || undecodable E q |}.

Definition world_of (m : gmap path node) : world :=
  {| fs := m; ticks := 0; stderr := []; trace := [] |}.

(** [s] between double quotes. *)
Definition q (s : string) : string := PyStr.dq +:+ s +:+ PyStr.dq.

(** The hook event of an [Edit] call about to run. *)
Definition edit_event : string :=
  "{" +:+ q "hook_type" +:+ ":" +:+ q "PreToolUse" +:+ ","
  +:+ q "tool_name" +:+ ":" +:+ q "Edit" +:+ ","
  +:+ q "tool_input" +:+ ":{" +:+ q "path" +:+ ":" +:+ q "a.py" +:+ "},"
  +:+ q "session_id" +:+ ":" +:+ q "abcdef1234" +:+ "}".

(** A [PreToolUse] event whose tool input is the empty string. *)
Definition empty_input_event : string :=
  "{" +:+ q "hook_type" +:+ ":" +:+ q "PreToolUse" +:+ ","
  +:+ q "tool_input" +:+ ":" +:+ q "" +:+ "}".

(** White space only: a blank, a tab and a line feed. *)
Definition blank : string := " " +:+ String "009" PyStr.nl.

Definition config_dir : path := ["home"; "dev"; ".claude"; "homunculus"].
Definition observations : path := config_dir ++ ["observations.jsonl"].
Definition sessions_dir : path := ["home"; "dev"; ".claude"; "sessions"].

(** A home directory with a small observation log. *)
Definition logged : gmap path node :=
  {[ ["home"] := Dir 0;
     ["home"; "dev"] := Dir 0;
     ["home"; "dev"; ".claude"] := Dir 0;
     config_dir := Dir 0;
     observations := File "{}" 0 ]}.

Definition archive_dir : path := config_dir ++ ["observations.archive"].

(** The archive of a rotation at [reading]. *)
Definition archive : path :=
  archive_dir ++ ["observations-20250314-123005.jsonl"].

(** The log, with a regular file where the archive directory would be. *)
Definition archive_blocked : gmap path node :=
  <[archive_dir := File "" 0]> logged.

(** The log, with a directory that has the name of the archive. *)
Definition archive_taken : gmap path node :=
  <[archive := Dir 0]> (<[archive_dir := Dir 0]> logged).

(** A log of [data], with the archive of an earlier day. *)
Definition logged_with (data : string) : gmap path node :=
  <[observations := File data 0]>
    (<[archive_dir ++ ["observations-20250301-080000.jsonl"]
       := File "{}" 0]>
       (<[archive_dir := Dir 0]> logged)).

(** Ten megabytes of records: a line of five bytes, doubled 21 times. *)
Definition full_log : string :=
  Pos.iter (fun s => s +:+ s) ("{  }" +:+ PyStr.nl) 21.

(** A transcript with [tight] user messages in the spelling without a
    blank and [spaced] in the spelling with one, each on its own line, among
    assistant messages. *)
Definition user_line (blank : bool) : string :=
  "{" +:+ q "type" +:+ (if blank then ": " else ":") +:+ q "user" +:+ "}"
  +:+ PyStr.nl.

Definition assistant_line : string :=
  "{" +:+ q "type" +:+ ":" +:+ q "assistant" +:+ "}" +:+ PyStr.nl.

Definition transcript (tight spaced : nat) : string :=
  Nat.iter tight (fun s => user_line false +:+ assistant_line +:+ s)
    (Nat.iter spaced (fun s => user_line true +:+ s) "").

(** Three markers, last written one, eight and thirty days before the
    clock's reading, and a file that is no marker. *)
Definition aged : gmap path node :=
  {[ ["home"] := Dir 0;
     ["home"; "dev"] := Dir 0;
     ["home"; "dev"; ".claude"] := Dir 0;
     sessions_dir := Dir 0;
     sessions_dir ++ ["a-session.tmp"] := File "a" (inject_Z (29 * 86400));
     sessions_dir ++ ["b-session.tmp"] := File "b" (inject_Z (22 * 86400));
     sessions_dir ++ ["c-session.tmp"] := File "c" 0;
     sessions_dir ++ ["compaction-log.txt"] := File "" (inject_Z (30 * 86400)) ]}.

(** One marker last written exactly seven days before the clock's
    reading. *)
Definition week_old : gmap path node :=
  {[ ["home"] := Dir 0;
     ["home"; "dev"] := Dir 0;
     ["home"; "dev"; ".claude"] := Dir 0;
     sessions_dir := Dir 0;
     sessions_dir ++ ["w-session.tmp"] := File "w" (inject_Z (23 * 86400)) ]}.

(** A working directory that holds the transcript [t.jsonl]. *)
Definition with_transcript (text : string) : gmap path node :=
  {[ ["work"] := Dir 0; ["work"; "t.jsonl"] := File text 0 ]}.

Definition transcript_env : env :=
  with_var "CLAUDE_TRANSCRIPT_PATH" "t.jsonl" base_env.

(** A sessions directory that holds the marker of session [cdef1234],
    started today. *)
Definition session_env : env :=
  with_var "CLAUDE_SESSION_ID" "abcdef1234" base_env.

Definition marker_today : path :=
  sessions_dir ++ ["2025-03-14-cdef1234-session.tmp"].

Definition marker_yesterday : path :=
  sessions_dir ++ ["2025-03-13-aaaaaaaa-session.tmp"].

(** A sessions directory whose only marker is of another day and another
    session. *)
Definition stale : gmap path node :=
  {[ ["home"] := Dir 0;
     ["home"; "dev"] := Dir 0;
     ["home"; "dev"; ".claude"] := Dir 0;
     sessions_dir := Dir 0;
     marker_yesterday := File "# yesterday" 5 ]}.

Definition started : gmap path node :=
  {[ ["home"] := Dir 0;
     ["home"; "dev"] := Dir 0;
     ["home"; "dev"; ".claude"] := Dir 0;
     sessions_dir := Dir 0;
     marker_today := File "# notes" 0 ]}.

(** A working tree under git in which three files are modified; every
    other command fails. *)
Definition repository : Utils.Subprocess := {|
  Utils.run_argv := fun _ =>
    inr {| Utils.returncode := 1; Utils.out := ""; Utils.err := "" |};
  Utils.run_shell := fun cmd _ =>
    if String.eqb cmd "git rev-parse --git-dir"
    then inr {| Utils.returncode := 0; Utils.out := ".git" +:+ PyStr.nl;
                Utils.err := "" |}
    else if String.eqb cmd "git diff --name-only HEAD"
    then inr {| Utils.returncode := 0;
                Utils.out := "src/a.py" +:+ PyStr.nl +:+ "README.md"
                             +:+ PyStr.nl +:+ "src/b.py" +:+ PyStr.nl;
                Utils.err := "" |}
    else inr {| Utils.returncode := 127; Utils.out := "";
                Utils.err := "command not found" |}
|}.

(** A directory that is no working tree. *)
Definition no_repository : Utils.Subprocess := {|
  Utils.run_argv := fun _ =>
    inr {| Utils.returncode := 1; Utils.out := ""; Utils.err := "" |};
  Utils.run_shell := fun _ _ =>
    inr {| Utils.returncode := 128; Utils.out := "";
           Utils.err := "fatal: not a git repository" |}
|}.

(** A working tree in which [git diff] names a script, a text file, a
    directory whose name ends in [.py], a second script and a script that
    is gone. *)
Definition modified : Utils.Subprocess := {|
  Utils.run_argv := fun argv =>
    if bool_decide (argv = ["git"; "rev-parse"; "--git-dir"])
    then inr {| Utils.returncode := 0; Utils.out := ".git" +:+ PyStr.nl;
                Utils.err := "" |}
    else if bool_decide (argv = ["git"; "diff"; "--name-only"; "HEAD"])
    then inr {| Utils.returncode := 0;
                Utils.out := "a.py" +:+ PyStr.nl +:+ "notes.txt" +:+ PyStr.nl
                             +:+ "pkg.py" +:+ PyStr.nl +:+ "b.py" +:+ PyStr.nl
                             +:+ "gone.py" +:+ PyStr.nl;
                Utils.err := "" |}
    else inr {| Utils.returncode := 127; Utils.out := ""; Utils.err := "" |};
  Utils.run_shell := fun _ _ =>
    inr {| Utils.returncode := 127; Utils.out := ""; Utils.err := "" |}
|}.

(** The working directory of [modified]: [a.py] with one reported line,
    the directory [pkg.py], and [b.py]. *)
Definition sources : gmap path node :=
  list_to_map
    [ (["work"], Dir 0);
      (["work"; "a.py"],
       File ("import x" +:+ PyStr.nl +:+ "print(x)" +:+ PyStr.nl
             +:+ "  # print(y)" +:+ PyStr.nl
             +:+ "s = '''print(z)'''" +:+ PyStr.nl) 0);
      (["work"; "notes.txt"], File "print(1)" 0);
      (["work"; "pkg.py"], Dir 0);
      (["work"; "b.py"], File "print(2)" 0) ].

(** A machine on which [which] finds every command. *)
Definition everything_installed : Utils.Subprocess := {|
  Utils.run_argv := fun _ =>
    inr {| Utils.returncode := 0; Utils.out := "/usr/bin/x"; Utils.err := "" |};
  Utils.run_shell := fun _ _ =>
    inr {| Utils.returncode := 0; Utils.out := ""; Utils.err := "" |}
|}.

End Scenario.

(** ** What a hook event carries, read off the decoded document *)

Module Event.

(** [data.get("tool_input", data.get("input", {}))] *)
Definition tool_input (data : pyval) : res pyval :=
  alt ← Py.get data "input" (PDict []); Py.get data "tool_input" alt.

(** [data.get("tool_output", data.get("output", ""))] *)
Definition tool_output (data : pyval) : res pyval :=
  alt ← Py.get data "output" (PStr ""); Py.get data "tool_output" alt.

(** ["Pre" in data.get("hook_type", "unknown")] *)
Definition is_start (data : pyval) : res bool :=
  hook_type ← Py.get data "hook_type" (PStr "unknown");
  Py.str_in "Pre" hook_type.

Definition event_name (start : bool) : string :=
  if start then "tool_start" else "tool_complete".

(** [parsed.get("parsed")] holds: the test [main] makes on what
    [parse_hook_input] returns. *)
Definition parsed_ok (parsed : pyval) : bool :=
  match Py.get parsed "parsed" PNone with
  | inr v => Py.truthy v
  | inl _ => false
  end.

End Event.

(** ** Reading a trace *)

Module Trace.

(** Every append in [l] comes after a rotation check in [l]; [checked] tells
    whether a check has already been seen. *)
Fixpoint guarded (checked : bool) (l : list event) : bool :=
  match l with
  | [] => true
  | EvArchiveCheck _ :: l' => guarded true l'
  | EvAppend _ _ :: l' => checked && guarded checked l'
  | _ :: l' => guarded checked l'
  end.

(** What an invocation added to the trace of [w]. *)
Definition added (w w' : world) : list event :=
  drop (length (trace w)) (trace w').

(** An action removes no event: the trace before it is a prefix of the
    trace after it. *)
Definition grows {A} (m : M A) : Prop :=
  forall w, trace w `prefix_of` trace (m w).2.

End Trace.

(** ** Reading an outcome *)

Module Outcome.

(** Whatever [m] raises is an [Exception]: [m] never leaves through
    [sys.exit]. *)
Definition tame {A} (m : M A) : Prop :=
  forall w, match (m w).1 with
            | Raise e => is_Exception e = true
            | Ret _ => True
            end.

End Outcome.

(** * Properties *)

(** ** The primitives on small inputs *)

Example slice_last_eight :
  PyStr.slice "abcdef1234" (Some (-8)) None = "cdef1234"
  /\ PyStr.slice "abc" (Some (-8)) None = "abc"
  /\ PyStr.slice "abcdef" None (Some 4) = "abcd".
Proof. repeat split. Qed.

Example count_without_overlap :
  PyStr.count "aaaa" "aa" = 2%nat /\ PyStr.count "abc" "" = 4%nat.
Proof. split; reflexivity. Qed.

Example strip_white_space :
  PyStr.strip Scenario.blank = "" /\ PyStr.strip " a b " = "a b".
Proof. split; reflexivity. Qed.

Example path_components :
  ["home"] // ".claude" // "sessions" = ["home"; ".claude"; "sessions"]
  /\ ["home"] // "/tmp//x/./y" = ["tmp"; "x"; "y"]
  /\ PathLib.to_str ["tmp"; "x"] = "/tmp/x".
Proof. repeat split. Qed.

Example int_of_text :
  Py.int " 50 " = inr 50 /\ Py.int "-1_000" = inr (-1000)
  /\ Py.int "abc" = inl (ValueError "abc") /\ Py.int "" = inl (ValueError "")
  /\ Py.int "1__0" = inl (ValueError "1__0").
Proof. repeat split. Qed.

(** [int] skips the white space of C, not the separators 28 to 31 that
    [strip] removes, and refuses a numeral of more than 4300 digits. *)
Example int_white_space_and_limit :
  let fs := String (ascii_of_nat 28) "" in
  let nbsp := String (ascii_of_nat 160) "" in
  PyStr.strip (fs +:+ "5") = "5"
  /\ Py.int (fs +:+ "5") = inl (ValueError (fs +:+ "5"))
  /\ Py.int (nbsp +:+ "5" +:+ PyStr.nl) = inr 5
  /\ Py.int (Strftime.zeros 4300) = inr 0
  /\ Py.int (Strftime.zeros 4301) = inl (ValueError (Strftime.zeros 4301)).
Proof. cbv zeta. split_and!; vm_compute; reflexivity. Qed.

Example glob_and_regex :
  Glob.fnmatch "*-session.tmp" "2025-03-14-cdef1234-session.tmp" = true
  /\ Glob.fnmatch "*-session.tmp" "compaction-log.txt" = false
  /\ Utils.glob_to_regex "*-session.tmp" = "^.*-session\.tmp$"
  /\ (fun regex => regex "notes.md")
       <$> Ref.compile (Utils.glob_to_regex "*.md") = Some true
  /\ (fun regex => regex "notes.mdx")
       <$> Ref.compile (Utils.glob_to_regex "*.md") = Some false.
Proof. repeat split. Qed.

Example strftime_formats :
  let t := Scenario.at_time 9 5 7 in
  Strftime.date t = "2025-03-14" /\ Strftime.hm t = "09:05"
  /\ Strftime.date_time t = "2025-03-14 09:05:07"
  /\ Strftime.compact t = "20250314-090507"
  /\ Strftime.iso_z t = "2025-03-14T09:05:07Z"
  /\ Strftime.isoformat t = "2025-03-14T09:05:07".
Proof. repeat split. Qed.

Example json_round_trip :
  json_dumps <$> json_loads Scenario.edit_event
  = Some ("{" +:+ Scenario.q "hook_type" +:+ ": " +:+ Scenario.q "PreToolUse"
          +:+ ", " +:+ Scenario.q "tool_name" +:+ ": " +:+ Scenario.q "Edit"
          +:+ ", " +:+ Scenario.q "tool_input" +:+ ": {" +:+ Scenario.q "path"
          +:+ ": " +:+ Scenario.q "a.py" +:+ "}, " +:+ Scenario.q "session_id"
          +:+ ": " +:+ Scenario.q "abcdef1234" +:+ "}")
  /\ json_loads "not json" = None.
Proof. split; vm_compute; reflexivity. Qed.

(** ** Strings *)

Section strings.

Lemma take_length s n :
  (String.length s <= n)%nat -> PyStr.take n s = s.
Proof.
  revert n; induction s as [|c s IH]; intros [|n] Hn; simpl in *;
    try reflexivity; try lia.
  f_equal; apply IH; lia.
Qed.

Lemma drop_length s n :
  String.length (PyStr.drop n s) = (String.length s - n)%nat.
Proof.
  revert n; induction s as [|c s IH]; intros [|n]; simpl; try reflexivity.
  apply IH.
Qed.

Lemma app_cons c s1 s2 : String c s1 +:+ s2 = String c (s1 +:+ s2).
Proof. reflexivity. Qed.

Lemma take_drop s n : PyStr.take n s +:+ PyStr.drop n s = s.
Proof.
  revert n; induction s as [|c s IH]; intros [|n]; simpl; try reflexivity.
  rewrite app_cons. f_equal; apply IH.
Qed.

Lemma drop_0 s : PyStr.drop 0 s = s.
Proof. destruct s; reflexivity. Qed.

(** [s[-k:]] keeps the last [k] characters, or all of [s] when it is
    shorter. *)
Lemma slice_suffix s (k : nat) :
  (0 < k)%nat ->
  PyStr.slice s (Some (- Z.of_nat k)) None
  = PyStr.drop (String.length s - k) s.
Proof.
  intros Hk. unfold PyStr.slice, PyStr.clamp; simpl.
  destruct (Z.ltb_spec (- Z.of_nat k) 0) as [_|]; [|lia].
  set (len := String.length s).
  assert (Z.to_nat (Z.max (Z.of_nat len + - Z.of_nat k) 0) = (len - k)%nat)
    as -> by lia.
  apply take_length. rewrite drop_length. fold len. lia.
Qed.

Lemma take_min s k :
  PyStr.take (Nat.min k (String.length s)) s = PyStr.take k s.
Proof.
  revert k; induction s as [|c s IH]; intros [|k]; simpl; try reflexivity.
  f_equal; apply IH.
Qed.

(** [s[:k]] is the first [k] characters. *)
Lemma slice_prefix s (k : nat) :
  PyStr.slice s None (Some (Z.of_nat k)) = PyStr.take k s.
Proof.
  unfold PyStr.slice, PyStr.clamp; simpl.
  destruct (Z.ltb_spec (Z.of_nat k) 0) as [|_]; [lia|].
  rewrite Z.sub_0_r, <- (take_min s k). f_equal. lia.
Qed.

End strings.

(** ** Session identifier *)

Section session_id.
Context (E : env).

Lemma get_session_id_short_agree `{PyRuntime} :
  Utils.get_session_id_short E "default" = SessionEnd.get_session_id_short E.
Proof.
  unfold Utils.get_session_id_short, SessionEnd.get_session_id_short.
  destruct (Py.truthy _); reflexivity.
Qed.

(** C3, amended: the short session identifier is ["default"] when the
    variable is unset or empty; otherwise it is the identifier without all
    but its last eight characters, hence the whole identifier when that has
    fewer than eight characters.  Both copies of the function agree. *)
Theorem session_id_short_spec `{PyRuntime} :
  Utils.get_session_id_short E "default" = SessionEnd.get_session_id_short E
  /\ match environ E !! "CLAUDE_SESSION_ID" with
     | None | Some EmptyString =>
         SessionEnd.get_session_id_short E = "default"
     | Some sid =>
         let short := SessionEnd.get_session_id_short E in
         short = PyStr.drop (String.length sid - 8) sid
         /\ String.length short = Nat.min 8 (String.length sid)
         /\ sid = PyStr.take (String.length sid - 8) sid +:+ short
         /\ ((String.length sid < 8)%nat -> short = sid)
     end.
Proof.
  split; [apply get_session_id_short_agree|].
  unfold SessionEnd.get_session_id_short.
  destruct (environ E !! "CLAUDE_SESSION_ID") as [[|c sid]|];
    try reflexivity.
  cbv beta iota delta [default from_option id Py.truthy String.eqb negb].
  assert (PyStr.slice (String c sid) (Some (-8)) None
          = PyStr.drop (String.length (String c sid) - 8) (String c sid))
    as -> by (apply (slice_suffix (String c sid) 8); lia).
  repeat split.
  - rewrite drop_length. lia.
  - symmetry; apply take_drop.
  - intros Hlt.
    replace (String.length (String c sid) - 8)%nat with 0%nat by lia.
    reflexivity.
Qed.

End session_id.

(** C3 as stated fails: an identifier of three characters is shorter than
    eight and is returned as it is, not replaced by ["default"]. *)
Lemma session_id_short_counterexample :
  let E := Scenario.with_var "CLAUDE_SESSION_ID" "abc" Scenario.base_env in
  (String.length "abc" < 8)%nat
  /\ SessionEnd.get_session_id_short E = "abc"
  /\ Utils.get_session_id_short E "default" = "abc"
  /\ SessionEnd.get_session_id_short E <> "default".
Proof. vm_compute. repeat split; [lia | discriminate]. Qed.

(** ** Tool-count threshold *)

Section threshold.
Context `{PyRuntime} (E : env).

Lemma int_error s e : Py.int s = inl e -> e = ValueError s.
Proof.
  unfold Py.int.
  match goal with |- match ?r with _ => _ end = _ -> _ => destruct r end;
    congruence.
Qed.

End threshold.

(** C8 as stated fails: with [COMPACT_THRESHOLD=abc] the hook does not fall
    back to 50.  On the fiftieth call the default would print the reminder
    and store the new count; here the counter stays at 49 and the only output
    is the error line. *)
Lemma compact_threshold_counterexample :
  let E := Scenario.with_var "COMPACT_THRESHOLD" "abc" Scenario.base_env in
  let w := Scenario.world_of
             {[ ["tmp"] := Dir 0;
                ["tmp"; "claude-tool-count-default"] := File "49" 0 ]} in
  Py.int "abc" = inl (ValueError "abc")
  /\ stderr (SuggestCompact.run E w).2
     = ["[StrategicCompact] Error: invalid literal for int() with base 10: 'abc'"]
  /\ trace (SuggestCompact.run E w).2 = []
  /\ Os.old_data (fs (SuggestCompact.run E w).2)
                 ["tmp"; "claude-tool-count-default"] = "49"
  /\ stderr (SuggestCompact.check E 50 w).2
     = ["[StrategicCompact] 50 tool calls reached - consider /compact if transitioning phases"]
  /\ Os.old_data (fs (SuggestCompact.check E 50 w).2)
                 ["tmp"; "claude-tool-count-default"] = "50".
Proof. cbv zeta. repeat split; vm_compute; reflexivity. Qed.

(** ** Observation records *)

Section observation.
Context `{PyRuntime}.

Lemma truthy_str s : Py.truthy (PStr s) = true <-> s <> "".
Proof.
  simpl. destruct (String.eqb_spec s ""); simpl; split; congruence.
Qed.

(** C9: for a parsed event the record has the key [input] exactly when the
    event is [tool_start] and the truncated text of the tool input is not
    empty, and the key [output] exactly when the event is [tool_complete]
    and the truncated text of the tool output is not empty. *)
Theorem observation_optional_keys (input_json timestamp : string) :
  Event.parsed_ok (Observe.parse_hook_input input_json) = true ->
  exists data tool_input tool_output start observation,
    json_loads input_json = Some data
    /\ Event.tool_input data = inr tool_input
    /\ Event.tool_output data = inr tool_output
    /\ Event.is_start data = inr start
    /\ Py.getitem (Observe.parse_hook_input input_json) "event"
       = inr (PStr (Event.event_name start))
    /\ Observe.build_observation timestamp (Observe.parse_hook_input input_json)
       = inr (PDict observation)
    /\ (Py.has_key "input" observation = true
        <-> start = true /\ Observe.truncated tool_input <> "")
    /\ (Py.has_key "output" observation = true
        <-> start = false /\ Observe.truncated tool_output <> "").
Proof.
  unfold Event.parsed_ok, Observe.parse_hook_input.
  destruct (json_loads input_json) as [data|]; [|discriminate].
  destruct data as [| | | | |l|d]; try discriminate.
  cbn [from_option mbind res_bind Py.get].
  set (tool_input := from_option id (from_option id (PDict []) (Py.assoc "input" d))
                       (Py.assoc "tool_input" d)).
  set (tool_output := from_option id (from_option id (PStr "") (Py.assoc "output" d))
                        (Py.assoc "tool_output" d)).
  destruct (Py.str_in "Pre" _) as [e|start] eqn:Hstart; [discriminate|].
  intros _. exists (PDict d), tool_input, tool_output, start.
  set (base := [("timestamp", PStr timestamp);
                ("event", PStr (Event.event_name start));
                ("tool", from_option id (from_option id (PStr "unknown")
                                           (Py.assoc "tool" d))
                           (Py.assoc "tool_name" d));
                ("session", from_option id (PStr "unknown")
                              (Py.assoc "session_id" d))]).
  destruct start.
  - destruct (Observe.truncated tool_input) as [|c t] eqn:Ht.
    + exists base. cbn.
      repeat split; try reflexivity; try exact Hstart; try discriminate;
        try congruence; intros []; congruence.
    + exists (base ++ [("input", PStr (String c t))]). cbn.
      repeat split; try reflexivity; try exact Hstart; try discriminate;
        try congruence; intros []; congruence.
  - destruct (Observe.truncated tool_output) as [|c t] eqn:Ht.
    + exists base. cbn.
      repeat split; try reflexivity; try exact Hstart; try discriminate;
        try congruence; intros []; congruence.
    + exists (base ++ [("output", PStr (String c t))]). cbn.
      repeat split; try reflexivity; try exact Hstart; try discriminate;
        try congruence; intros []; congruence.
Qed.

End observation.

(** ** Paths *)

Section paths.

#[local] Abbreviation slash_free := (PyStr.free_of "/").

Lemma free_of_app c s1 s2 :
  PyStr.free_of c (s1 +:+ s2) = PyStr.free_of c s1 && PyStr.free_of c s2.
Proof.
  induction s1 as [|a s1 IH]; [reflexivity|].
  rewrite app_cons. simpl. rewrite IH. apply andb_assoc.
Qed.

Lemma split_free c s : PyStr.free_of c s = true -> PyStr.split c s = [s].
Proof.
  induction s as [|a s IH]; [reflexivity|]. simpl.
  intros [Ha Hs]%andb_prop. apply negb_true_iff in Ha. rewrite Ha.
  rewrite (IH Hs). reflexivity.
Qed.

Lemma parts_free s :
  slash_free s = true -> s <> "" -> s <> "." -> PathLib.parts s = [s].
Proof.
  intros Hs H1 H2. unfold PathLib.parts. rewrite (split_free _ _ Hs).
  rewrite filter_cons, filter_nil. rewrite decide_True; [reflexivity|].
  split; assumption.
Qed.

Lemma join_free (p : path) s :
  slash_free s = true -> s <> "" -> s <> "." -> p // s = p ++ [s].
Proof.
  intros Hs H1 H2. unfold PathLib.join. rewrite (parts_free s) by assumption.
  destruct s as [|a s]; [congruence|]. simpl in Hs.
  apply andb_prop in Hs as [Ha _]. apply negb_true_iff in Ha.
  destruct a as [[] [] [] [] [] [] [] []]; try reflexivity; discriminate.
Qed.

Lemma parent_snoc (p : path) s : PathLib.parent (p ++ [s]) = p.
Proof. apply removelast_last. Qed.

Lemma name_snoc (p : path) s : PathLib.name (p ++ [s]) = s.
Proof. apply last_last. Qed.

Lemma free_of_pretty_N_go x s :
  slash_free s = true -> slash_free (pretty_N_go x s) = true.
Proof.
  revert s. induction (N.lt_wf_0 x) as [x _ IH]; intros s Hs.
  destruct (N.eq_dec x 0%N) as [->|Hx]; [assumption|].
  rewrite pretty_N_go_step by lia. apply IH.
  - apply N.div_lt; lia.
  - simpl. rewrite Hs, andb_true_r. unfold pretty_N_char.
    repeat case_match; reflexivity.
Qed.

Lemma free_of_pretty_N (x : N) : slash_free (pretty x) = true.
Proof.
  unfold pretty, pretty_N. case_decide; [reflexivity|].
  apply free_of_pretty_N_go. reflexivity.
Qed.

Lemma free_of_pretty (z : Z) : slash_free (pretty z) = true.
Proof.
  destruct z as [|x|x]; [reflexivity| |].
  - apply (free_of_pretty_N (N.pos x)).
  - change (pretty (Z.neg x)) with ("-" +:+ pretty (N.pos x)).
    rewrite free_of_app, (free_of_pretty_N (N.pos x)). reflexivity.
Qed.

Lemma free_of_zeros n : slash_free (Strftime.zeros n) = true.
Proof. induction n; [reflexivity|]. simpl. assumption. Qed.

Lemma free_of_pad w z : slash_free (Strftime.pad w z) = true.
Proof.
  unfold Strftime.pad. rewrite free_of_app, free_of_zeros, free_of_pretty.
  reflexivity.
Qed.

Lemma free_of_date d : slash_free (Strftime.date d) = true.
Proof.
  unfold Strftime.date. rewrite !free_of_app, !free_of_pad. reflexivity.
Qed.

Lemma free_of_compact d : slash_free (Strftime.compact d) = true.
Proof.
  unfold Strftime.compact. rewrite !free_of_app, !free_of_pad. reflexivity.
Qed.

Lemma app_length s1 s2 :
  String.length (s1 +:+ s2) = (String.length s1 + String.length s2)%nat.
Proof.
  induction s1 as [|a s1 IH]; [reflexivity|].
  rewrite app_cons; simpl; rewrite IH; reflexivity.
Qed.

End paths.

(** ** File system *)

Section file_system.
Implicit Types (m : gmap path node) (p q : path).

Lemma node_at_ne m p : p <> [] -> Os.node_at m p = m !! p.
Proof. destruct p; [congruence|reflexivity]. Qed.

Lemma node_at_snoc m p s : Os.node_at m (p ++ [s]) = m !! (p ++ [s]).
Proof. apply node_at_ne. destruct p; discriminate. Qed.

Lemma elem_of_prefixes p q :
  q ∈ Os.prefixes p -> q <> [] /\ (length q <= length p)%nat.
Proof.
  unfold Os.prefixes. intros (n & -> & Hn)%list_elem_of_fmap.
  apply elem_of_seq in Hn. split.
  - destruct p, n; simpl in *; try lia; discriminate.
  - rewrite length_take. lia.
Qed.

Lemma prefixes_self p : p <> [] -> p ∈ Os.prefixes p.
Proof.
  intros Hp. unfold Os.prefixes. apply list_elem_of_fmap.
  exists (length p). split; [symmetry; apply firstn_all|].
  apply elem_of_seq. destruct p; [congruence|simpl; lia].
Qed.

Lemma snoc_not_prefix p s : p ++ [s] ∉ Os.prefixes p.
Proof.
  intros [_ Hlen]%elem_of_prefixes. rewrite length_app in Hlen.
  simpl in Hlen; lia.
Qed.

Lemma bool_decide_elem_cons_ne (x y : path) (l : list path) :
  y <> x -> bool_decide (y ∈ x :: l) = bool_decide (y ∈ l).
Proof.
  intros Hne. apply bool_decide_ext. rewrite elem_of_cons. tauto.
Qed.

Lemma make_dirs_node_at t m p q :
  Os.node_at (Os.make_dirs t m p) q
  = match Os.node_at m q with
    | Some n => Some n
    | None => if bool_decide (q ∈ Os.prefixes p) then Some (Dir t) else None
    end.
Proof.
  destruct q as [|a q]; [reflexivity|].
  unfold Os.make_dirs.
  assert (Forall (fun x => x <> []) (Os.prefixes p)) as Hne.
  { apply Forall_forall. intros x Hx. apply (elem_of_prefixes p x), Hx. }
  revert m Hne. generalize (Os.prefixes p) as l.
  induction l as [|x l IH]; intros m Hne; simpl foldl.
  - simpl. destruct (m !! (a :: q)); reflexivity.
  - inversion Hne as [|? ? Hx Hl]; subst.
    rewrite IH by assumption. rewrite (node_at_ne m x Hx).
    simpl Os.node_at.
    destruct (m !! x) as [n|] eqn:Hmx.
    + destruct (m !! (a :: q)) eqn:Hq; [reflexivity|].
      rewrite bool_decide_elem_cons_ne by congruence. reflexivity.
    + destruct (decide (x = a :: q)) as [->|Hxq].
      * rewrite lookup_insert_eq, Hmx.
        rewrite bool_decide_eq_true_2; [reflexivity|apply elem_of_cons; auto].
      * rewrite lookup_insert_ne by assumption.
        rewrite bool_decide_elem_cons_ne by congruence. reflexivity.
Qed.

(** Creating directories leaves every existing node as it is. *)
Lemma make_dirs_keeps t m p q n :
  Os.node_at m q = Some n -> Os.node_at (Os.make_dirs t m p) q = Some n.
Proof. intros Hq. rewrite make_dirs_node_at, Hq. reflexivity. Qed.

(** It creates nothing below the directory asked for. *)
Lemma make_dirs_child t m p s :
  Os.node_at (Os.make_dirs t m p) (p ++ [s]) = Os.node_at m (p ++ [s]).
Proof.
  rewrite make_dirs_node_at.
  destruct (Os.node_at m (p ++ [s])); [reflexivity|].
  rewrite bool_decide_eq_false_2; [reflexivity|apply snoc_not_prefix].
Qed.

Lemma blocking_none m p q :
  Os.blocking m p = None -> q ∈ Os.prefixes p ->
  Os.is_file_node (Os.node_at m q) = false.
Proof.
  unfold Os.blocking. intros Hfind Hq.
  apply (find_none _ _ Hfind q). apply list_elem_of_In, Hq.
Qed.

Lemma blocking_none_intro m p :
  (forall q, q ∈ Os.prefixes p -> Os.is_file_node (Os.node_at m q) = false) ->
  Os.blocking m p = None.
Proof.
  unfold Os.blocking. generalize (Os.prefixes p) as l.
  induction l as [|x l IH]; intros Hl; [reflexivity|]. simpl.
  rewrite (Hl x) by apply list_elem_of_here.
  apply IH. intros q Hq. apply Hl. apply list_elem_of_further, Hq.
Qed.

(** Creating directories puts no regular file in the way of a later
    [mkdir]. *)
Lemma blocking_make_dirs t m p p' :
  Os.blocking m p = None -> Os.blocking (Os.make_dirs t m p') p = None.
Proof.
  intros Hb. apply blocking_none_intro. intros q Hq.
  rewrite make_dirs_node_at.
  pose proof (blocking_none _ _ _ Hb Hq) as Hfile.
  destruct (Os.node_at m q) as [[]|]; try discriminate; try reflexivity.
  destruct (bool_decide _); reflexivity.
Qed.

(** After a successful [mkdir] the path is a directory. *)
Lemma make_dirs_is_dir t m p :
  Os.blocking m p = None ->
  Os.is_dir_node (Os.node_at (Os.make_dirs t m p) p) = true.
Proof.
  intros Hb. destruct p as [|a p]; [reflexivity|].
  rewrite make_dirs_node_at.
  pose proof (blocking_none m _ _ Hb (prefixes_self (a :: p) ltac:(discriminate)))
    as Hfile.
  destruct (Os.node_at m (a :: p)) as [[]|]; try discriminate; try reflexivity.
  rewrite bool_decide_eq_true_2; [reflexivity|].
  apply prefixes_self; discriminate.
Qed.

Lemma node_at_insert_eq m p n :
  p <> [] -> Os.node_at (<[p := n]> m) p = Some n.
Proof. intros Hp. rewrite node_at_ne by assumption. apply lookup_insert_eq. Qed.

Lemma node_at_insert_ne m p q n :
  p <> q -> Os.node_at (<[p := n]> m) q = Os.node_at m q.
Proof.
  intros Hpq. destruct q as [|a q]; [reflexivity|].
  unfold Os.node_at. apply lookup_insert_ne, Hpq.
Qed.

Lemma snoc_ne_self (p : path) s : p ++ [s] <> p.
Proof.
  intros Heq. apply (f_equal length) in Heq. rewrite length_app in Heq.
  simpl in Heq. lia.
Qed.

Lemma snoc_ne_nil (p : path) s : p ++ [s] <> [].
Proof. destruct p; discriminate. Qed.

End file_system.

(** ** The trace only grows *)

Section growth.
Context (E : env).

#[local] Abbreviation grows := Trace.grows.

Lemma added_app w w' k :
  trace w' = trace w ++ k -> Trace.added w w' = k.
Proof. intros Hk. unfold Trace.added. rewrite Hk. apply drop_app_length. Qed.

Lemma grows_ret {A} (a : A) : grows (mret a).
Proof. intros w. reflexivity. Qed.

Lemma grows_raise {A} e : grows (raise e : M A).
Proof. intros w. reflexivity. Qed.

Lemma grows_bind {A B} (m : M A) (f : A -> M B) :
  grows m -> (forall a, grows (f a)) -> grows (m ≫= f).
Proof.
  intros Hm Hf w. unfold mbind, M_bind. specialize (Hm w).
  destruct (m w) as [[a|e] w']; simpl in *; [|assumption].
  etransitivity; [exact Hm|apply Hf].
Qed.

Lemma bind_extends {A B} (m : M A) (f : A -> M B) w :
  (forall a, grows (f a)) ->
  trace (m w).2 `prefix_of` trace ((m ≫= f) w).2.
Proof.
  intros Hf. unfold mbind, M_bind.
  destruct (m w) as [[a|e] w']; simpl; [apply Hf|reflexivity].
Qed.

Lemma grows_try {A} (m : M A) handles h :
  grows m -> (forall e, grows (h e)) -> grows (try_except m handles h).
Proof.
  intros Hm Hh w. unfold try_except. specialize (Hm w).
  destruct (m w) as [[a|e] w']; simpl in *; [assumption|].
  destruct (handles e); [|assumption].
  etransitivity; [exact Hm|apply Hh].
Qed.

Lemma grows_lift {A} (r : res A) : grows (lift r).
Proof. destruct r; intros w; reflexivity. Qed.

Lemma grows_event e : grows (fun w => (Ret tt, with_event e w)).
Proof. intros w. simpl. apply prefix_app_r. reflexivity. Qed.

Lemma grows_eprint line : grows (eprint line).
Proof. intros w. reflexivity. Qed.

Lemma grows_now : grows (Os.now E).
Proof. intros w. reflexivity. Qed.

Lemma grows_exists p : grows (Os.exists_ p).
Proof. intros w. reflexivity. Qed.

Lemma grows_stat p : grows (Os.stat p).
Proof. intros w. unfold Os.stat. destruct (Os.node_at _ _); reflexivity. Qed.

Lemma grows_read_text p : grows (Os.read_text p).
Proof.
  intros w. unfold Os.read_text.
  destruct (Os.node_at _ _) as [[]|]; reflexivity.
Qed.

Lemma grows_mkdir p : grows (Os.mkdir E p).
Proof.
  intros w. unfold Os.mkdir. destruct (Os.blocking _ _); simpl;
    [reflexivity|apply prefix_app_r; reflexivity].
Qed.

Lemma grows_append_text p text : grows (Os.append_text E p text).
Proof.
  intros w. unfold Os.append_text. destruct (Os.open_error _ _); simpl;
    [reflexivity|apply prefix_app_r; reflexivity].
Qed.

Lemma grows_write_text p text : grows (Os.write_text E p text).
Proof.
  intros w. unfold Os.write_text. destruct (Os.open_error _ _); simpl;
    [reflexivity|apply prefix_app_r; reflexivity].
Qed.

Lemma grows_rename src dst : grows (Os.rename src dst).
Proof.
  intros w. unfold Os.rename.
  repeat case_match; simpl;
    first [reflexivity | apply prefix_app_r; reflexivity].
Qed.

End growth.

Create HintDb grows.

#[local] Abbreviation grows := Trace.grows.

#[local] Hint Resolve grows_ret grows_raise grows_lift grows_event
  grows_eprint grows_now grows_exists grows_stat grows_read_text grows_mkdir
  grows_append_text grows_write_text grows_rename : grows.

(** Project a world that was built by the update functions. *)
Ltac wproj :=
  cbn [fs ticks stderr trace with_event with_fs tick with_line fst snd] in *.

(** Decompose an action and show that each part only adds events. *)
Ltac grows :=
  repeat first
    [ apply grows_bind; [|intros ?]
    | apply grows_try; [|intros ?]
    | progress eauto with grows
    | match goal with
      | |- grows (if ?b then _ else _) => destruct b
      | |- grows (match ?x with _ => _ end) => destruct x
      | |- grows (when ?b _) => destruct b; unfold when
      | |- grows (sys_exit _) => apply grows_raise
      end ].


#[local] Arguments PathLib.join : simpl never.
#[local] Arguments Os.make_dirs : simpl never.
#[local] Arguments Os.blocking : simpl never.
#[local] Arguments Os.node_at : simpl never.
#[local] Arguments Qle_bool : simpl never.
#[local] Arguments Observe.size_mb : simpl never.

(** ** The observation entry point *)

Section observe.
Context `{PyRuntime} (E : env).

Let cfg : path := home E ++ [".claude"; "homunculus"].
Let log : path := cfg ++ ["observations.jsonl"].

Lemma config_dir_eq : Observe.get_config_dir E = cfg.
Proof.
  unfold Observe.get_config_dir, cfg.
  change (home E // ".claude" // "homunculus")
    with ((home E ++ [".claude"]) ++ ["homunculus"]).
  rewrite <- app_assoc. reflexivity.
Qed.

Lemma observations_file_eq : Observe.get_observations_file E = log.
Proof.
  unfold Observe.get_observations_file. rewrite config_dir_eq. reflexivity.
Qed.

Lemma observations_parent : PathLib.parent log = cfg.
Proof. apply parent_snoc. Qed.

(** What [main] does once [stdin] turns out to be blank. *)
Lemma main_blank (w : world) text :
  stdin E = Some text ->
  PyStr.strip text = "" ->
  Observe.main E w
  = match Os.blocking (fs w) cfg with
    | Some q =>
        (Raise (OSError (if bool_decide (q = cfg) then EEXIST else ENOTDIR) cfg), w)
    | None =>
        (Raise (SystemExit 0),
         with_event (EvMkdir cfg)
           (with_fs (Os.make_dirs (Os.stamp E w) (fs w) cfg) w))
    end.
Proof.
  intros Hin Hblank. unfold Observe.main. rewrite config_dir_eq.
  unfold mbind, M_bind, Os.mkdir.
  destruct (Os.blocking (fs w) cfg); [reflexivity|].
  unfold Os.exists_. rewrite Hin, Hblank.
  destruct (bool_decide _); reflexivity.
Qed.

(** C10: with only white space on [stdin] the entry point stops before it
    parses, checks or writes anything: it leaves through [sys.exit(0)] once
    the configuration directory is there, no file is written or renamed and
    no rotation check is made, nothing is printed, and the observation log
    is the node it was. *)
Theorem blank_stdin_leaves_log (w : world) (text : string) :
  stdin E = Some text ->
  PyStr.strip text = "" ->
  let r := Observe.main E w in
  (Os.blocking (fs w) (Observe.get_config_dir E) = None ->
   r.1 = Raise (SystemExit 0))
  /\ (exists e, r.1 = Raise e)
  /\ Os.node_at (fs r.2) (Observe.get_observations_file E)
     = Os.node_at (fs w) (Observe.get_observations_file E)
  /\ (forall q n, Os.node_at (fs w) q = Some n -> Os.node_at (fs r.2) q = Some n)
  /\ (Trace.added w r.2 = [] \/
      Trace.added w r.2 = [EvMkdir (Observe.get_config_dir E)])
  /\ stderr r.2 = stderr w.
Proof.
  intros Hin Hblank r. subst r.
  rewrite (main_blank w text Hin Hblank), config_dir_eq, observations_file_eq.
  destruct (Os.blocking (fs w) cfg) as [q|] eqn:Hb; cbn [fst snd].
  - repeat split; eauto; try discriminate.
    left. unfold Trace.added. apply drop_all.
  - repeat split; eauto.
    + unfold log. apply make_dirs_child.
    + intros q n Hq. apply make_dirs_keeps, Hq.
    + right. unfold Trace.added. cbn. rewrite drop_app_length. reflexivity.
Qed.

(** *** Rotation *)

Let adir : path := cfg ++ ["observations.archive"].

Lemma archive_dir_eq :
  Observe.get_config_dir E // "observations.archive" = adir.
Proof. rewrite config_dir_eq. reflexivity. Qed.

Lemma archive_name_plain t :
  PyStr.free_of "/" (Observe.archive_name t) = true
  /\ Observe.archive_name t <> "" /\ Observe.archive_name t <> ".".
Proof.
  unfold Observe.archive_name. repeat split.
  - rewrite !free_of_app, free_of_compact. reflexivity.
  - discriminate.
  - discriminate.
Qed.

Lemma archive_path_eq t :
  adir // Observe.archive_name t = adir ++ [Observe.archive_name t].
Proof.
  destruct (archive_name_plain t) as (? & ? & ?). apply join_free; assumption.
Qed.

(** Comparing megabytes is comparing bytes with [max * 1024 * 1024]. *)
Lemma size_mb_le (max : Z) (n : node) :
  (inject_Z max <= Observe.size_mb n)%Q <-> max * (1024 * 1024) <= Os.st_size n.
Proof.
  unfold Observe.size_mb. split.
  - intros Hle. rewrite Zle_Qle, inject_Z_mult.
    apply (Qmult_le_r _ _ (inject_Z (1024 * 1024))) in Hle; [|reflexivity].
    eapply Qle_trans; [exact Hle|].
    rewrite Qmult_comm, Qmult_div_r by discriminate. apply Qle_refl.
  - intros Hle. apply Qle_shift_div_l; [reflexivity|].
    rewrite <- inject_Z_mult, <- Zle_Qle. exact Hle.
Qed.

Lemma archive_missing (w : world) f max :
  Os.node_at (fs w) f = None ->
  Observe.archive_if_needed E f max w
  = (Ret tt, with_event (EvArchiveCheck f) w).
Proof.
  intros Hf. unfold Observe.archive_if_needed, mbind, M_bind, Os.exists_.
  cbn [fs with_event]. rewrite Hf, bool_decide_eq_false_2; [reflexivity|].
  intros [? ?]; discriminate.
Qed.

Lemma archive_small (w : world) f max n :
  Os.node_at (fs w) f = Some n ->
  ~ (inject_Z max <= Observe.size_mb n)%Q ->
  Observe.archive_if_needed E f max w
  = (Ret tt, with_event (EvArchiveCheck f) w).
Proof.
  intros Hf Hsmall.
  assert (Qle_bool (inject_Z max) (Observe.size_mb n) = false) as Hle.
  { destruct (Qle_bool _ _) eqn:Hle; [|reflexivity].
    apply Qle_bool_iff in Hle. contradiction. }
  unfold Observe.archive_if_needed, mbind, M_bind, Os.exists_, try_except,
    Os.stat.
  simpl. rewrite Hf, bool_decide_eq_true_2 by eauto.
  simpl. rewrite Hf. simpl. rewrite Hle. reflexivity.
Qed.

Lemma archive_large (w : world) f max data mtime :
  let dst := adir ++ [Observe.archive_name (local_time (clock E (ticks w)))] in
  Os.node_at (fs w) f = Some (File data mtime) ->
  (inject_Z max <= Observe.size_mb (File data mtime))%Q ->
  Os.blocking (fs w) adir = None ->
  Os.is_dir_node (Os.node_at (fs w) dst) = false ->
  Observe.archive_if_needed E f max w
  = (Ret tt,
     with_event (EvRename f dst)
       (with_fs (<[dst := File data mtime]>
                   (delete f (Os.make_dirs (Os.stamp E w) (fs w) adir)))
          (tick (with_event (EvMkdir adir)
                   (with_fs (Os.make_dirs (Os.stamp E w) (fs w) adir)
                      (with_event (EvArchiveCheck f) w)))))).
Proof.
  intros dst Hf Hle Hb Hdst. apply Qle_bool_iff in Hle.
  unfold Observe.archive_if_needed, mbind, M_bind, Os.exists_, try_except,
    Os.stat.
  rewrite archive_dir_eq.
  simpl. rewrite Hf, bool_decide_eq_true_2 by eauto.
  simpl. rewrite Hf. simpl. rewrite Hle.
  unfold Os.mkdir. simpl. rewrite Hb. simpl.
  rewrite archive_path_eq. fold dst.
  unfold Os.rename. simpl.
  change (Os.stamp E (with_event (EvArchiveCheck f) w)) with (Os.stamp E w).
  set (m1 := Os.make_dirs (Os.stamp E w) (fs w) adir).
  rewrite (make_dirs_keeps _ _ _ _ _ Hf : Os.node_at m1 f = Some _).
  assert (Os.node_at m1 dst = Os.node_at (fs w) dst) as Hd
    by apply make_dirs_child.
  rewrite Hd.
  destruct (Os.node_at (fs w) dst) as [[]|]; try discriminate; [reflexivity|].
  unfold dst at 1. rewrite parent_snoc.
  pose proof (make_dirs_is_dir (Os.stamp E w) _ _ Hb) as Hdir. fold m1 in Hdir.
  destruct (Os.node_at m1 adir) as [[]|]; try discriminate. reflexivity.
Qed.

(** The archive never has the path of the active log. *)
Lemma observations_file_not_archived t :
  Observe.get_observations_file E
  <> Observe.get_config_dir E // "observations.archive" // Observe.archive_name t.
Proof.
  rewrite observations_file_eq, archive_dir_eq, archive_path_eq.
  unfold log, adir. rewrite <- app_assoc.
  intros Heq%app_inv_head. discriminate.
Qed.

(** C2: an existing log file is renamed into the archive directory exactly
    when its size in megabytes, the byte count divided by [1024 * 1024], is
    at least [max_size_mb], that is, when it has at least
    [max_size_mb * 1024 * 1024] bytes; otherwise the file system is left as it
    is.  When the log file does not exist nothing is changed either.  (The
    archive directory can be created and the archive name is not taken by a
    directory: no [OSError] is raised.) *)
Theorem rotation_iff_threshold (w : world) (f : path) (max_size_mb : Z)
    (data : string) (mtime : Q) :
  let archive_dir := Observe.get_config_dir E // "observations.archive" in
  let archive_path :=
    archive_dir // Observe.archive_name (local_time (clock E (ticks w))) in
  Os.node_at (fs w) f = Some (File data mtime) ->
  Os.blocking (fs w) archive_dir = None ->
  Os.is_dir_node (Os.node_at (fs w) archive_path) = false ->
  f <> archive_path ->
  let r := Observe.archive_if_needed E f max_size_mb w in
  let renamed :=
    Os.node_at (fs r.2) f = None
    /\ Os.node_at (fs r.2) archive_path = Some (File data mtime) in
  r.1 = Ret tt
  /\ (renamed <-> (inject_Z max_size_mb <= Observe.size_mb (File data mtime))%Q)
  /\ (renamed <-> max_size_mb * (1024 * 1024) <= PyStr.utf8_length data)
  /\ (renamed ->
      Trace.added w r.2
      = [EvArchiveCheck f; EvMkdir archive_dir; EvRename f archive_path])
  /\ (~ renamed ->
      fs r.2 = fs w /\ Trace.added w r.2 = [EvArchiveCheck f])
  /\ (forall w0, Os.node_at (fs w0) f = None ->
      Observe.archive_if_needed E f max_size_mb w0
      = (Ret tt, with_event (EvArchiveCheck f) w0)).
Proof.
  intros archive_dir archive_path. subst archive_dir archive_path.
  rewrite archive_dir_eq, archive_path_eq.
  set (dst := adir ++ _).
  intros Hf Hb Hdst Hne r renamed.
  assert (f <> []) as Hnil by (intros ->; discriminate).
  pose proof (size_mb_le max_size_mb (File data mtime)) as Hbytes.
  simpl Os.st_size in Hbytes.
  destruct (Qlt_le_dec (Observe.size_mb (File data mtime)) (inject_Z max_size_mb))
    as [Hsmall|Hlarge].
  - apply Qlt_not_le in Hsmall.
    assert (~ renamed) as Hnot.
    { subst renamed r. rewrite (archive_small w f _ _ Hf Hsmall). simpl.
      rewrite Hf. intros [? _]; discriminate. }
    subst r. rewrite (archive_small w f _ _ Hf Hsmall) in *.
    split_and!; [reflexivity | tauto | tauto | tauto | |].
    + intros _. split; [reflexivity|]. apply added_app. reflexivity.
    + intros; apply archive_missing; assumption.
  - assert (renamed) as Hyes.
    { subst renamed r. rewrite (archive_large w f _ _ _ Hf Hlarge Hb Hdst).
      wproj. split.
      - rewrite node_at_ne by assumption.
        rewrite lookup_insert_ne by (intros Heq; apply Hne; symmetry; exact Heq).
        apply lookup_delete_eq.
      - unfold dst. rewrite node_at_snoc. apply lookup_insert_eq. }
    subst r. rewrite (archive_large w f _ _ _ Hf Hlarge Hb Hdst) in *.
    split_and!; [reflexivity | tauto | tauto | | tauto |].
    + intros _. apply added_app. wproj. rewrite <- !app_assoc. reflexivity.
    + intros; apply archive_missing; assumption.
Qed.

(** *** Order of the rotation check and the append *)

Lemma guarded_true l : Trace.guarded true l = true.
Proof. induction l as [|[] l IH]; simpl; auto. Qed.

Lemma grows_archive f max : grows (Observe.archive_if_needed E f max).
Proof. unfold Observe.archive_if_needed. grows. Qed.

Lemma grows_write_observation o f : grows (Observe.write_observation E o f).
Proof. unfold Observe.write_observation. grows. Qed.

(** The first thing [archive_if_needed] adds to the trace is its check. *)
Lemma archive_check_first (w : world) f max :
  (trace w ++ [EvArchiveCheck f])
    `prefix_of` trace (Observe.archive_if_needed E f max w).2.
Proof.
  unfold Observe.archive_if_needed.
  apply (bind_extends (fun w => (Ret tt, with_event (EvArchiveCheck f) w))).
  intros []. grows.
Qed.

(** On the path of a parsed event the rotation check comes before the
    append, whatever the check decides and whether or not the append
    succeeds. *)
Lemma parsed_event_checks_first (w : world) text :
  stdin E = Some text ->
  Event.parsed_ok (Observe.parse_hook_input text) = true ->
  Trace.guarded false (Trace.added w (Observe.main E w).2) = true.
Proof.
  intros Hin Hok. unfold Observe.main.
  rewrite config_dir_eq, observations_file_eq, Hin.
  unfold mbind at 1, M_bind at 1, Os.mkdir.
  destruct (Os.blocking (fs w) cfg).
  { simpl. unfold Trace.added. rewrite drop_all. reflexivity. }
  set (w1 := with_event _ _).
  assert (trace w1 = trace w ++ [EvMkdir cfg]) as Hw1 by reflexivity.
  unfold mbind at 1, M_bind at 1, Os.exists_.
  cbv beta iota.
  destruct (bool_decide _).
  { simpl. rewrite (added_app _ _ _ Hw1). reflexivity. }
  destruct (negb (Py.truthy (PStr (PyStr.strip text)))).
  { simpl. rewrite (added_app _ _ _ Hw1). reflexivity. }
  unfold mbind at 1, M_bind at 1, Os.now. cbv beta iota.
  unfold Event.parsed_ok in Hok.
  unfold mbind at 1, M_bind at 1.
  destruct (Py.get _ "parsed" PNone) as [e|v]; [discriminate|].
  simpl lift. cbv beta iota. unfold mret at 1, M_ret at 1. rewrite Hok.
  cbv beta iota delta [negb].
  match goal with
  | |- context [(?m ≫= ?f) (tick w1)] =>
      pose proof (bind_extends m f (tick w1)) as Hext
  end.
  destruct Hext as [k1 Hk1].
  { intros []. apply grows_bind; [apply grows_lift|].
    intros ?. apply grows_write_observation. }
  destruct (archive_check_first (tick w1) log 10) as [k2 Hk2].
  rewrite (added_app _ _ ([EvMkdir cfg; EvArchiveCheck log] ++ k2 ++ k1)).
  - simpl. apply guarded_true.
  - rewrite Hk1, Hk2. simpl trace. rewrite <- !app_assoc. reflexivity.
Qed.

Lemma parse_hook_input_dict text :
  exists d, Observe.parse_hook_input text = PDict d.
Proof.
  unfold Observe.parse_hook_input.
  match goal with |- exists d, match ?body with _ => _ end = _ =>
    destruct body as [e|parsed] eqn:Hbody end; [eauto|].
  destruct (json_loads text) as [data|]; [|discriminate].
  destruct data; try discriminate. simpl in Hbody.
  destruct (Py.str_in _ _); [discriminate|].
  injection Hbody as <-. eauto.
Qed.

(** On the path of a parse error nothing is checked: in a file system where
    the record can be written, the events added are those of
    [write_observation] alone. *)
Lemma parse_error_unchecked (w : world) text :
  stdin E = Some text ->
  PyStr.strip text <> "" ->
  Event.parsed_ok (Observe.parse_hook_input text) = false ->
  Os.blocking (fs w) cfg = None ->
  Os.node_at (fs w) (cfg ++ ["disabled"]) = None ->
  Os.is_dir_node (Os.node_at (fs w) log) = false ->
  let line :=
    json_dumps (Observe.parse_error_observation
                  (Strftime.iso_z (utc_time (clock E (ticks w)))) text)
    +:+ PyStr.nl in
  (Observe.main E w).1 = Raise (SystemExit 0)
  /\ Trace.added w (Observe.main E w).2
     = [EvMkdir cfg; EvMkdir cfg; EvAppend log line]
  /\ Trace.guarded false (Trace.added w (Observe.main E w).2) = false.
Proof.
  intros Hin Htext Hbad Hb Hdis Hlog line.
  assert (exists w',
    Observe.main E w = (Raise (SystemExit 0), w')
    /\ trace w' = trace w ++ [EvMkdir cfg; EvMkdir cfg; EvAppend log line])
    as (w' & Hmain & Htrace).
  { unfold Observe.main.
    rewrite config_dir_eq, observations_file_eq, Hin.
    unfold mbind at 1, M_bind at 1, Os.mkdir. rewrite Hb.
    set (m1 := Os.make_dirs (Os.stamp E w) (fs w) cfg).
    unfold mbind at 1, M_bind at 1, Os.exists_. cbv beta iota.
    change (cfg // "disabled") with (cfg ++ ["disabled"]).
    wproj.
    assert (Os.node_at m1 (cfg ++ ["disabled"]) = None) as ->
      by (unfold m1; rewrite make_dirs_child; exact Hdis).
    rewrite bool_decide_eq_false_2 by (intros [? ?]; discriminate).
    apply truthy_str in Htext. rewrite Htext. cbv beta iota delta [negb].
    unfold mbind at 1, M_bind at 1, Os.now. cbv beta iota.
    unfold Event.parsed_ok in Hbad.
    destruct (parse_hook_input_dict text) as [d Hd]. rewrite Hd in *.
    unfold mbind at 1, M_bind at 1. simpl Py.get in *. simpl lift.
    unfold mret at 1, M_ret at 1. rewrite Hbad. cbv beta iota delta [negb].
    unfold Observe.write_observation. rewrite observations_parent.
    unfold mbind, M_bind, Os.mkdir. wproj.
    assert (Os.blocking m1 cfg = None) as Hb1
      by apply blocking_make_dirs, Hb.
    rewrite Hb1.
    unfold Os.append_text, Os.open_error. wproj.
    set (m2 := Os.make_dirs _ m1 cfg).
    assert (Os.node_at m2 log = Os.node_at (fs w) log) as ->.
    { unfold m2, m1, log. rewrite !make_dirs_child. reflexivity. }
    assert (Os.is_dir_node (Os.node_at m2 cfg) = true) as Hcfg.
    { unfold m2. apply make_dirs_is_dir, Hb1. }
    rewrite observations_parent.
    destruct (Os.node_at (fs w) log) as [[]|]; try discriminate.
    - eexists; split; [reflexivity|]. simpl. rewrite <- !app_assoc.
      reflexivity.
    - destruct (Os.node_at m2 cfg) as [[]|]; try discriminate.
      eexists; split; [reflexivity|]. simpl. rewrite <- !app_assoc.
      reflexivity. }
  rewrite Hmain. simpl. rewrite (added_app _ _ _ Htrace).
  repeat split.
Qed.

End observe.

(** The theorem at the [Edit] event of the first scenario. *)
Lemma observation_optional_keys_witness :
  Event.parsed_ok (Observe.parse_hook_input Scenario.edit_event) = true
  /\ exists data tool_input tool_output start observation,
       json_loads Scenario.edit_event = Some data
       /\ Event.tool_input data = inr tool_input
       /\ Event.tool_output data = inr tool_output
       /\ Event.is_start data = inr start
       /\ Py.getitem (Observe.parse_hook_input Scenario.edit_event) "event"
          = inr (PStr (Event.event_name start))
       /\ Observe.build_observation "T"
            (Observe.parse_hook_input Scenario.edit_event)
          = inr (PDict observation)
       /\ (Py.has_key "input" observation = true
           <-> start = true /\ Observe.truncated tool_input <> "")
       /\ (Py.has_key "output" observation = true
           <-> start = false /\ Observe.truncated tool_output <> "").
Proof.
  split; [vm_compute; reflexivity|].
  apply (observation_optional_keys Scenario.edit_event "T").
  vm_compute; reflexivity.
Defined.

(** The event of the first scenario gives a [tool_start] record with the
    session identifier as it came and the serialized input. *)
Example edit_event_record :
  Observe.build_observation "T" (Observe.parse_hook_input Scenario.edit_event)
  = inr (PDict [("timestamp", PStr "T"); ("event", PStr "tool_start");
                ("tool", PStr "Edit"); ("session", PStr "abcdef1234");
                ("input", PStr ("{" +:+ Scenario.q "path" +:+ ": "
                                +:+ Scenario.q "a.py" +:+ "}"))]).
Proof. vm_compute; reflexivity. Qed.

(** A [tool_start] event whose input is the empty string gives a record
    without the key [input]. *)
Example empty_input_record :
  Observe.build_observation "T"
    (Observe.parse_hook_input Scenario.empty_input_event)
  = inr (PDict [("timestamp", PStr "T"); ("event", PStr "tool_start");
                ("tool", PStr "unknown"); ("session", PStr "unknown")]).
Proof. vm_compute; reflexivity. Qed.

(** The theorem for a blank, a tab and a line feed on [stdin], with a log
    in place. *)
Lemma blank_stdin_leaves_log_witness :
  let E := Scenario.with_stdin Scenario.blank Scenario.base_env in
  let w := Scenario.world_of Scenario.logged in
  let r := Observe.main E w in
  stdin E = Some Scenario.blank
  /\ PyStr.strip Scenario.blank = ""
  /\ r.1 = Raise (SystemExit 0)
  /\ Os.node_at (fs r.2) (Observe.get_observations_file E)
     = Some (File "{}" 0).
Proof.
  intros E w r.
  assert (stdin E = Some Scenario.blank) as Hin by reflexivity.
  assert (PyStr.strip Scenario.blank = "") as Hblank by reflexivity.
  destruct (blank_stdin_leaves_log E w Scenario.blank Hin Hblank)
    as (Hexit & _ & Hlog & _).
  split_and!; [exact Hin | exact Hblank | apply Hexit; vm_compute; reflexivity |].
  etransitivity; [exact Hlog|]. vm_compute; reflexivity.
Defined.

(** The theorem on a log of two bytes: a limit of 10 megabytes keeps it, a
    limit of 0 moves it to the archive. *)
Lemma rotation_iff_threshold_witness :
  let E := Scenario.base_env in
  let w := Scenario.world_of Scenario.logged in
  let archive :=
    Scenario.config_dir
    ++ ["observations.archive"; "observations-20250314-123005.jsonl"] in
  let kept := Observe.archive_if_needed E Scenario.observations 10 w in
  let moved := Observe.archive_if_needed E Scenario.observations 0 w in
  Os.node_at (fs w) Scenario.observations = Some (File "{}" 0)
  /\ fs kept.2 = fs w
  /\ Os.node_at (fs moved.2) Scenario.observations = None
  /\ Os.node_at (fs moved.2) archive = Some (File "{}" 0).
Proof.
  intros E w archive kept moved.
  assert (Os.node_at (fs w) Scenario.observations = Some (File "{}" 0)) as Hf
    by (vm_compute; reflexivity).
  assert (Os.blocking (fs w)
            (Observe.get_config_dir E // "observations.archive") = None) as Hb
    by (vm_compute; reflexivity).
  assert (Os.is_dir_node (Os.node_at (fs w)
            (Observe.get_config_dir E // "observations.archive"
             // Observe.archive_name (local_time (clock E (ticks w)))))
          = false) as Hd
    by (vm_compute; reflexivity).
  assert (Scenario.observations
          <> Observe.get_config_dir E // "observations.archive"
             // Observe.archive_name (local_time (clock E (ticks w)))) as Hne
    by (vm_compute; discriminate).
  split; [exact Hf|].
  destruct (rotation_iff_threshold E w _ 10 _ _ Hf Hb Hd Hne)
    as (_ & _ & Hkept & _ & Hsame & _).
  destruct (rotation_iff_threshold E w _ 0 _ _ Hf Hb Hd Hne)
    as (_ & _ & Hmoved & _).
  split.
  - apply Hsame. intros Hren%Hkept. vm_compute in Hren. congruence.
  - assert (0 * (1024 * 1024) <= PyStr.utf8_length "{}") as Hsize
      by (vm_compute; discriminate).
    apply Hmoved in Hsize as [Hgone Hthere]. split; [exact Hgone|].
    etransitivity; [|exact Hthere]. reflexivity.
Defined.

(** C1 on the failing input: text that is not json is recorded as a
    [parse_error] line, and the events of that invocation hold the append but
    no rotation check before it; the event of the first scenario, in the same
    world, is appended after a check. *)
Theorem parse_error_appended_unchecked :
  let E := Scenario.with_stdin "not json" Scenario.base_env in
  let w := Scenario.world_of Scenario.logged in
  let r := Observe.main E w in
  let line :=
    json_dumps (Observe.parse_error_observation "2025-03-14T11:30:05Z" "not json")
    +:+ PyStr.nl in
  r.1 = Raise (SystemExit 0)
  /\ Trace.added w r.2
     = [EvMkdir Scenario.config_dir; EvMkdir Scenario.config_dir;
        EvAppend Scenario.observations line]
  /\ Trace.guarded false (Trace.added w r.2) = false
  /\ Os.old_data (fs r.2) Scenario.observations = "{}" +:+ line
  /\ Trace.guarded false
       (Trace.added w
          (Observe.main (Scenario.with_stdin Scenario.edit_event
                           Scenario.base_env) w).2) = true.
Proof. cbv zeta. split_and!; vm_compute; reflexivity. Qed.


(** ** Session end *)

Section session_end.
Context `{PyRuntime} (E : env).

Let sessions : path := home E ++ [".claude"; "sessions"].

Lemma sessions_dir_eq : SessionEnd.get_sessions_dir E = sessions.
Proof.
  unfold SessionEnd.get_sessions_dir, SessionEnd.get_claude_dir, sessions.
  change (home E // ".claude" // "sessions")
    with ((home E ++ [".claude"]) ++ ["sessions"]).
  rewrite <- app_assoc. reflexivity.
Qed.

Lemma session_file_plain date sid :
  PyStr.free_of "/" date = true -> PyStr.free_of "/" sid = true ->
  sessions // SessionEnd.session_file_name date sid
  = sessions ++ [SessionEnd.session_file_name date sid].
Proof.
  intros Hd Hs. apply join_free.
  - unfold SessionEnd.session_file_name.
    rewrite !free_of_app, Hd, Hs. reflexivity.
  - unfold SessionEnd.session_file_name. intros Heq.
    apply (f_equal String.length) in Heq. rewrite !app_length in Heq.
    simpl in Heq. lia.
  - unfold SessionEnd.session_file_name. intros Heq.
    apply (f_equal String.length) in Heq. rewrite !app_length in Heq.
    simpl in Heq. lia.
Qed.

Lemma metadata_file_plain date sid :
  PyStr.free_of "/" date = true -> PyStr.free_of "/" sid = true ->
  sessions // SessionEnd.metadata_file_name date sid
  = sessions ++ [SessionEnd.metadata_file_name date sid].
Proof.
  intros Hd Hs. apply join_free.
  - unfold SessionEnd.metadata_file_name.
    rewrite !free_of_app, Hd, Hs. reflexivity.
  - unfold SessionEnd.metadata_file_name. intros Heq.
    apply (f_equal String.length) in Heq. rewrite !app_length in Heq.
    simpl in Heq. lia.
  - unfold SessionEnd.metadata_file_name. intros Heq.
    apply (f_equal String.length) in Heq. rewrite !app_length in Heq.
    simpl in Heq. lia.
Qed.

(** The marker and the metadata record never share a name. *)
Lemma session_file_not_metadata date sid :
  SessionEnd.session_file_name date sid
  <> SessionEnd.metadata_file_name date sid.
Proof.
  unfold SessionEnd.session_file_name, SessionEnd.metadata_file_name.
  intros Heq. do 3 apply String.app_inj in Heq. discriminate.
Qed.

(** What [main] does to the marker and the metadata file, stated through
    the definitions of the hook. *)
Lemma session_end_spec (w : world) :
  let sessions_dir := SessionEnd.get_sessions_dir E in
  let session_id := SessionEnd.get_session_id_short E in
  let date_str := Strftime.date (local_time (clock E (ticks w))) in
  let session_file :=
    sessions_dir // SessionEnd.session_file_name date_str session_id in
  let metadata_file :=
    sessions_dir // SessionEnd.metadata_file_name date_str session_id in
  PyStr.free_of "/" session_id = true ->
  Os.blocking (fs w) sessions_dir = None ->
  Os.is_dir_node (Os.node_at (fs w) session_file) = false ->
  Os.is_dir_node (Os.node_at (fs w) metadata_file) = false ->
  let r := SessionEnd.main E w in
  let ended := SessionEnd.end_marker (local_time (clock E (S (ticks w)))) in
  r.1 = Ret tt
  /\ match Os.node_at (fs w) session_file with
     | Some (File old _) =>
         (exists t, Os.node_at (fs r.2) session_file
                    = Some (File (old +:+ ended) t))
         /\ exists record t,
              Os.node_at (fs r.2) metadata_file = Some (File record t)
              /\ record = json_dumps_indent 2
                   (SessionEnd.metadata E session_id
                      (local_time (clock E (S (S (ticks w))))))
              /\ Trace.added w r.2
                 = [EvMkdir sessions_dir; EvAppend session_file ended;
                    EvWrite metadata_file record]
     | _ =>
         Os.node_at (fs r.2) session_file = None
         /\ exists record t,
              Os.node_at (fs r.2) metadata_file = Some (File record t)
              /\ record = json_dumps_indent 2
                   (SessionEnd.metadata E session_id
                      (local_time (clock E (S (ticks w)))))
              /\ Trace.added w r.2
                 = [EvMkdir sessions_dir; EvWrite metadata_file record]
     end.
Proof.
  intros sessions_dir session_id date_str session_file metadata_file.
  subst sessions_dir session_file metadata_file.
  rewrite sessions_dir_eq. intros Hsid.
  rewrite session_file_plain, metadata_file_plain
    by (assumption || apply free_of_date).
  set (marker := sessions ++ [_]). set (meta := sessions ++ [_]).
  assert (marker <> meta) as Hmm.
  { intros Heq%app_inv_head. injection Heq as Heq.
    exact (session_file_not_metadata _ _ Heq). }
  intros Hb Hmarker Hmeta r ended.
  set (m1 := Os.make_dirs (Os.stamp E w) (fs w) sessions).
  set (rec1 := json_dumps_indent 2 (SessionEnd.metadata E session_id
                 (local_time (clock E (S (ticks w)))))).
  set (rec2 := json_dumps_indent 2 (SessionEnd.metadata E session_id
                 (local_time (clock E (S (S (ticks w))))))).
  assert (Os.node_at m1 marker = Os.node_at (fs w) marker) as Hm1
    by apply make_dirs_child.
  assert (Os.node_at m1 meta = Os.node_at (fs w) meta) as Hm2
    by apply make_dirs_child.
  assert (Os.is_dir_node (Os.node_at m1 sessions) = true) as Hdir
    by apply make_dirs_is_dir, Hb.
  assert (exists w' t1 t2,
    r = (Ret tt, w')
    /\ match Os.node_at (fs w) marker with
       | Some (File old _) =>
           fs w' = <[meta := File rec2 t2]>
                     (<[marker := File (old +:+ ended) t1]> m1)
           /\ trace w' = trace w ++ [EvMkdir sessions; EvAppend marker ended;
                                     EvWrite meta rec2]
       | _ =>
           fs w' = <[meta := File rec1 t2]> m1
           /\ trace w' = trace w ++ [EvMkdir sessions; EvWrite meta rec1]
       end) as (w' & t1 & t2 & Hrun & Hshape).
  { subst r. unfold SessionEnd.main.
    rewrite sessions_dir_eq.
    unfold mbind, M_bind, Os.mkdir. rewrite Hb.
    unfold Os.now at 1. wproj. fold session_id date_str.
    rewrite session_file_plain, metadata_file_plain
      by (assumption || apply free_of_date).
    fold marker meta m1.
    unfold Os.exists_, when, Os.append_text_opened.
    unfold mbind, M_bind.
    unfold Os.now, Os.append_text, Os.write_text, eprint,
      Os.open_error, Os.old_data, mret, M_ret.
    wproj. rewrite Hm1.
    destruct (Os.node_at (fs w) marker) as [[old mt|]|] eqn:Hnode;
      try discriminate.
    - rewrite bool_decide_eq_true_2 by eauto. wproj. rewrite Hm1. wproj.
      rewrite (node_at_insert_ne _ marker meta) by assumption.
      rewrite Hm2. unfold meta at 2. rewrite parent_snoc.
      rewrite (node_at_insert_ne _ _ sessions) by apply snoc_ne_self.
      destruct (Os.node_at (fs w) meta) as [[]|]; try discriminate.
      + eexists _, _, _. split; [reflexivity|]. split; [reflexivity|].
        wproj. rewrite <- !app_assoc. reflexivity.
      + destruct (Os.node_at m1 sessions) as [[]|]; try discriminate.
        eexists _, _, _. split; [reflexivity|]. split; [reflexivity|].
        wproj. rewrite <- !app_assoc. reflexivity.
    - rewrite bool_decide_eq_false_2 by (intros [? ?]; discriminate). wproj.
      rewrite Hm2. unfold meta at 2. rewrite parent_snoc.
      destruct (Os.node_at (fs w) meta) as [[]|]; try discriminate.
      + eexists _, 0%Q, _. split; [reflexivity|]. split; [reflexivity|].
        wproj. rewrite <- !app_assoc. reflexivity.
      + destruct (Os.node_at m1 sessions) as [[]|]; try discriminate.
        eexists _, 0%Q, _. split; [reflexivity|]. split; [reflexivity|].
        wproj. rewrite <- !app_assoc. reflexivity. }
  rewrite Hrun. wproj. split; [reflexivity|].
  destruct (Os.node_at (fs w) marker) as [[old mt|]|] eqn:Hnode;
    try discriminate; destruct Hshape as [Hfs Htr]; rewrite Hfs.
  - split.
    + exists t1. rewrite node_at_insert_ne by congruence.
      apply node_at_insert_eq, snoc_ne_nil.
    + exists rec2, t2. split; [apply node_at_insert_eq, snoc_ne_nil|].
      split; [reflexivity|]. apply added_app, Htr.
  - split.
    + rewrite node_at_insert_ne by congruence. exact Hm1.
    + exists rec1, t2. split; [apply node_at_insert_eq, snoc_ne_nil|].
      split; [reflexivity|]. apply added_app, Htr.
Qed.

(** C6: at session end the end marker, a rule and the line
    [**[Session ended at HH:MM]**], is appended to the marker file of the day
    and session exactly when that file is there, a missing marker file is
    not created, and the metadata record with the keys [session_id],
    [ended_at] and [cwd] is written in either case, replacing what the
    metadata file held.  (The sessions directory can be created, the session
    identifier has no path separator, and neither file name is taken by a
    directory.) *)
Theorem session_end_marker_and_metadata (w : world) :
  let sessions_dir := home E // ".claude" // "sessions" in
  let given := default "" (environ E !! "CLAUDE_SESSION_ID") in
  let session_id :=
    if negb (String.eqb given "") then PyStr.slice given (Some (-8)) None
    else "default" in
  let date_str := Strftime.date (local_time (clock E (ticks w))) in
  let session_file :=
    sessions_dir // (date_str +:+ "-" +:+ session_id +:+ "-session.tmp") in
  let metadata_file :=
    sessions_dir // (date_str +:+ "-" +:+ session_id +:+ "-metadata.json") in
  PyStr.free_of "/" session_id = true ->
  Os.blocking (fs w) sessions_dir = None ->
  Os.is_dir_node (Os.node_at (fs w) session_file) = false ->
  Os.is_dir_node (Os.node_at (fs w) metadata_file) = false ->
  let r := SessionEnd.main E w in
  let ended :=
    PyStr.nl +:+ "---" +:+ PyStr.nl +:+ "**[Session ended at "
    +:+ Strftime.hm (local_time (clock E (S (ticks w)))) +:+ "]**"
    +:+ PyStr.nl in
  let record_at (t : instant) :=
    json_dumps_indent 2
      (PDict [("session_id", PStr session_id);
              ("ended_at", PStr (Strftime.isoformat (local_time t)));
              ("cwd", PStr (PathLib.to_str (cwd E)))]) in
  r.1 = Ret tt
  /\ match Os.node_at (fs w) session_file with
     | Some (File old _) =>
         (exists t, Os.node_at (fs r.2) session_file
                    = Some (File (old +:+ ended) t))
         /\ exists record t,
              Os.node_at (fs r.2) metadata_file = Some (File record t)
              /\ record = record_at (clock E (S (S (ticks w))))
              /\ Trace.added w r.2
                 = [EvMkdir sessions_dir; EvAppend session_file ended;
                    EvWrite metadata_file record]
     | _ =>
         Os.node_at (fs r.2) session_file = None
         /\ exists record t,
              Os.node_at (fs r.2) metadata_file = Some (File record t)
              /\ record = record_at (clock E (S (ticks w)))
              /\ Trace.added w r.2
                 = [EvMkdir sessions_dir; EvWrite metadata_file record]
     end.
Proof. exact (session_end_spec w). Qed.

End session_end.

(** ** Evaluation gate *)

Section evaluation_gate.
Context `{PyRuntime} (E : env).

(** [load_config] always returns a value and changes nothing. *)
Lemma load_config_total (w : world) :
  exists config, EvaluateSession.load_config E w = (Ret config, w).
Proof.
  unfold EvaluateSession.load_config, mbind, M_bind, Os.exists_, try_except,
    Os.read_text.
  destruct (bool_decide _); [|eauto].
  destruct (Os.node_at _ _) as [[text mt|]|]; simpl; eauto.
  destruct (json_loads text); simpl; eauto.
Qed.

Lemma skip_is_not_save count dest :
  EvaluateSession.too_short_line count <> EvaluateSession.save_line dest.
Proof.
  unfold EvaluateSession.too_short_line, EvaluateSession.save_line.
  intros Heq. apply (f_equal (String.get 22)) in Heq.
  vm_compute in Heq. discriminate.
Qed.

Lemma evaluate_is_not_save count dest :
  EvaluateSession.evaluate_line count <> EvaluateSession.save_line dest.
Proof.
  unfold EvaluateSession.evaluate_line, EvaluateSession.save_line.
  intros Heq. apply (f_equal (String.get 22)) in Heq.
  vm_compute in Heq. discriminate.
Qed.

(** What [count_messages] returns for a transcript that is there: the
    occurrences of the marker in its two spellings, and 0 for a directory
    and for a file that does not decode. *)
Lemma count_messages_spec (w : world) (p : path) (node : node) :
  Os.node_at (fs w) p = Some node ->
  EvaluateSession.count_messages E p w
  = (Ret match node with
         | File content _ =>
             if undecodable E p then 0
             else EvaluateSession.user_messages content
         | Dir _ => 0
         end, w).
Proof.
  intros Hnode. unfold EvaluateSession.count_messages.
  unfold mbind at 1, M_bind at 1, Os.exists_.
  rewrite bool_decide_eq_true_2 by (rewrite Hnode; eauto).
  cbv beta iota delta [negb]. unfold try_except.
  unfold mbind at 1, M_bind at 1, Os.read_text_decoding. rewrite Hnode.
  destruct node as [content mtime|mtime]; [|reflexivity].
  destruct (undecodable E p); reflexivity.
Qed.

(** C4: the gate counts the user-message marker in its two spellings, with
    and without the blank after the colon, in every transcript that is
    there; a transcript that is a directory or does not decode counts as 0.
    It signals an evaluation and names the learned-skills destination
    exactly when that count reaches the configured minimum, which is 10 when
    the configuration has none, and below the minimum it prints the skip
    line alone and leaves.  (The configured minimum is an integer, and the
    configured destination, when it is not empty, is a text.) *)
Theorem evaluation_gate_threshold (w : world) (config value : pyval)
    (min_messages : Z) (transcript : string) (node : node) :
  EvaluateSession.load_config E w = (Ret config, w) ->
  Py.get config "min_session_length" (PInt 10) = inr (PInt min_messages) ->
  Py.get config "learned_skills_path" (PStr "") = inr value ->
  match value with PStr _ => True | _ => Py.truthy value = false end ->
  let configured := match value with PStr s => s | _ => "" end in
  let expanded := PyStr.replace configured "~" (PathLib.to_str (home E)) in
  let default_dir := home E // ".claude" // "skills" // "learned" in
  let dest_dir :=
    if String.eqb configured "" then default_dir else cwd E // expanded in
  let dest_text :=
    if String.eqb configured "" then PathLib.to_str default_dir
    else EvaluateSession.shown expanded in
  Os.blocking (fs w) dest_dir = None ->
  environ E !! "CLAUDE_TRANSCRIPT_PATH" = Some transcript ->
  transcript <> "" ->
  Os.node_at (fs w) (cwd E // transcript) = Some node ->
  let marker (colon : string) :=
    PyStr.dq +:+ "type" +:+ PyStr.dq +:+ colon +:+ PyStr.dq +:+ "user"
    +:+ PyStr.dq in
  let count :=
    match node with
    | File content _ =>
        if undecodable E (cwd E // transcript) then 0
        else Z.of_nat (PyStr.count content (marker ":"))
             + Z.of_nat (PyStr.count content (marker ": "))
    | Dir _ => 0
    end in
  let evaluate_line :=
    "[ContinuousLearning] Session has " +:+ pretty count
    +:+ " messages - evaluate for extractable patterns" in
  let save_line :=
    "[ContinuousLearning] Save learned skills to: " +:+ dest_text in
  let skip_line :=
    "[ContinuousLearning] Session too short (" +:+ pretty count
    +:+ " messages), skipping" in
  let r := EvaluateSession.main E w in
  let printed := drop (length (stderr w)) (stderr r.2) in
  (min_messages <= count ->
   r.1 = Ret tt /\ printed = [evaluate_line; save_line])
  /\ (count < min_messages ->
      r.1 = Raise (SystemExit 0) /\ printed = [skip_line])
  /\ (save_line ∈ printed <-> min_messages <= count).
Proof.
  intros Hcfg Hmin Hget Hvalue configured expanded default_dir dest_dir
    dest_text Hb Henv Hne Hnode marker count evaluate_line save_line
    skip_line r printed.
  assert (EvaluateSession.learned_skills_path E config
          = inr (dest_dir, dest_text)) as Hdest.
  { unfold EvaluateSession.learned_skills_path. rewrite Hget.
    cbn [mbind res_bind]. subst dest_dir dest_text expanded configured.
    destruct value as [| | | |s| |]; try (rewrite Hvalue; reflexivity).
    cbn [Py.truthy]. destruct (String.eqb s ""); reflexivity. }
  assert (exists w',
    r = (if count <? min_messages
         then (Raise (SystemExit 0), with_line skip_line w')
         else (Ret tt, with_line save_line (with_line evaluate_line w')))
    /\ stderr w' = stderr w) as (w' & Hrun & Herr).
  { subst r. unfold EvaluateSession.main.
    unfold mbind at 1, M_bind at 1. rewrite Hcfg.
    unfold mbind at 1, M_bind at 1. rewrite Hmin. simpl lift.
    unfold mret at 1, M_ret at 1. cbv beta iota.
    unfold mbind at 1, M_bind at 1. rewrite Hdest. simpl lift.
    unfold mret at 1, M_ret at 1. cbv beta iota.
    unfold mbind at 1, M_bind at 1, Os.mkdir. cbn [fst snd]. rewrite Hb.
    rewrite Henv. cbn [from_option id].
    apply truthy_str in Hne. rewrite Hne. cbv beta iota delta [negb].
    set (w1 := with_event _ _).
    assert (Os.node_at (fs w1) (cwd E // transcript) = Some node)
      as Hnode1 by (apply make_dirs_keeps, Hnode).
    unfold mbind at 1, M_bind at 1, Os.exists_.
    rewrite bool_decide_eq_true_2 by (rewrite Hnode1; eauto).
    cbv beta iota delta [negb].
    unfold mbind at 1, M_bind at 1.
    rewrite (count_messages_spec w1 _ node Hnode1).
    change (match node with
            | File content _ =>
                if undecodable E (cwd E // transcript) then 0
                else EvaluateSession.user_messages content
            | Dir _ => 0
            end) with count.
    unfold mbind at 1, M_bind at 1. simpl lift.
    unfold mret at 1, M_ret at 1. cbv beta iota.
    exists w1. split; [|reflexivity].
    destruct (count <? min_messages); reflexivity. }
  subst printed. rewrite Hrun.
  destruct (Z.ltb_spec count min_messages) as [Hlt|Hge]; wproj;
    rewrite Herr, <- ?app_assoc, drop_app_length; simpl app.
  - split_and!; try (intros; lia); [auto|].
    split; [|lia]. intros Hin%list_elem_of_singleton.
    symmetry in Hin. apply skip_is_not_save in Hin. contradiction.
  - split_and!; try (intros; lia); [auto|].
    split; [intros _; exact Hge|]. intros _.
    apply elem_of_cons. right. apply list_elem_of_here.
Qed.

End evaluation_gate.

(** The theorem on a transcript of twelve user messages, seven in one
    spelling and five in the other, with no configuration file. *)
Lemma evaluation_gate_threshold_witness :
  let E := Scenario.transcript_env in
  let w := Scenario.world_of (Scenario.with_transcript (Scenario.transcript 7 5)) in
  let dest_text := PathLib.to_str (home E // ".claude" // "skills" // "learned") in
  let marker (colon : string) :=
    PyStr.dq +:+ "type" +:+ PyStr.dq +:+ colon +:+ PyStr.dq +:+ "user"
    +:+ PyStr.dq in
  let count :=
    if undecodable E (cwd E // "t.jsonl") then 0
    else Z.of_nat (PyStr.count (Scenario.transcript 7 5) (marker ":"))
         + Z.of_nat (PyStr.count (Scenario.transcript 7 5) (marker ": ")) in
  let evaluate_line :=
    "[ContinuousLearning] Session has " +:+ pretty count
    +:+ " messages - evaluate for extractable patterns" in
  let save_line :=
    "[ContinuousLearning] Save learned skills to: " +:+ dest_text in
  let skip_line :=
    "[ContinuousLearning] Session too short (" +:+ pretty count
    +:+ " messages), skipping" in
  let r := EvaluateSession.main E w in
  let printed := drop (length (stderr w)) (stderr r.2) in
  count = 12
  /\ (10 <= count ->
      r.1 = Ret tt /\ printed = [evaluate_line; save_line])
  /\ (count < 10 ->
      r.1 = Raise (SystemExit 0) /\ printed = [skip_line])
  /\ (save_line ∈ printed <-> 10 <= count).
Proof.
  intros E w dest_text marker count evaluate_line save_line skip_line r
    printed.
  split; [vm_compute; reflexivity|].
  assert (EvaluateSession.load_config E w = (Ret (PDict []), w)) as Hcfg
    by (vm_compute; reflexivity).
  assert (Os.blocking (fs w) (home E // ".claude" // "skills" // "learned")
          = None) as Hb by (vm_compute; reflexivity).
  assert (environ E !! "CLAUDE_TRANSCRIPT_PATH" = Some "t.jsonl") as Henv
    by (vm_compute; reflexivity).
  assert ("t.jsonl" <> "") as Hne by discriminate.
  assert (Os.node_at (fs w) (cwd E // "t.jsonl")
          = Some (File (Scenario.transcript 7 5) 0)) as Hnode
    by (vm_compute; reflexivity).
  exact (evaluation_gate_threshold E w (PDict []) (PStr "") 10 "t.jsonl"
           (File (Scenario.transcript 7 5) 0)
           Hcfg eq_refl eq_refl I Hb Henv Hne Hnode).
Defined.

(** Three user messages: the gate prints the skip line and nothing else. *)
Example gate_skips_short_session :
  let w := Scenario.world_of (Scenario.with_transcript (Scenario.transcript 2 1)) in
  let r := EvaluateSession.main Scenario.transcript_env w in
  r.1 = Raise (SystemExit 0)
  /\ stderr r.2
     = ["[ContinuousLearning] Session too short (3 messages), skipping"].
Proof. cbv zeta. split; vm_compute; reflexivity. Qed.

(** Twelve user messages against the default minimum of ten: the gate asks
    for an evaluation and names the destination. *)
Example gate_evaluates_long_session :
  let w := Scenario.world_of (Scenario.with_transcript (Scenario.transcript 7 5)) in
  let r := EvaluateSession.main Scenario.transcript_env w in
  r.1 = Ret tt
  /\ stderr r.2
     = ["[ContinuousLearning] Session has 12 messages - evaluate for extractable patterns";
        "[ContinuousLearning] Save learned skills to: /home/dev/.claude/skills/learned"].
Proof. cbv zeta. split; vm_compute; reflexivity. Qed.

(** The same transcript when its bytes do not decode: the count is 0 and
    the gate skips. *)
Example gate_skips_undecodable_transcript :
  let E := Scenario.with_undecodable ["work"; "t.jsonl"]
             Scenario.transcript_env in
  let w := Scenario.world_of (Scenario.with_transcript (Scenario.transcript 7 5)) in
  let r := EvaluateSession.main E w in
  r.1 = Raise (SystemExit 0)
  /\ stderr r.2
     = ["[ContinuousLearning] Session too short (0 messages), skipping"].
Proof. cbv zeta. split; vm_compute; reflexivity. Qed.

(** A path prints as [pathlib] prints it: two leading slashes stay, three
    make one, and a tilde is replaced wherever it stands. *)
Example destination_as_printed :
  EvaluateSession.shown "//x/learned" = "//x/learned"
  /\ EvaluateSession.shown "///x//learned/" = "/x/learned"
  /\ EvaluateSession.shown "skills/./learned" = "skills/learned"
  /\ EvaluateSession.shown "" = "."
  /\ EvaluateSession.shown "//" = "//"
  /\ EvaluateSession.learned_skills_path Scenario.base_env
       (PDict [("learned_skills_path", PStr "~/skills")])
     = inr (["home"; "dev"; "skills"], "/home/dev/skills").
Proof. split_and!; vm_compute; reflexivity. Qed.

(** The theorem for session [abcdef1234] with its marker of the day in
    place. *)
Lemma session_end_marker_and_metadata_witness :
  let E := Scenario.session_env in
  let w := Scenario.world_of Scenario.started in
  let sessions_dir := home E // ".claude" // "sessions" in
  let given := default "" (environ E !! "CLAUDE_SESSION_ID") in
  let session_id :=
    if negb (String.eqb given "") then PyStr.slice given (Some (-8)) None
    else "default" in
  let date_str := Strftime.date (local_time (clock E (ticks w))) in
  let session_file :=
    sessions_dir // (date_str +:+ "-" +:+ session_id +:+ "-session.tmp") in
  let metadata_file :=
    sessions_dir // (date_str +:+ "-" +:+ session_id +:+ "-metadata.json") in
  let r := SessionEnd.main E w in
  let ended :=
    PyStr.nl +:+ "---" +:+ PyStr.nl +:+ "**[Session ended at "
    +:+ Strftime.hm (local_time (clock E (S (ticks w)))) +:+ "]**"
    +:+ PyStr.nl in
  let record_at (t : instant) :=
    json_dumps_indent 2
      (PDict [("session_id", PStr session_id);
              ("ended_at", PStr (Strftime.isoformat (local_time t)));
              ("cwd", PStr (PathLib.to_str (cwd E)))]) in
  session_file = Scenario.marker_today
  /\ r.1 = Ret tt
  /\ match Os.node_at (fs w) session_file with
     | Some (File old _) =>
         (exists t, Os.node_at (fs r.2) session_file
                    = Some (File (old +:+ ended) t))
         /\ exists record t,
              Os.node_at (fs r.2) metadata_file = Some (File record t)
              /\ record = record_at (clock E (S (S (ticks w))))
              /\ Trace.added w r.2
                 = [EvMkdir sessions_dir; EvAppend session_file ended;
                    EvWrite metadata_file record]
     | _ =>
         Os.node_at (fs r.2) session_file = None
         /\ exists record t,
              Os.node_at (fs r.2) metadata_file = Some (File record t)
              /\ record = record_at (clock E (S (ticks w)))
              /\ Trace.added w r.2
                 = [EvMkdir sessions_dir; EvWrite metadata_file record]
     end.
Proof.
  intros E w sessions_dir given session_id date_str session_file
    metadata_file r ended record_at.
  split; [vm_compute; reflexivity|].
  assert (PyStr.free_of "/" session_id = true) as Hid
    by (vm_compute; reflexivity).
  assert (Os.blocking (fs w) sessions_dir = None) as Hb
    by (vm_compute; reflexivity).
  assert (Os.is_dir_node (Os.node_at (fs w) session_file) = false) as Hs
    by (vm_compute; reflexivity).
  assert (Os.is_dir_node (Os.node_at (fs w) metadata_file) = false) as Hm
    by (vm_compute; reflexivity).
  exact (session_end_marker_and_metadata E w Hid Hb Hs Hm).
Defined.

(** Without a marker file the session end creates none and still writes the
    metadata record. *)
Example session_end_without_marker :
  let E := Scenario.session_env in
  let w := Scenario.world_of ∅ in
  let r := SessionEnd.main E w in
  r.1 = Ret tt
  /\ Os.node_at (fs r.2) Scenario.marker_today = None
  /\ Os.is_file_node
       (Os.node_at (fs r.2)
          (Scenario.sessions_dir ++ ["2025-03-14-cdef1234-metadata.json"]))
     = true
  /\ Trace.guarded false (Trace.added w r.2) = true.
Proof. cbv zeta. split_and!; vm_compute; reflexivity. Qed.

(** ** Directory listings and their order *)

Section listings.
Context {A : Type} (key : A -> Q).
Implicit Types (l : list A) (x y : A).

Lemma elem_of_insert_newest x y l :
  y ∈ insert_newest key x l <-> y = x \/ y ∈ l.
Proof.
  induction l as [|h t IH]; simpl.
  - rewrite list_elem_of_singleton. split; [auto|].
    intros [?|Hin]; [assumption|inversion Hin].
  - destruct (Qle_bool (key h) (key x)).
    + rewrite elem_of_cons. reflexivity.
    + rewrite !elem_of_cons, IH. tauto.
Qed.

(** Sorting keeps the elements. *)
Lemma elem_of_sort_newest y l : y ∈ sort_newest key l <-> y ∈ l.
Proof.
  induction l as [|h t IH]; simpl; [reflexivity|].
  rewrite elem_of_insert_newest, IH, elem_of_cons. reflexivity.
Qed.

#[local] Abbreviation topped := (topped key).

Lemma insert_newest_topped x l : topped l -> topped (insert_newest key x l).
Proof.
  destruct l as [|h t]; simpl.
  - intros _ y ->%list_elem_of_singleton. apply Qle_refl.
  - intros Htop. destruct (Qle_bool (key h) (key x)) eqn:Hle.
    + apply Qle_bool_iff in Hle. intros y [->|Hy]%elem_of_cons.
      * apply Qle_refl.
      * eapply Qle_trans; [apply Htop, Hy|exact Hle].
    + assert (key x < key h)%Q as Hlt.
      { apply Qnot_le_lt. intros Hle'%Qle_bool_iff. congruence. }
      intros y [->|Hy]%elem_of_cons; [apply Qle_refl|].
      apply elem_of_insert_newest in Hy as [->|Hy].
      * apply Qlt_le_weak, Hlt.
      * apply Htop. apply list_elem_of_further, Hy.
Qed.

Lemma sort_newest_topped l : topped (sort_newest key l).
Proof.
  induction l as [|h t IH]; simpl; [exact I|].
  apply insert_newest_topped, IH.
Qed.

Lemma sort_newest_head l x l' :
  sort_newest key l = x :: l' ->
  x ∈ l /\ forall y, y ∈ l -> (key y <= key x)%Q.
Proof.
  intros Hs. pose proof (sort_newest_topped l) as Htop. rewrite Hs in Htop.
  split.
  - apply elem_of_sort_newest. rewrite Hs. apply list_elem_of_here.
  - intros y Hy. apply Htop. rewrite <- Hs. apply elem_of_sort_newest, Hy.
Qed.

Lemma sort_newest_nil l : sort_newest key l = [] -> l = [].
Proof.
  destruct l as [|h t]; [reflexivity|]. intros Hs.
  assert (h ∈ sort_newest key (h :: t)) as Hin
    by (apply elem_of_sort_newest, list_elem_of_here).
  rewrite Hs in Hin. inversion Hin.
Qed.

End listings.

Section entries.
Implicit Types (m : gmap path node) (p d : path) (n : node).

Lemma elem_of_entries m d p n :
  (p, n) ∈ Os.entries m d <-> m !! p = Some n /\ PathLib.parent p = d /\ p <> [].
Proof.
  unfold Os.entries. rewrite list_elem_of_filter, elem_of_map_to_list.
  simpl. tauto.
Qed.

Lemma child_snoc p d :
  PathLib.parent p = d -> p <> [] -> p = d ++ [PathLib.name p].
Proof.
  intros <- Hp. unfold PathLib.parent, PathLib.name.
  apply app_removelast_last, Hp.
Qed.

End entries.

(** ** Pre-compaction *)

Section pre_compact.
Context `{PyRuntime} (E : env).

Let sessions : path := home E ++ [".claude"; "sessions"].
Let clog : path := sessions ++ ["compaction-log.txt"].

Lemma pre_compact_sessions_dir_eq : PreCompact.get_sessions_dir E = sessions.
Proof.
  unfold PreCompact.get_sessions_dir, PreCompact.get_claude_dir, sessions.
  change (home E // ".claude" // "sessions")
    with ((home E ++ [".claude"]) ++ ["sessions"]).
  rewrite <- app_assoc. reflexivity.
Qed.

(** A marker of the sessions directory: an entry whose name matches
    [*-session.tmp]. *)
Let is_marker (m : gmap path node) (p : path) (n : node) : Prop :=
  Os.node_at m p = Some n /\ p <> [] /\ PathLib.parent p = sessions
  /\ Glob.fnmatch "*-session.tmp" (PathLib.name p) = true.

(** Creating the sessions directory and writing the compaction log change
    no marker. *)
Lemma markers_kept (m : gmap path node) t n0 p n :
  is_marker (<[clog := n0]> (Os.make_dirs t m sessions)) p n
  <-> is_marker m p n.
Proof.
  unfold is_marker.
  split; intros (Hn & Hp & Hpar & Hmatch); split_and!; try assumption.
  - pose proof (child_snoc p sessions Hpar Hp) as Hsnoc.
    rewrite node_at_insert_ne in Hn.
    + rewrite Hsnoc in Hn |- *. rewrite make_dirs_child in Hn. exact Hn.
    + intros <-. unfold clog in Hmatch. rewrite name_snoc in Hmatch.
      vm_compute in Hmatch. discriminate.
  - pose proof (child_snoc p sessions Hpar Hp) as Hsnoc.
    rewrite node_at_insert_ne.
    + rewrite Hsnoc in Hn |- *. rewrite make_dirs_child. exact Hn.
    + intros <-. unfold clog in Hmatch. rewrite name_snoc in Hmatch.
      vm_compute in Hmatch. discriminate.
Qed.

Lemma elem_of_glob_markers (m : gmap path node) p n :
  (p, n) ∈ filter (fun kv => Glob.fnmatch "*-session.tmp" (PathLib.name kv.1) = true)
             (Os.entries m sessions)
  <-> is_marker m p n.
Proof.
  rewrite list_elem_of_filter, elem_of_entries. unfold is_marker. simpl.
  split.
  - intros (Hmatch & Hn & Hpar & Hp). rewrite node_at_ne by assumption. tauto.
  - intros (Hn & Hp & Hpar & Hmatch). rewrite node_at_ne in Hn by assumption.
    tauto.
Qed.


End pre_compact.


(** ** Finding files by age *)

Section find_files.
Context `{PyRuntime} (E : env).
Implicit Types (m : gmap path node) (d p : path) (w : world).

Lemma nticks_0 w : nticks 0 w = w.
Proof. destruct w. unfold nticks. simpl. f_equal. lia. Qed.

Lemma nticks_tick k w : nticks k (tick w) = nticks (S k) w.
Proof. unfold nticks, tick. simpl. f_equal. lia. Qed.

Lemma nticks_add a b w : nticks b (nticks a w) = nticks (a + b) w.
Proof. unfold nticks. simpl. f_equal. lia. Qed.

Lemma judge_app max t l1 l2 :
  Utils.judge E max t (l1 ++ l2)
  = Utils.judge E max t l1 ++ Utils.judge E max (t + length l1) l2.
Proof.
  revert t. induction l1 as [|x l1 IH]; intros t; simpl.
  - rewrite Nat.add_0_r. reflexivity.
  - rewrite IH, <- Nat.add_succ_comm.
    destruct (Utils.too_old _ _ _); reflexivity.
Qed.

(** An element is kept exactly when one of its occurrences is not too old at
    the instant it is examined. *)
Lemma elem_of_judge max t l x :
  x ∈ Utils.judge E max t l
  <-> exists i, l !! i = Some x
      /\ Utils.too_old max (clock E (t + i)) (Utils.found_mtime x) = false.
Proof.
  revert t. induction l as [|y l IH]; intros t; simpl.
  - split; [intros Hin; inversion Hin|intros (i & Hi & _); discriminate].
  - destruct (Utils.too_old max (clock E t) (Utils.found_mtime y)) eqn:Hy.
    + rewrite IH. split.
      * intros (i & Hi & Hold). exists (S i). rewrite <- Nat.add_succ_comm. auto.
      * intros ([|i] & Hi & Hold).
        -- simpl in Hi. injection Hi as ->. rewrite Nat.add_0_r in Hold.
           congruence.
        -- exists i. rewrite <- Nat.add_succ_comm in Hold. auto.
    + rewrite elem_of_cons, IH. split.
      * intros [->|(i & Hi & Hold)].
        -- exists 0%nat. rewrite Nat.add_0_r. auto.
        -- exists (S i). rewrite <- Nat.add_succ_comm. auto.
      * intros ([|i] & Hi & Hold).
        -- simpl in Hi. injection Hi as ->. auto.
        -- right. exists i. rewrite <- Nat.add_succ_comm in Hold. auto.
Qed.

(** The age test: an entry is too old exactly when its age in days is
    strictly above the limit. *)
Lemma too_old_false max (t : instant) (mtime : Q) :
  Utils.too_old max t mtime = false
  <-> ((posix t - mtime) / inject_Z (60 * 60 * 24) <= max)%Q.
Proof.
  unfold Utils.too_old, Qlt_bool. rewrite negb_false_iff. apply Qle_bool_iff.
Qed.

Lemma too_old_true max (t : instant) (mtime : Q) :
  Utils.too_old max t mtime = true
  <-> (max < (posix t - mtime) / inject_Z (60 * 60 * 24))%Q.
Proof.
  unfold Utils.too_old, Qlt_bool. rewrite negb_true_iff. split.
  - intros Hle. apply Qnot_le_lt. intros Hle'%Qle_bool_iff. congruence.
  - intros Hlt. destruct (Qle_bool _ _) eqn:Hle; [|reflexivity].
    apply Qle_bool_iff in Hle. apply Qlt_not_le in Hlt. contradiction.
Qed.

Lemma fs_nticks k w : fs (nticks k w) = fs w.
Proof. reflexivity. Qed.

(** The scan, entry by entry: without an age limit it collects the hits and
    leaves the world alone; with one it reads the clock once for each hit and
    keeps those that pass the age test at that reading. *)
Lemma search_dir_spec regex recursive max fuel :
  forall d results w,
    Os.is_dir_node (Os.node_at (fs w) d) = true ->
    Utils.search_dir E fuel regex None recursive d results w
    = (Ret (results ++ Utils.hits fuel regex recursive (fs w) d), w)
    /\ Utils.search_dir E fuel regex (Some max) recursive d results w
       = (Ret (results
               ++ Utils.judge E max (ticks w)
                    (Utils.hits fuel regex recursive (fs w) d)),
          nticks (length (Utils.hits fuel regex recursive (fs w) d)) w).
Proof.
  induction fuel as [|fuel IHfuel]; intros d results w Hd.
  - simpl. rewrite app_nil_r, nticks_0. split; reflexivity.
  - simpl Utils.search_dir. simpl Utils.hits.
    set (vN := Utils.visit E (Utils.search_dir E fuel regex None recursive)
                 regex None recursive).
    set (vS := Utils.visit E (Utils.search_dir E fuel regex (Some max) recursive)
                 regex (Some max) recursive).
    unfold mbind, M_bind, Os.iterdir.
    destruct (Os.node_at (fs w) d) as [[d0 t0|t0]|]; try discriminate.
    clear Hd t0. set (m := fs w).
    assert (forall p n, (p, n) ∈ Os.entries m d -> Os.node_at m p = Some n)
      as Hall.
    { intros p n (Hn & _ & Hp)%elem_of_entries.
      rewrite node_at_ne by assumption. exact Hn. }
    assert (fs w = m) as Hw by reflexivity.
    revert Hall Hw. generalize (Os.entries m d) as l. clearbody m.
    intros l. revert results w.
    induction l as [|[p n] l IHl]; intros results w Hall Hw.
    + simpl. rewrite app_nil_r, nticks_0. split; reflexivity.
    + assert (forall p' n', (p', n') ∈ l -> Os.node_at m p' = Some n') as Hl
        by (intros; apply Hall, list_elem_of_further; assumption).
      pose proof (Hall p n (list_elem_of_here _ _)) as Hp.
      simpl foldM. simpl flat_map. unfold mbind, M_bind.
      unfold vN at 1, vS at 1. unfold Utils.visit.
      destruct n as [data mtime|mt]; cbn [fst snd].
      * destruct (regex (PathLib.name p)).
        -- unfold mbind, M_bind, mret, M_ret, Os.now.
           destruct (IHl (results ++ [{| Utils.found_path := PathLib.to_str p;
                                         Utils.found_mtime := mtime |}]) w Hl Hw)
             as [Hnone _].
           unfold mbind, M_bind in Hnone.
           rewrite Hnone, <- app_assoc. split; [reflexivity|].
           simpl Utils.judge.
           destruct (Utils.too_old max (clock E (ticks w)) mtime).
           ++ destruct (IHl results (tick w) Hl Hw) as [_ Hsome].
              unfold mbind, M_bind in Hsome.
              rewrite Hsome, nticks_tick. reflexivity.
           ++ destruct (IHl (results ++ [{| Utils.found_path := PathLib.to_str p;
                                            Utils.found_mtime := mtime |}])
                          (tick w) Hl Hw) as [_ Hsome].
              unfold mbind, M_bind in Hsome.
              rewrite Hsome, nticks_tick, <- app_assoc. reflexivity.
        -- unfold mret, M_ret. apply IHl; assumption.
      * destruct recursive.
        -- assert (Os.is_dir_node (Os.node_at (fs w) p) = true) as Hdir
             by (rewrite Hw, Hp; reflexivity).
           destruct (IHfuel p results w Hdir) as [Hnone Hsome].
           rewrite Hw in Hnone, Hsome.
           rewrite Hnone, Hsome.
           set (sub := Utils.hits fuel regex true m p) in *.
           destruct (IHl (results ++ sub) w Hl Hw) as [Hnone' _].
           destruct (IHl (results ++ Utils.judge E max (ticks w) sub)
                       (nticks (length sub) w) Hl Hw) as [_ Hsome'].
           unfold mbind, M_bind in Hnone', Hsome'.
           rewrite Hnone', Hsome'. split.
           ++ rewrite <- app_assoc. reflexivity.
           ++ rewrite judge_app, length_app, nticks_add, <- app_assoc.
              reflexivity.
        -- unfold mret, M_ret. apply IHl; assumption.
Qed.

(** *** The fuel of the scan is enough *)

Lemma entry_length m d p n :
  (p, n) ∈ Os.entries m d ->
  length p = S (length d) /\ (length p <= Utils.max_depth m)%nat.
Proof.
  intros Hin. pose proof Hin as (Hn & Hpar & Hp)%elem_of_entries. split.
  - rewrite (child_snoc p d Hpar Hp), length_app. simpl. lia.
  - unfold Utils.max_depth. apply max_list_elem_of_le.
    apply list_elem_of_fmap. exists p. split; [reflexivity|].
    apply list_elem_of_fmap. exists (p, n). split; [reflexivity|].
    apply elem_of_map_to_list, Hn.
Qed.

Lemma flat_map_agree {A B} (f g : A -> list B) (l : list A) :
  (forall a, a ∈ l -> f a = g a) -> flat_map f l = flat_map g l.
Proof.
  induction l as [|a l IH]; intros Hfg; simpl; [reflexivity|].
  rewrite (Hfg a) by apply list_elem_of_here.
  rewrite IH; [reflexivity|]. intros; apply Hfg, list_elem_of_further.
  assumption.
Qed.

(** Once the fuel exceeds the depth that is left below [d], more fuel does
    not change what the scan finds. *)
Lemma hits_fuel regex recursive m :
  forall n n' d,
    (Utils.max_depth m < length d + n)%nat ->
    (Utils.max_depth m < length d + n')%nat ->
    Utils.hits n regex recursive m d = Utils.hits n' regex recursive m d.
Proof.
  assert (forall d, (Utils.max_depth m < length d)%nat -> Os.entries m d = [])
    as Hempty.
  { intros d Hd. destruct (Os.entries m d) as [|[p n] l] eqn:Hl; [reflexivity|].
    destruct (entry_length m d p n) as [? ?]; [|lia].
    rewrite Hl. apply list_elem_of_here. }
  induction n as [|n IH]; intros n' d Hn Hn'.
  - rewrite Nat.add_0_r in Hn. destruct n'; [reflexivity|].
    simpl. rewrite (Hempty d Hn). reflexivity.
  - destruct n' as [|n'].
    + rewrite Nat.add_0_r in Hn'. simpl. rewrite (Hempty d Hn'). reflexivity.
    + simpl. apply flat_map_agree. intros [p x] Hin.
      destruct (entry_length m d p x Hin) as [Hlen _].
      destruct x; simpl; [reflexivity|].
      destruct recursive; [|reflexivity].
      apply IH; lia.
Qed.

Lemma hits_fuel_enough regex recursive m d fuel :
  (Utils.max_depth m < fuel)%nat ->
  Utils.hits fuel regex recursive m d
  = Utils.hits (S (Utils.max_depth m)) regex recursive m d.
Proof. intros Hf. apply hits_fuel; lia. Qed.

(** C5: [find_files] with [max_age_days] returns, newest first, the files it
    would return without the limit, except those whose age in days, the
    clock's reading when the file is examined minus its modification time,
    over [60 * 60 * 24], is strictly above [max_age_days]; a file whose age
    is equal to the limit is kept. *)
Theorem find_files_max_age (w : world) (directory : path) (pattern : string)
    (regex : string -> bool) (max_age_days : Q) (recursive : bool) :
  re_compile (Utils.glob_to_regex pattern) = Some regex ->
  Os.is_dir_node (Os.node_at (fs w) directory) = true ->
  let all :=
    Utils.hits (S (Utils.max_depth (fs w))) regex recursive (fs w) directory in
  let age_days (i : nat) (x : Utils.found) : Q :=
    ((posix (clock E (ticks w + i)) - Utils.found_mtime x)
     / inject_Z (60 * 60 * 24))%Q in
  let unlimited := Utils.find_files E directory pattern None recursive w in
  let limited :=
    Utils.find_files E directory pattern (Some max_age_days) recursive w in
  let kept := Utils.judge E max_age_days (ticks w) all in
  unlimited = (Ret (sort_newest Utils.found_mtime all), w)
  /\ limited = (Ret (sort_newest Utils.found_mtime kept), nticks (length all) w)
  /\ (forall x, x ∈ kept
                <-> exists i, all !! i = Some x
                              /\ (age_days i x <= max_age_days)%Q)
  /\ (forall i x,
        Utils.too_old max_age_days (clock E (ticks w + i)) (Utils.found_mtime x)
        = true <-> (max_age_days < age_days i x)%Q)
  /\ (forall fuel, (Utils.max_depth (fs w) < fuel)%nat ->
                   Utils.hits fuel regex recursive (fs w) directory = all).
Proof.
  intros Hre Hdir all age_days unlimited limited kept.
  destruct (search_dir_spec regex recursive max_age_days
              (S (Utils.max_depth (fs w))) directory [] w Hdir)
    as [Hnone Hsome].
  assert (bool_decide (is_Some (Os.node_at (fs w) directory)) = true) as Hex.
  { apply bool_decide_eq_true_2.
    destruct (Os.node_at (fs w) directory); [eauto|discriminate]. }
  split_and!.
  - subst unlimited. unfold Utils.find_files.
    unfold mbind at 1, M_bind at 1, Os.exists_. rewrite Hex, Hre.
    cbv beta iota delta [negb].
    unfold mbind at 1, M_bind at 1. cbv beta iota.
    unfold mbind at 1, M_bind at 1. rewrite Hnone. reflexivity.
  - subst limited. unfold Utils.find_files.
    unfold mbind at 1, M_bind at 1, Os.exists_. rewrite Hex, Hre.
    cbv beta iota delta [negb].
    unfold mbind at 1, M_bind at 1. cbv beta iota.
    unfold mbind at 1, M_bind at 1. rewrite Hsome. reflexivity.
  - intros x. subst kept. rewrite elem_of_judge. subst age_days.
    split; intros (i & Hi & Hold); exists i; (split; [exact Hi|]);
      apply too_old_false; exact Hold.
  - intros i x. apply too_old_true.
  - intros fuel Hfuel. apply hits_fuel_enough, Hfuel.
Qed.

End find_files.

(** The theorem on the sessions directory with markers aged one, eight and
    thirty days, and a limit of seven. *)
Lemma find_files_max_age_witness :
  let E := Scenario.base_env in
  let w := Scenario.world_of Scenario.aged in
  let directory := Scenario.sessions_dir in
  let regex :=
    default (fun _ => false) (re_compile (Utils.glob_to_regex "*-session.tmp")) in
  let all :=
    Utils.hits (S (Utils.max_depth (fs w))) regex false (fs w) directory in
  let age_days (i : nat) (x : Utils.found) : Q :=
    ((posix (clock E (ticks w + i)) - Utils.found_mtime x)
     / inject_Z (60 * 60 * 24))%Q in
  let unlimited := Utils.find_files E directory "*-session.tmp" None false w in
  let limited := Utils.find_files E directory "*-session.tmp" (Some 7%Q) false w in
  let kept := Utils.judge E 7%Q (ticks w) all in
  length all = 3%nat
  /\ unlimited = (Ret (sort_newest Utils.found_mtime all), w)
  /\ limited = (Ret (sort_newest Utils.found_mtime kept), nticks (length all) w)
  /\ (forall x, x ∈ kept
                <-> exists i, all !! i = Some x /\ (age_days i x <= 7)%Q)
  /\ (forall i x,
        Utils.too_old 7%Q (clock E (ticks w + i)) (Utils.found_mtime x) = true
        <-> (7 < age_days i x)%Q)
  /\ (forall fuel, (Utils.max_depth (fs w) < fuel)%nat ->
                   Utils.hits fuel regex false (fs w) directory = all).
Proof.
  intros E w directory regex all age_days unlimited limited kept.
  split; [vm_compute; reflexivity|].
  assert (re_compile (Utils.glob_to_regex "*-session.tmp") = Some regex) as Hre
    by (vm_compute; reflexivity).
  assert (Os.is_dir_node (Os.node_at (fs w) directory) = true) as Hdir
    by (vm_compute; reflexivity).
  exact (find_files_max_age E w directory "*-session.tmp" regex 7%Q false
           Hre Hdir).
Defined.

(** Markers aged one, eight and thirty days against a limit of seven: only
    the one of a day ago is returned; without a limit all three are, newest
    first. *)
Example find_files_week :
  let w := Scenario.world_of Scenario.aged in
  let found limit :=
    match (Utils.find_files Scenario.base_env Scenario.sessions_dir
             "*-session.tmp" limit false w).1 with
    | Ret l => Some (Utils.found_path <$> l)
    | Raise _ => None
    end in
  found (Some 7%Q) = Some ["/home/dev/.claude/sessions/a-session.tmp"]
  /\ found None = Some ["/home/dev/.claude/sessions/a-session.tmp";
                        "/home/dev/.claude/sessions/b-session.tmp";
                        "/home/dev/.claude/sessions/c-session.tmp"].
Proof. cbv zeta. split; vm_compute; reflexivity. Qed.

(** A marker that is exactly seven days old is kept by a limit of seven and
    dropped by any smaller one. *)
Example find_files_boundary :
  let w := Scenario.world_of Scenario.week_old in
  let found limit :=
    match (Utils.find_files Scenario.base_env Scenario.sessions_dir
             "*-session.tmp" (Some limit) false w).1 with
    | Ret l => Some (Utils.found_path <$> l)
    | Raise _ => None
    end in
  found 7%Q = Some ["/home/dev/.claude/sessions/w-session.tmp"]
  /\ found (6999 # 1000)%Q = Some [].
Proof. cbv zeta. split; vm_compute; reflexivity. Qed.

(** The session start hook's own search agrees on both scenarios. *)
Example find_recent_files_week :
  (SessionStart.find_recent_files Scenario.base_env Scenario.sessions_dir
     "*-session.tmp" 7 (Scenario.world_of Scenario.aged)).1
  = Ret [Scenario.sessions_dir ++ ["a-session.tmp"]]
  /\ (SessionStart.find_recent_files Scenario.base_env Scenario.sessions_dir
        "*-session.tmp" 7 (Scenario.world_of Scenario.week_old)).1
     = Ret [Scenario.sessions_dir ++ ["w-session.tmp"]].
Proof. split; vm_compute; reflexivity. Qed.


(** ** Decimal numerals: [str] of an integer and [int] of its text *)

Section decimal.

Lemma app_empty_r s : s +:+ "" = s.
Proof. induction s as [|c s IH]; [reflexivity|]. rewrite app_cons, IH. reflexivity. Qed.

Lemma every_app f s1 s2 :
  PyStr.every f (s1 +:+ s2) = PyStr.every f s1 && PyStr.every f s2.
Proof.
  induction s1 as [|c s1 IH]; [reflexivity|].
  rewrite app_cons. simpl. rewrite IH, andb_assoc. reflexivity.
Qed.

Lemma every_rev_app f s1 s2 :
  PyStr.every f (String.rev_app s1 s2) = PyStr.every f s1 && PyStr.every f s2.
Proof.
  revert s2. induction s1 as [|c s1 IH]; intros s2; [reflexivity|].
  simpl. rewrite IH. simpl. rewrite !andb_assoc.
  f_equal. apply andb_comm.
Qed.

Lemma rev_app_rev_app s1 s2 s3 :
  String.rev_app (String.rev_app s1 s2) s3 = String.rev_app s2 (s1 +:+ s3).
Proof.
  revert s2. induction s1 as [|c s1 IH]; intros s2; [reflexivity|].
  simpl. rewrite IH. reflexivity.
Qed.

Lemma rev_involutive s : String.rev (String.rev s) = s.
Proof. unfold String.rev. rewrite rev_app_rev_app. simpl. apply app_empty_r. Qed.

#[local] Abbreviation solid := (PyStr.every (fun c => negb (PyStr.is_space c))).

Lemma lstrip_solid s : solid s = true -> PyStr.lstrip s = s.
Proof.
  destruct s as [|c s]; [reflexivity|]. simpl.
  destruct (PyStr.is_space c); [discriminate|reflexivity].
Qed.

(** A text without white space is its own [strip()]. *)
Lemma strip_solid s : solid s = true -> PyStr.strip s = s.
Proof.
  intros Hs. unfold PyStr.strip, PyStr.rstrip.
  rewrite (lstrip_solid s Hs), lstrip_solid, rev_involutive; [reflexivity|].
  unfold String.rev. rewrite every_rev_app, Hs. reflexivity.
Qed.

Lemma every_pretty_N_go f x s :
  (forall d, f (pretty_N_char d) = true) ->
  PyStr.every f s = true -> PyStr.every f (pretty_N_go x s) = true.
Proof.
  intros Hf. revert s. induction (N.lt_wf_0 x) as [x _ IH]; intros s Hs.
  destruct (N.eq_dec x 0%N) as [->|Hx]; [assumption|].
  rewrite pretty_N_go_step by lia. apply IH.
  - apply N.div_lt; lia.
  - simpl. rewrite Hs, Hf. reflexivity.
Qed.

Lemma digit_char d :
  Py.is_digit (pretty_N_char d) = true
  /\ PyStr.is_space (pretty_N_char d) = false.
Proof. unfold pretty_N_char. repeat case_match; split; reflexivity. Qed.

Lemma digit_value d :
  (d < 10)%N -> Z.of_N (N_of_ascii (pretty_N_char d)) - 48 = Z.of_N d.
Proof.
  intros Hd.
  assert (d = 0 \/ d = 1 \/ d = 2 \/ d = 3 \/ d = 4 \/ d = 5 \/ d = 6
          \/ d = 7 \/ d = 8 \/ d = 9)%N as Hc by lia.
  repeat destruct Hc as [->|Hc]; try subst d; reflexivity.
Qed.

Lemma every_pretty_N f (x : N) :
  (forall d, f (pretty_N_char d) = true) -> PyStr.every f (pretty x) = true.
Proof.
  intros Hf. unfold pretty, pretty_N. case_decide.
  - simpl. rewrite andb_true_r. apply (Hf 0%N).
  - apply every_pretty_N_go; [assumption|reflexivity].
Qed.

Lemma solid_pretty (z : Z) : solid (pretty z) = true.
Proof.
  assert (forall d, negb (PyStr.is_space (pretty_N_char d)) = true) as Hf.
  { intros d. destruct (digit_char d) as [_ ->]. reflexivity. }
  destruct z as [|x|x]; [reflexivity| |].
  - apply (every_pretty_N _ (N.pos x) Hf).
  - change (pretty (Z.neg x)) with ("-" +:+ pretty (N.pos x)).
    rewrite every_app, (every_pretty_N _ (N.pos x) Hf). reflexivity.
Qed.

(** Reading the digits of [x] continues the number read so far. *)
Lemma digits_go_pretty_N_go x :
  (0 < x)%N ->
  exists k, forall s acc b,
    Py.digits_go acc b (pretty_N_go x s)
    = Py.digits_go (acc * k + Z.of_N x) true s.
Proof.
  induction (N.lt_wf_0 x) as [x _ IH]. intros Hx.
  pose proof (N.div_mod x 10 ltac:(discriminate)) as Hdm.
  pose proof (N.mod_lt x 10 ltac:(discriminate)) as Hlt.
  destruct (digit_char (x mod 10)) as [Hdig _].
  pose proof (digit_value _ Hlt) as Hval.
  destruct (N.eq_dec (x / 10)%N 0%N) as [Hq|Hq].
  - exists 10. intros s acc b. rewrite pretty_N_go_step by assumption.
    rewrite Hq, pretty_N_go_0. simpl Py.digits_go. rewrite Hdig, Hval.
    f_equal. lia.
  - destruct (IH (x / 10)%N) as [k Hk]; [apply N.div_lt; lia|lia|].
    exists (k * 10). intros s acc b. rewrite pretty_N_go_step by assumption.
    rewrite Hk. simpl Py.digits_go. rewrite Hdig, Hval. f_equal. lia.
Qed.

Lemma sign_free (c : ascii) {A} (minus plus other : A) :
  Py.is_digit c = true ->
  match c with
  | "-"%char => minus
  | "+"%char => plus
  | _ => other
  end = other.
Proof.
  destruct c as [[] [] [] [] [] [] [] []]; intros Hc;
    first [reflexivity | discriminate Hc].
Qed.

Lemma lstrip_of_solid space s :
  PyStr.every (fun c => negb (space c)) s = true -> PyStr.lstrip_of space s = s.
Proof.
  destruct s as [|c s]; [reflexivity|]. simpl.
  destruct (space c); [discriminate|reflexivity].
Qed.

Lemma strip_of_solid space s :
  PyStr.every (fun c => negb (space c)) s = true -> PyStr.strip_of space s = s.
Proof.
  intros Hs. unfold PyStr.strip_of.
  rewrite (lstrip_of_solid space s Hs), lstrip_of_solid, rev_involutive;
    [reflexivity|].
  unfold String.rev. rewrite every_rev_app, Hs. reflexivity.
Qed.

Lemma int_solid_pretty (z : Z) :
  PyStr.every (fun c => negb (Py.is_int_space c)) (pretty z) = true.
Proof.
  assert (forall d, negb (Py.is_int_space (pretty_N_char d)) = true) as Hf.
  { intros d. unfold pretty_N_char. repeat case_match; reflexivity. }
  destruct z as [|x|x]; [reflexivity| |].
  - apply (every_pretty_N _ (N.pos x) Hf).
  - change (pretty (Z.neg x)) with ("-" +:+ pretty (N.pos x)).
    rewrite every_app, (every_pretty_N _ (N.pos x) Hf). reflexivity.
Qed.

Lemma count_digits_le s :
  0 <= Py.count_digits s <= Z.of_nat (String.length s).
Proof.
  induction s as [|c s IH]; simpl String.length; cbn [Py.count_digits];
    [lia|].
  destruct (Py.is_digit c); lia.
Qed.

(** A number below [10 ^ k] has at most [k] digits. *)
Lemma length_pretty_N_go (k : nat) :
  forall (x : N) s,
    (x < 10 ^ N.of_nat k)%N ->
    (String.length (pretty_N_go x s) <= k + String.length s)%nat.
Proof.
  induction k as [|k IH]; intros x s Hx.
  - assert (x = 0%N) as -> by (simpl in Hx; lia).
    rewrite pretty_N_go_0. lia.
  - destruct (N.eq_dec x 0%N) as [->|Hne]; [rewrite pretty_N_go_0; lia|].
    rewrite pretty_N_go_step by lia.
    rewrite Nat2N.inj_succ, N.pow_succ_r' in Hx.
    specialize (IH (x / 10)%N
                  (String (pretty_N_char (x mod 10)) s)).
    simpl String.length in IH.
    assert (x / 10 < 10 ^ N.of_nat k)%N as Hq
      by (apply N.Div0.div_lt_upper_bound; lia).
    specialize (IH Hq). lia.
Qed.

Lemma count_digits_pretty (z : Z) :
  Z.abs z < 10 ^ Py.max_str_digits ->
  Py.count_digits (pretty z) <= Py.max_str_digits.
Proof.
  intros Hz.
  assert (forall x : positive,
            Z.pos x < 10 ^ Py.max_str_digits ->
            Py.count_digits (pretty (N.pos x)) <= Py.max_str_digits) as Hpos.
  { intros x Hx. unfold pretty, pretty_N. case_decide; [discriminate|].
    pose proof (count_digits_le (pretty_N_go (N.pos x) "")) as Hc.
    pose proof (length_pretty_N_go (Z.to_nat Py.max_str_digits) (N.pos x) "")
      as Hl.
    simpl String.length in Hl.
    assert (N.pos x < 10 ^ N.of_nat (Z.to_nat Py.max_str_digits))%N as Hb.
    { apply N2Z.inj_lt. rewrite N2Z.inj_pow, nat_N_Z, Z2Nat.id
        by (unfold Py.max_str_digits; lia).
      exact Hx. }
    specialize (Hl Hb).
    assert (Z.of_nat (Z.to_nat Py.max_str_digits) = Py.max_str_digits) as Hk
      by (apply Z2Nat.id; unfold Py.max_str_digits; lia).
    lia. }
  destruct z as [|x|x].
  - unfold Py.max_str_digits. vm_compute. discriminate.
  - apply (Hpos x Hz).
  - change (pretty (Z.neg x)) with (String "-" (pretty (N.pos x))).
    cbn [Py.count_digits]. change (Py.is_digit "-") with false.
    cbv beta iota. rewrite Z.add_0_l. apply (Hpos x Hz).
Qed.

(** [int(str(z))] is [z], for a [z] of at most 4300 digits. *)
Lemma int_pretty (z : Z) :
  Z.abs z < 10 ^ Py.max_str_digits -> Py.int (pretty z) = inr z.
Proof.
  intros Hz. unfold Py.int.
  rewrite (strip_of_solid _ _ (int_solid_pretty z)).
  apply count_digits_pretty in Hz.
  apply Z.ltb_ge in Hz. rewrite Hz. clear Hz.
  destruct z as [|x|x]; [reflexivity| |].
  - change (pretty (Z.pos x)) with (pretty (N.pos x)).
    unfold pretty, pretty_N. case_decide; [discriminate|].
    destruct (digits_go_pretty_N_go (N.pos x) ltac:(lia)) as [k Hk].
    assert (PyStr.every Py.is_digit (pretty_N_go (N.pos x) "") = true) as Hall.
    { apply every_pretty_N_go; [|reflexivity]. intros d. apply digit_char. }
    pose proof (Hk "" 0 false) as Hgo. simpl in Hgo.
    destruct (pretty_N_go (N.pos x) "") as [|c rest] eqn:Hp;
      [discriminate Hgo|].
    simpl in Hall. apply andb_true_iff in Hall as [Hc _].
    rewrite (sign_free c _ _ _ Hc), Hgo. reflexivity.
  - change (pretty (Z.neg x)) with ("-" +:+ pretty (N.pos x)).
    unfold pretty, pretty_N. case_decide; [discriminate|].
    destruct (digits_go_pretty_N_go (N.pos x) ltac:(lia)) as [k Hk].
    change ("-" +:+ pretty_N_go (N.pos x) "")
      with (String "-" (pretty_N_go (N.pos x) "")).
    cbv beta iota. rewrite (Hk "" 0 false). reflexivity.
Qed.

(** [str(z)] of such a [z] is its numeral. *)
Lemma str_int_pretty (z : Z) :
  Z.abs z < 10 ^ Py.max_str_digits -> Py.str_int z = inr (pretty z).
Proof.
  intros Hz. unfold Py.str_int.
  apply count_digits_pretty in Hz. apply Z.ltb_ge in Hz. rewrite Hz.
  reflexivity.
Qed.

(** Small numbers are far below the limit. *)
Lemma below_limit (z : Z) : Z.abs z < 10 -> Z.abs z < 10 ^ Py.max_str_digits.
Proof.
  intros Hz. apply Z.lt_le_trans with (10 ^ 1); [lia|].
  apply Z.pow_le_mono_r; unfold Py.max_str_digits; lia.
Qed.

End decimal.

(** ** What [int] accepts *)

Section numerals.

(** The characters of a text that [int] accepts. *)
Let numeral_char (c : ascii) : bool :=
  Py.is_digit c || Py.is_int_space c || Ascii.eqb c "_" || Ascii.eqb c "+"
  || Ascii.eqb c "-".

Lemma every_rev f s : PyStr.every f (String.rev s) = PyStr.every f s.
Proof. unfold String.rev. rewrite every_rev_app. apply andb_true_r. Qed.

Lemma every_lstrip_of (g space : ascii -> bool) s :
  (forall c, space c = true -> g c = true) ->
  PyStr.every g (PyStr.lstrip_of space s) = true -> PyStr.every g s = true.
Proof.
  intros Hg. induction s as [|c s IH]; [reflexivity|]. simpl.
  destruct (space c) eqn:Hc.
  - intros Hs. rewrite (Hg c Hc), (IH Hs). reflexivity.
  - intros Hs. exact Hs.
Qed.

Lemma every_strip_of (g space : ascii -> bool) s :
  (forall c, space c = true -> g c = true) ->
  PyStr.every g (PyStr.strip_of space s) = true -> PyStr.every g s = true.
Proof.
  intros Hg. unfold PyStr.strip_of. rewrite every_rev. intros Hs.
  apply (every_lstrip_of g space _ Hg) in Hs. rewrite every_rev in Hs.
  apply (every_lstrip_of g space _ Hg), Hs.
Qed.

Lemma digits_go_every s :
  forall acc b n,
    Py.digits_go acc b s = Some n ->
    PyStr.every (fun c => Py.is_digit c || Ascii.eqb c "_") s = true.
Proof.
  induction s as [|c s IH]; intros acc b n; [reflexivity|].
  cbn [Py.digits_go PyStr.every].
  destruct (Py.is_digit c); cbn [orb andb].
  - apply IH.
  - destruct (Ascii.eqb c "_"); cbn [andb]; [|discriminate].
    destruct b; [|discriminate].
    destruct s as [|c' s']; [discriminate|].
    destruct (Py.is_digit c'); [apply IH|discriminate].
Qed.

Lemma every_weaken (f g : ascii -> bool) s :
  (forall c, f c = true -> g c = true) ->
  PyStr.every f s = true -> PyStr.every g s = true.
Proof.
  intros Hfg. induction s as [|c s IH]; [reflexivity|]. simpl.
  intros [Hc Hs]%andb_true_iff. rewrite (Hfg c Hc), (IH Hs). reflexivity.
Qed.

(** A text that [int] accepts is made of digits, underscores, a sign and
    white space. *)
Lemma int_numeral text n :
  Py.int text = inr n -> PyStr.every numeral_char text = true.
Proof.
  unfold Py.int. intros Hint.
  apply (every_strip_of numeral_char Py.is_int_space).
  { intros c Hc. unfold numeral_char. rewrite Hc, orb_true_r. reflexivity. }
  destruct (Py.max_str_digits <? _); [discriminate|].
  assert (forall d m, Py.digits_go 0 false d = Some m ->
                      PyStr.every numeral_char d = true) as Hgo.
  { intros d m Hd. apply digits_go_every in Hd.
    revert Hd. apply every_weaken. intros c Hc. unfold numeral_char.
    apply orb_true_iff in Hc as [-> | ->]; rewrite ?orb_true_r; reflexivity. }
  destruct (PyStr.strip_of Py.is_int_space text) as [|c d] eqn:Hbody.
  - reflexivity.
  - assert (forall r : option Z,
              match r with Some m => inr m | None => inl (ValueError text) end
              = @inr exn Z n -> exists m, r = Some m) as Hsome.
    { intros [m|]; [eauto|discriminate]. }
    apply Hsome in Hint as [m Hm].
    destruct (Ascii.eqb_spec c "-") as [->|Hminus].
    + destruct (Py.digits_go 0 false d) as [k|] eqn:Hd; [|discriminate].
      cbn [PyStr.every]. rewrite (Hgo d k Hd). reflexivity.
    + destruct (Ascii.eqb_spec c "+") as [->|Hplus].
      * cbn [PyStr.every]. rewrite (Hgo d m Hm). reflexivity.
      * apply (Hgo (String c d) m).
        revert Hm. clear -Hminus Hplus.
        destruct c as [[] [] [] [] [] [] [] []]; try (intros Hm; exact Hm);
          congruence.
Qed.

Lemma count_digits_rev_app s acc :
  Py.count_digits (String.rev_app s acc)
  = Py.count_digits s + Py.count_digits acc.
Proof.
  revert acc. induction s as [|c s IH]; intros acc; [reflexivity|].
  cbn [String.rev_app]. rewrite IH. cbn [Py.count_digits]. lia.
Qed.

Lemma count_digits_rev s : Py.count_digits (String.rev s) = Py.count_digits s.
Proof.
  unfold String.rev. rewrite count_digits_rev_app. cbn [Py.count_digits]. lia.
Qed.

Lemma int_space_no_digit c : Py.is_int_space c = true -> Py.is_digit c = false.
Proof.
  destruct c as [[] [] [] [] [] [] [] []]; intros Hc;
    first [reflexivity | discriminate Hc].
Qed.

Lemma count_digits_lstrip s :
  Py.count_digits (PyStr.lstrip_of Py.is_int_space s) = Py.count_digits s.
Proof.
  induction s as [|c s IH]; [reflexivity|]. cbn [PyStr.lstrip_of].
  destruct (Py.is_int_space c) eqn:Hc; [|reflexivity].
  rewrite IH. cbn [Py.count_digits]. rewrite (int_space_no_digit c Hc). lia.
Qed.

(** A text of more than 4300 digits is refused. *)
Lemma int_limit text :
  Py.max_str_digits < Py.count_digits text ->
  Py.int text = inl (ValueError text).
Proof.
  intros Hlong. unfold Py.int, PyStr.strip_of.
  rewrite count_digits_rev, count_digits_lstrip, count_digits_rev,
    count_digits_lstrip.
  apply Z.ltb_lt in Hlong. rewrite Hlong. reflexivity.
Qed.

End numerals.

(** ** Tool-count threshold: what the check runs with *)

Section threshold_spec.
Context `{PyRuntime} (E : env).

(** C8, amended: without [COMPACT_THRESHOLD] the check runs with 50, with a
    valid integer it runs with that integer, and with any other text
    [int()] raises [ValueError] before the counter file is touched; the
    entry point then prints one error line and nothing else happens.  The
    numeral of an integer of at most 4300 digits is valid; a text with a
    character that is no digit, underscore, sign or white space, and a text
    of more than 4300 digits, are not. *)
Theorem compact_threshold_spec (w : world) :
  match environ E !! "COMPACT_THRESHOLD" with
  | None => SuggestCompact.main E w = SuggestCompact.check E 50 w
  | Some text =>
      match Py.int text with
      | inr n => SuggestCompact.main E w = SuggestCompact.check E n w
      | inl _ =>
          SuggestCompact.main E w = (Raise (ValueError text), w)
          /\ SuggestCompact.run E w
             = eprint ("[StrategicCompact] Error: "
                       +:+ exn_str (ValueError text)) w
      end
  end
  /\ (forall z : Z,
        Z.abs z < 10 ^ 4300 ->
        environ E !! "COMPACT_THRESHOLD" = Some (pretty z) ->
        SuggestCompact.main E w = SuggestCompact.check E z w)
  /\ (forall text : string,
        environ E !! "COMPACT_THRESHOLD" = Some text ->
        PyStr.every
          (fun c => Py.is_digit c || Py.is_int_space c || Ascii.eqb c "_"
                    || Ascii.eqb c "+" || Ascii.eqb c "-") text = false
        \/ 4300 < Py.count_digits text ->
        SuggestCompact.main E w = (Raise (ValueError text), w)
        /\ SuggestCompact.run E w
           = eprint ("[StrategicCompact] Error: "
                     +:+ exn_str (ValueError text)) w).
Proof.
  assert (forall text,
    environ E !! "COMPACT_THRESHOLD" = Some text ->
    match Py.int text with
    | inr n => SuggestCompact.main E w = SuggestCompact.check E n w
    | inl _ =>
        SuggestCompact.main E w = (Raise (ValueError text), w)
        /\ SuggestCompact.run E w
           = eprint ("[StrategicCompact] Error: "
                     +:+ exn_str (ValueError text)) w
    end) as Hset.
  { intros text Henv.
    unfold SuggestCompact.run, SuggestCompact.main,
      SuggestCompact.read_threshold.
    rewrite Henv. simpl.
    destruct (Py.int text) as [e|n] eqn:Hint; [|reflexivity].
    apply int_error in Hint as ->.
    unfold try_except, mbind, M_bind, lift, raise. simpl. auto. }
  split_and!.
  - destruct (environ E !! "COMPACT_THRESHOLD") as [text|] eqn:Henv.
    + apply (Hset text eq_refl).
    + unfold SuggestCompact.main, SuggestCompact.read_threshold.
      rewrite Henv. reflexivity.
  - intros z Hz Henv. specialize (Hset _ Henv).
    rewrite (int_pretty z Hz) in Hset. exact Hset.
  - intros text Henv Hbad. specialize (Hset _ Henv).
    destruct (Py.int text) as [e|n] eqn:Hint; [exact Hset|].
    exfalso. destruct Hbad as [Hchar|Hlong].
    + apply int_numeral in Hint. congruence.
    + change 4300 with Py.max_str_digits in Hlong.
      rewrite (int_limit text Hlong) in Hint. discriminate.
Qed.

End threshold_spec.

(** ** The tool-call counter *)

Section tool_counter.
Context `{PyRuntime} (E : env).

Let cf : path := SuggestCompact.counter_file E.

(** The lines an invocation prints once it has counted [count] calls. *)
Let lines (threshold count : Z) : list string :=
  (if count =? threshold then [SuggestCompact.reached_line threshold] else [])
  ++ (if (threshold <? count) && (count `mod` 25 =? 0)
      then [SuggestCompact.checkpoint_line count] else []).

Lemma lines_short threshold count : (length (lines threshold count) <= 1)%nat.
Proof.
  unfold lines.
  destruct (Z.eqb_spec count threshold) as [->|Hne].
  - rewrite Z.ltb_irrefl. simpl. lia.
  - destruct (_ && _); simpl; lia.
Qed.

(** One run of the body of [main] on a counter file that can be written:
    the count is one more than the integer the file holds, and 1 when there
    is no file or no integer in it. *)
Lemma check_spec (w : world) (threshold count : Z) :
  Os.open_error (fs w) cf = None ->
  Z.abs count < 10 ^ Py.max_str_digits ->
  count = match Os.node_at (fs w) cf with
          | Some (File data _) =>
              match Py.int (PyStr.strip data) with
              | inr n => n + 1
              | inl _ => 1
              end
          | _ => 1
          end ->
  exists w',
    SuggestCompact.check E threshold w = (Ret tt, w')
    /\ fs w' = <[cf := File (pretty count) (Os.stamp E w)]> (fs w)
    /\ stderr w' = stderr w ++ lines threshold count
    /\ trace w' = trace w ++ [EvWrite cf (pretty count)].
Proof.
  intros Hopen Hbound Hcount. unfold SuggestCompact.check. fold cf.
  unfold mbind at 1, M_bind at 1, Os.exists_. cbv beta iota.
  assert (
    (if bool_decide (is_Some (Os.node_at (fs w) cf))
     then try_except
            (text ← Os.read_text cf;
             n ← lift (Py.int (PyStr.strip text));
             mret (n + 1))
            (fun e => is_ValueError e || is_OSError e)
            (fun _ => mret 1)
     else mret 1 : M Z) w = (Ret count, w)) as Hread.
  { unfold Os.open_error in Hopen.
    destruct (Os.node_at (fs w) cf) as [[data t|t]|] eqn:Hcf;
      try discriminate.
    - rewrite bool_decide_eq_true_2 by eauto.
      unfold try_except, mbind, M_bind, Os.read_text. rewrite Hcf.
      unfold mret at 1, M_ret at 1. cbv beta iota.
      destruct (Py.int (PyStr.strip data)) as [e|n] eqn:Hint.
      + apply int_error in Hint as ->. subst count. reflexivity.
      + subst count. reflexivity.
    - rewrite bool_decide_eq_false_2 by (intros [? ?]; discriminate).
      subst count. reflexivity. }
  unfold mbind at 1, M_bind at 1. rewrite Hread.
  unfold mbind at 1, M_bind at 1. rewrite (str_int_pretty count Hbound).
  cbn [lift]. unfold mret at 1, M_ret at 1. cbv beta iota.
  unfold mbind at 1, M_bind at 1, Os.write_text. rewrite Hopen.
  unfold lines, when, mbind, M_bind, eprint.
  destruct (count =? threshold);
    destruct ((threshold <? count) && (count `mod` 25 =? 0));
    eexists; (split; [reflexivity|]); wproj; simpl app;
    rewrite ?app_nil_r, <- ?app_assoc; auto.
Qed.

(** With a readable threshold the entry point is the body of [main]. *)
Lemma run_is_check (w w' : world) threshold :
  SuggestCompact.read_threshold E = inr threshold ->
  SuggestCompact.check E threshold w = (Ret tt, w') ->
  SuggestCompact.run E w = (Ret tt, w').
Proof.
  intros Hth Hcheck. unfold SuggestCompact.run, SuggestCompact.main, try_except.
  unfold mbind, M_bind. rewrite Hth. simpl lift.
  unfold mret at 1, M_ret at 1. rewrite Hcheck. reflexivity.
Qed.

Let after (w : world) (n : nat) : world :=
  Nat.iter n (fun w => (SuggestCompact.run E w).2) w.

Lemma int_strip_pretty (z : Z) :
  Z.abs z < 10 ^ Py.max_str_digits ->
  Py.int (PyStr.strip (pretty z)) = inr z.
Proof. rewrite (strip_solid _ (solid_pretty z)). apply int_pretty. Qed.

(** The worlds after successive invocations that start without a counter
    file, in a temporary directory that exists. *)
Lemma counter_after (w : world) (threshold : Z) (k : nat) :
  SuggestCompact.read_threshold E = inr threshold ->
  Os.node_at (fs w) cf = None ->
  Os.is_dir_node (Os.node_at (fs w) (PathLib.parent cf)) = true ->
  Z.of_nat (S k) < 10 ^ Py.max_str_digits ->
  exists t,
    (SuggestCompact.run E (after w k)).1 = Ret tt
    /\ Os.node_at (fs (after w (S k))) cf
       = Some (File (pretty (Z.of_nat (S k))) t)
    /\ stderr (after w (S k))
       = stderr (after w k) ++ lines threshold (Z.of_nat (S k)).
Proof.
  intros Hth Hnone Hdir.
  assert (cf <> []) as Hcf by (intros Heq; rewrite Heq in Hnone; discriminate).
  assert (forall w0 count,
    Os.open_error (fs w0) cf = None ->
    Z.abs count < 10 ^ Py.max_str_digits ->
    count = match Os.node_at (fs w0) cf with
            | Some (File data _) =>
                match Py.int (PyStr.strip data) with
                | inr n => n + 1
                | inl _ => 1
                end
            | _ => 1
            end ->
    exists t,
      (SuggestCompact.run E w0).1 = Ret tt
      /\ Os.node_at (fs (SuggestCompact.run E w0).2) cf
         = Some (File (pretty count) t)
      /\ stderr (SuggestCompact.run E w0).2
         = stderr w0 ++ lines threshold count) as Hstep.
  { intros w0 count Hopen Hbound Hcount.
    destruct (check_spec w0 threshold count Hopen Hbound Hcount)
      as (w' & Hcheck & Hfs & Herr & _).
    rewrite (run_is_check w0 w' threshold Hth Hcheck). cbn [fst snd].
    exists (Os.stamp E w0). rewrite Hfs, Herr.
    split_and!; [reflexivity| |reflexivity].
    apply node_at_insert_eq, Hcf. }
  induction k as [|k IH]; intros Hbound.
  - apply (Hstep w).
    + unfold Os.open_error. rewrite Hnone.
      destruct (Os.node_at (fs w) (PathLib.parent cf)) as [[]|];
        try discriminate; reflexivity.
    + lia.
    + rewrite Hnone. reflexivity.
  - destruct IH as (t & _ & Hnode & _); [lia|].
    change (after w (S (S k)))
      with ((SuggestCompact.run E (after w (S k))).2).
    apply (Hstep (after w (S k))).
    + unfold Os.open_error. rewrite Hnode. reflexivity.
    + lia.
    + rewrite Hnode, int_strip_pretty by lia. lia.
Qed.

(** The counter file holds the number of the invocation: after [k + 1]
    invocations that started without a counter file, each of which returns
    normally, it holds the decimal numeral of [k + 1].  (The number stays
    within the 4300 digits that [int] and [str] convert.) *)
Theorem tool_calls_are_counted (w : world) (threshold : Z) (k : nat) :
  SuggestCompact.read_threshold E = inr threshold ->
  Os.node_at (fs w) (SuggestCompact.counter_file E) = None ->
  Os.is_dir_node
    (Os.node_at (fs w) (PathLib.parent (SuggestCompact.counter_file E)))
  = true ->
  Z.of_nat (S k) < 10 ^ 4300 ->
  let after (n : nat) : world :=
    Nat.iter n (fun w => (SuggestCompact.run E w).2) w in
  (SuggestCompact.run E (after k)).1 = Ret tt
  /\ Os.old_data (fs (after (S k))) (SuggestCompact.counter_file E)
     = pretty (Z.of_nat (S k))
  /\ Py.int (PyStr.strip
               (Os.old_data (fs (after (S k))) (SuggestCompact.counter_file E)))
     = inr (Z.of_nat (S k)).
Proof.
  intros Hth Hnone Hdir Hbound after'.
  change (10 ^ 4300) with (10 ^ Py.max_str_digits) in Hbound.
  destruct (counter_after w threshold k Hth Hnone Hdir Hbound)
    as (t & Hret & Hnode & _).
  change after' with (after w). fold cf.
  assert (Os.old_data (fs (after w (S k))) cf = pretty (Z.of_nat (S k)))
    as Hdata by (unfold Os.old_data; rewrite Hnode; reflexivity).
  rewrite Hdata. split_and!; [exact Hret|reflexivity|].
  apply int_strip_pretty. lia.
Qed.

(** The reminder comes with the invocation whose number is the threshold,
    a checkpoint line with every later invocation whose number is a multiple
    of 25, and no other invocation prints anything: an invocation prints at
    most one line.  (The number stays within the 4300 digits that [int] and
    [str] convert.) *)
Theorem reminder_at_threshold (w : world) (threshold : Z) (k : nat) :
  SuggestCompact.read_threshold E = inr threshold ->
  Os.node_at (fs w) (SuggestCompact.counter_file E) = None ->
  Os.is_dir_node
    (Os.node_at (fs w) (PathLib.parent (SuggestCompact.counter_file E)))
  = true ->
  Z.of_nat (S k) < 10 ^ 4300 ->
  let after (n : nat) : world :=
    Nat.iter n (fun w => (SuggestCompact.run E w).2) w in
  let count := Z.of_nat (S k) in
  let printed := drop (length (stderr (after k))) (stderr (after (S k))) in
  printed
  = (if count =? threshold then [SuggestCompact.reached_line threshold]
     else if (threshold <? count) && (count `mod` 25 =? 0)
          then [SuggestCompact.checkpoint_line count]
          else [])
  /\ (length printed <= 1)%nat.
Proof.
  intros Hth Hnone Hdir Hbound after' count printed.
  change (10 ^ 4300) with (10 ^ Py.max_str_digits) in Hbound.
  destruct (counter_after w threshold k Hth Hnone Hdir Hbound)
    as (t & _ & _ & Herr).
  assert (printed = lines threshold count) as ->.
  { subst printed. change after' with (after w). rewrite Herr.
    apply drop_app_length. }
  split; [|apply lines_short].
  unfold lines. destruct (Z.eqb_spec count threshold) as [->|Hne].
  - rewrite Z.ltb_irrefl. reflexivity.
  - reflexivity.
Qed.

(** A counter file that holds no integer does not stop the hook: the count
    starts again at 1, and the file is overwritten with it. *)
Theorem unreadable_count_restarts (w : world) (threshold : Z) (data : string)
    (t : Q) (e : exn) :
  SuggestCompact.read_threshold E = inr threshold ->
  Os.node_at (fs w) (SuggestCompact.counter_file E) = Some (File data t) ->
  Py.int (PyStr.strip data) = inl e ->
  let r := SuggestCompact.run E w in
  r.1 = Ret tt
  /\ Os.old_data (fs r.2) (SuggestCompact.counter_file E) = "1"
  /\ drop (length (stderr w)) (stderr r.2)
     = (if 1 =? threshold then [SuggestCompact.reached_line threshold] else [])
  /\ Trace.added w r.2 = [EvWrite (SuggestCompact.counter_file E) "1"].
Proof.
  intros Hth Hnode Hint r. fold cf in Hnode |- *.
  assert (cf <> []) as Hcf by (intros Heq; rewrite Heq in Hnode; discriminate).
  destruct (check_spec w threshold 1) as (w' & Hcheck & Hfs & Herr & Htr).
  { unfold Os.open_error. rewrite Hnode. reflexivity. }
  { apply below_limit. lia. }
  { rewrite Hnode, Hint. reflexivity. }
  subst r. rewrite (run_is_check w w' threshold Hth Hcheck). cbn [fst snd].
  split_and!.
  - reflexivity.
  - unfold Os.old_data. rewrite Hfs, (node_at_insert_eq _ _ _ Hcf). reflexivity.
  - rewrite Herr, drop_app_length. unfold lines.
    replace ((threshold <? 1) && (1 `mod` 25 =? 0)) with false
      by (rewrite andb_false_r; reflexivity).
    apply app_nil_r.
  - apply added_app, Htr.
Qed.

End tool_counter.

(** Three invocations with [COMPACT_THRESHOLD=3] in an empty temporary
    directory. *)
Lemma tool_calls_are_counted_witness :
  let E := Scenario.with_var "COMPACT_THRESHOLD" "3" Scenario.base_env in
  let w := Scenario.world_of {[ ["tmp"] := Dir 0 ]} in
  let after (n : nat) : world :=
    Nat.iter n (fun w => (SuggestCompact.run E w).2) w in
  (SuggestCompact.run E (after 2%nat)).1 = Ret tt
  /\ Os.old_data (fs (after 3%nat)) (SuggestCompact.counter_file E)
     = pretty (Z.of_nat 3)
  /\ Py.int (PyStr.strip
               (Os.old_data (fs (after 3%nat)) (SuggestCompact.counter_file E)))
     = inr (Z.of_nat 3).
Proof.
  intros E w after.
  assert (SuggestCompact.read_threshold E = inr 3) as Hth
    by (vm_compute; reflexivity).
  assert (Os.node_at (fs w) (SuggestCompact.counter_file E) = None) as Hnone
    by (vm_compute; reflexivity).
  assert (Os.is_dir_node
            (Os.node_at (fs w) (PathLib.parent (SuggestCompact.counter_file E)))
          = true) as Hdir by (vm_compute; reflexivity).
  assert (Z.of_nat 3 < 10 ^ 4300) as Hbound
    by (apply (below_limit 3); lia).
  exact (tool_calls_are_counted E w 3 2 Hth Hnone Hdir Hbound).
Defined.

(** The third of these invocations prints the reminder. *)
Lemma reminder_at_threshold_witness :
  let E := Scenario.with_var "COMPACT_THRESHOLD" "3" Scenario.base_env in
  let w := Scenario.world_of {[ ["tmp"] := Dir 0 ]} in
  let after (n : nat) : world :=
    Nat.iter n (fun w => (SuggestCompact.run E w).2) w in
  let count := Z.of_nat 3 in
  let printed := drop (length (stderr (after 2%nat))) (stderr (after 3%nat)) in
  printed
  = (if count =? 3 then [SuggestCompact.reached_line 3]
     else if (3 <? count) && (count `mod` 25 =? 0)
          then [SuggestCompact.checkpoint_line count]
          else [])
  /\ (length printed <= 1)%nat.
Proof.
  intros E w after.
  assert (SuggestCompact.read_threshold E = inr 3) as Hth
    by (vm_compute; reflexivity).
  assert (Os.node_at (fs w) (SuggestCompact.counter_file E) = None) as Hnone
    by (vm_compute; reflexivity).
  assert (Os.is_dir_node
            (Os.node_at (fs w) (PathLib.parent (SuggestCompact.counter_file E)))
          = true) as Hdir by (vm_compute; reflexivity).
  assert (Z.of_nat 3 < 10 ^ 4300) as Hbound
    by (apply (below_limit 3); lia).
  exact (reminder_at_threshold E w 3 2 Hth Hnone Hdir Hbound).
Defined.

(** The first three invocations print nothing, nothing and the reminder;
    the counter then reads 3. *)
Example three_tool_calls :
  let E := Scenario.with_var "COMPACT_THRESHOLD" "3" Scenario.base_env in
  let w := Scenario.world_of {[ ["tmp"] := Dir 0 ]} in
  let after (n : nat) : world :=
    Nat.iter n (fun w => (SuggestCompact.run E w).2) w in
  stderr (after 2%nat) = []
  /\ stderr (after 3%nat)
     = ["[StrategicCompact] 3 tool calls reached - consider /compact if transitioning phases"]
  /\ Os.old_data (fs (after 3%nat)) ["tmp"; "claude-tool-count-default"] = "3".
Proof. cbv zeta. split_and!; vm_compute; reflexivity. Qed.

(** A counter file that holds [abc]. *)
Lemma unreadable_count_restarts_witness :
  let E := Scenario.base_env in
  let w := Scenario.world_of
             {[ ["tmp"] := Dir 0;
                ["tmp"; "claude-tool-count-default"] := File "abc" 0 ]} in
  let r := SuggestCompact.run E w in
  r.1 = Ret tt
  /\ Os.old_data (fs r.2) (SuggestCompact.counter_file E) = "1"
  /\ drop (length (stderr w)) (stderr r.2)
     = (if 1 =? 50 then [SuggestCompact.reached_line 50] else [])
  /\ Trace.added w r.2 = [EvWrite (SuggestCompact.counter_file E) "1"].
Proof.
  intros E w.
  assert (SuggestCompact.read_threshold E = inr 50) as Hth
    by (vm_compute; reflexivity).
  assert (Os.node_at (fs w) (SuggestCompact.counter_file E)
          = Some (File "abc" 0)) as Hnode by (vm_compute; reflexivity).
  assert (Py.int (PyStr.strip "abc") = inl (ValueError "abc")) as Hint
    by (vm_compute; reflexivity).
  exact (unreadable_count_restarts E w 50 "abc" 0 (ValueError "abc")
           Hth Hnode Hint).
Defined.

(** ** The file helpers of the library *)

Section file_helpers.
Context `{PyRuntime} `{Utils.PyRegex} (E : env).
Implicit Types (m : gmap path node) (p d q : path) (w : world).

Lemma append_assoc (s1 s2 s3 : string) :
  (s1 +:+ s2) +:+ s3 = s1 +:+ s2 +:+ s3.
Proof.
  induction s1 as [|c s1 IH]; [reflexivity|]. rewrite !app_cons, IH.
  reflexivity.
Qed.

(** Where every directory on the way exists, [mkdir] changes nothing. *)
Lemma make_dirs_id t m d :
  (forall q, q ∈ Os.prefixes d -> is_Some (Os.node_at m q)) ->
  Os.make_dirs t m d = m.
Proof.
  unfold Os.make_dirs. generalize (Os.prefixes d) as l.
  induction l as [|x l IH]; intros Hl; [reflexivity|]. simpl.
  destruct (Hl x) as [n Hn]; [apply list_elem_of_here|]. rewrite Hn.
  apply IH. intros q Hq. apply Hl, list_elem_of_further, Hq.
Qed.

Lemma make_dirs_prefix t m d q :
  q ∈ Os.prefixes d -> is_Some (Os.node_at (Os.make_dirs t m d) q).
Proof.
  intros Hq. rewrite make_dirs_node_at.
  destruct (Os.node_at m q); [eauto|].
  rewrite bool_decide_eq_true_2 by assumption. eauto.
Qed.

Lemma read_file_spec w p :
  Utils.read_file p w
  = (Ret match Os.node_at (fs w) p with
         | Some (File data _) => Some data
         | _ => None
         end, w).
Proof.
  unfold Utils.read_file, try_except, mbind, M_bind, Os.read_text.
  destruct (Os.node_at (fs w) p) as [[]|]; reflexivity.
Qed.

(** [write_file] and [append_file] on a path whose parent can be created
    and that is no directory. *)
Lemma write_file_spec w d s content :
  Os.blocking (fs w) d = None ->
  Os.is_dir_node (Os.node_at (fs w) (d ++ [s])) = false ->
  Utils.write_file E (d ++ [s]) content w
  = (Ret tt,
     with_event (EvWrite (d ++ [s]) content)
       (with_fs (<[d ++ [s] := File content (Os.stamp E w)]>
                   (Os.make_dirs (Os.stamp E w) (fs w) d))
          (with_event (EvMkdir d) w))).
Proof.
  intros Hb Hp. unfold Utils.write_file, Utils.ensure_dir.
  rewrite parent_snoc.
  unfold mbind, M_bind, Os.mkdir. rewrite Hb.
  unfold mret at 1, M_ret at 1. cbv beta iota.
  unfold Os.write_text, Os.open_error. wproj.
  rewrite make_dirs_child, parent_snoc.
  pose proof (make_dirs_is_dir (Os.stamp E w) _ _ Hb) as Hdir.
  destruct (Os.node_at (fs w) (d ++ [s])) as [[]|]; try discriminate.
  - reflexivity.
  - destruct (Os.node_at (Os.make_dirs _ _ d) d) as [[]|]; try discriminate.
    reflexivity.
Qed.

Lemma append_file_spec w d s content :
  Os.blocking (fs w) d = None ->
  Os.is_dir_node (Os.node_at (fs w) (d ++ [s])) = false ->
  Utils.append_file E (d ++ [s]) content w
  = (Ret tt,
     with_event (EvAppend (d ++ [s]) content)
       (with_fs (<[d ++ [s] := File (Os.old_data (fs w) (d ++ [s]) +:+ content)
                                  (Os.stamp E w)]>
                   (Os.make_dirs (Os.stamp E w) (fs w) d))
          (with_event (EvMkdir d) w))).
Proof.
  intros Hb Hp. unfold Utils.append_file, Utils.ensure_dir.
  rewrite parent_snoc.
  unfold mbind, M_bind, Os.mkdir. rewrite Hb.
  unfold mret at 1, M_ret at 1. cbv beta iota.
  unfold Os.append_text, Os.open_error, Os.old_data. wproj.
  rewrite make_dirs_child, parent_snoc.
  pose proof (make_dirs_is_dir (Os.stamp E w) _ _ Hb) as Hdir.
  destruct (Os.node_at (fs w) (d ++ [s])) as [[]|]; try discriminate.
  - reflexivity.
  - destruct (Os.node_at (Os.make_dirs _ _ d) d) as [[]|]; try discriminate.
    reflexivity.
Qed.

(** A path that is no directory is its parent followed by its name. *)
Lemma not_dir_snoc m p :
  Os.is_dir_node (Os.node_at m p) = false ->
  p = PathLib.parent p ++ [PathLib.name p].
Proof.
  intros Hp. apply child_snoc; [reflexivity|]. intros ->. discriminate.
Qed.

(** What [write_file] wrote is what [read_file] reads: on a path that is no
    directory and whose parent can be created, the two in a row return the
    text, the parent directory is there afterwards, and every other node is
    as it was.  (The text has no carriage return.) *)
Theorem write_file_read_file (w : world) (p : path) (text : string) :
  Os.blocking (fs w) (PathLib.parent p) = None ->
  Os.is_dir_node (Os.node_at (fs w) p) = false ->
  PyStr.unix_text text = true ->
  let r := (Utils.write_file E p text;; Utils.read_file p) w in
  r.1 = Ret (Some text)
  /\ Os.is_dir_node (Os.node_at (fs r.2) (PathLib.parent p)) = true
  /\ (forall q n, q <> p -> Os.node_at (fs w) q = Some n ->
                  Os.node_at (fs r.2) q = Some n)
  /\ Trace.added w r.2 = [EvMkdir (PathLib.parent p); EvWrite p text].
Proof.
  intros Hb Hp _ r. subst r.
  pose proof (not_dir_snoc _ _ Hp) as Hsnoc.
  set (d := PathLib.parent p) in *. set (s := PathLib.name p) in *.
  rewrite Hsnoc in Hp |- *. clear Hsnoc.
  unfold mbind, M_bind. rewrite (write_file_spec w d s text Hb Hp).
  rewrite read_file_spec. wproj.
  rewrite node_at_snoc, lookup_insert_eq. split_and!.
  - reflexivity.
  - rewrite node_at_insert_ne by apply snoc_ne_self.
    apply make_dirs_is_dir, Hb.
  - intros q n Hq Hn. rewrite node_at_insert_ne by congruence.
    apply make_dirs_keeps, Hn.
  - apply added_app. wproj. rewrite <- app_assoc. reflexivity.
Qed.

(** Appending in two steps is appending the two texts at once: every path
    holds the same kind of node with the same text either way, and the file
    holds what it held, or nothing when it was not there, followed by both
    texts. *)
Theorem append_file_twice (w : world) (p : path) (a b : string) :
  Os.blocking (fs w) (PathLib.parent p) = None ->
  Os.is_dir_node (Os.node_at (fs w) p) = false ->
  let twice := (Utils.append_file E p a;; Utils.append_file E p b) w in
  let once := Utils.append_file E p (a +:+ b) w in
  twice.1 = Ret tt
  /\ once.1 = Ret tt
  /\ (forall q,
        match Os.node_at (fs twice.2) q, Os.node_at (fs once.2) q with
        | Some (File data _), Some (File data' _) => data = data'
        | Some (Dir _), Some (Dir _) | None, None => True
        | _, _ => False
        end)
  /\ Os.old_data (fs twice.2) p = Os.old_data (fs w) p +:+ a +:+ b.
Proof.
  intros Hb Hp twice once. subst twice once.
  pose proof (not_dir_snoc _ _ Hp) as Hsnoc.
  set (d := PathLib.parent p) in *. set (s := PathLib.name p) in *.
  rewrite Hsnoc in Hp |- *. clear Hsnoc.
  set (f := d ++ [s]) in *.
  unfold mbind, M_bind. rewrite !(append_file_spec w d s _ Hb Hp). fold f.
  set (t := Os.stamp E w).
  set (m1 := Os.make_dirs t (fs w) d).
  set (old := Os.old_data (fs w) f).
  set (w1 := with_event (EvAppend f a) _).
  assert (fs w1 = <[f := File (old +:+ a) t]> m1) as Hfs1 by reflexivity.
  assert (Os.stamp E w1 = t) as Ht1 by reflexivity.
  assert (Os.blocking (fs w1) d = None) as Hb1.
  { rewrite Hfs1. apply blocking_none_intro. intros q Hq.
    rewrite node_at_insert_ne.
    - pose proof (blocking_make_dirs t _ _ d Hb) as Hb'.
      apply (blocking_none _ _ _ Hb' Hq).
    - intros <-. apply (snoc_not_prefix d s), Hq. }
  assert (Os.node_at (fs w1) f = Some (File (old +:+ a) t)) as Hf1.
  { rewrite Hfs1. unfold f. rewrite node_at_snoc. apply lookup_insert_eq. }
  assert (Os.is_dir_node (Os.node_at (fs w1) f) = false) as Hp1
    by (rewrite Hf1; reflexivity).
  unfold f in Hp1.
  pose proof (append_file_spec w1 d s b Hb1 Hp1) as Hsecond.
  fold f in Hsecond. rewrite Hsecond. wproj.
  rewrite Ht1.
  assert (Os.make_dirs t (fs w1) d = fs w1) as ->.
  { apply make_dirs_id. intros q Hq. rewrite Hfs1, node_at_insert_ne.
    - apply make_dirs_prefix, Hq.
    - intros <-. apply (snoc_not_prefix d s), Hq. }
  assert (Os.old_data (fs w1) f = old +:+ a) as ->
    by (unfold Os.old_data; rewrite Hf1; reflexivity).
  rewrite Hfs1, insert_insert_eq, append_assoc.
  split_and!; try reflexivity.
  - intros q. destruct (Os.node_at _ q) as [[]|]; auto.
  - unfold Os.old_data, f. rewrite node_at_snoc, lookup_insert_eq. reflexivity.
Qed.

Lemma contains_false_prefix old c s :
  PyStr.contains old (String c s) = false ->
  String.prefix old (String c s) = false /\ PyStr.contains old s = false.
Proof.
  change (PyStr.contains old (String c s))
    with (String.prefix old (String c s) || PyStr.contains old s).
  apply orb_false_elim.
Qed.

(** Replacing a text that does not occur changes nothing. *)
Lemma replace_absent s old new :
  PyStr.contains old s = false -> PyStr.replace s old new = s.
Proof.
  intros Hno. unfold PyStr.replace.
  destruct old as [|c0 old0]; [destruct s; discriminate|].
  induction s as [|c s IH]; [reflexivity|].
  apply contains_false_prefix in Hno as [Hpre Hrest].
  cbn [PyStr.replace_go]. rewrite Hpre, (IH Hrest). reflexivity.
Qed.

(** [replace_in_file] on a regular file returns [True] and leaves in the
    file its text with the replacement made, the other nodes as they were;
    when the searched text does not occur the text is the same, though the
    file is written again.  (The text has no carriage return.) *)
Theorem replace_in_file_rewrites (w : world) (p : path) (data : string)
    (mtime : Q) (search replace : string) :
  Os.node_at (fs w) p = Some (File data mtime) ->
  Os.blocking (fs w) (PathLib.parent p) = None ->
  PyStr.unix_text data = true ->
  let r := Utils.replace_in_file E p search replace w in
  r.1 = Ret true
  /\ (exists t, Os.node_at (fs r.2) p
                = Some (File (PyStr.replace data search replace) t))
  /\ (PyStr.contains search data = false -> Os.old_data (fs r.2) p = data)
  /\ (forall q n, q <> p -> Os.node_at (fs w) q = Some n ->
                  Os.node_at (fs r.2) q = Some n)
  /\ Trace.added w r.2
     = [EvMkdir (PathLib.parent p);
        EvWrite p (PyStr.replace data search replace)].
Proof.
  intros Hnode Hb _ r. subst r.
  assert (Os.is_dir_node (Os.node_at (fs w) p) = false) as Hp
    by (rewrite Hnode; reflexivity).
  pose proof (not_dir_snoc _ _ Hp) as Hsnoc.
  set (d := PathLib.parent p) in *. set (s := PathLib.name p) in *.
  rewrite Hsnoc in Hp, Hnode |- *. clear Hsnoc.
  assert (Utils.replace_in_file E (d ++ [s]) search replace w
          = (Ret true,
             with_event (EvWrite (d ++ [s]) (PyStr.replace data search replace))
               (with_fs (<[d ++ [s] := File (PyStr.replace data search replace)
                                         (Os.stamp E w)]>
                           (Os.make_dirs (Os.stamp E w) (fs w) d))
                  (with_event (EvMkdir d) w)))) as ->.
  { unfold Utils.replace_in_file.
    unfold mbind at 1, M_bind at 1. rewrite read_file_spec, Hnode.
    unfold mbind, M_bind. rewrite (write_file_spec w d s _ Hb Hp).
    reflexivity. }
  wproj.
  assert (Os.node_at (<[d ++ [s] := File (PyStr.replace data search replace)
                                     (Os.stamp E w)]>
                        (Os.make_dirs (Os.stamp E w) (fs w) d)) (d ++ [s])
          = Some (File (PyStr.replace data search replace) (Os.stamp E w)))
    as Hnew by (rewrite node_at_snoc; apply lookup_insert_eq).
  split_and!.
  - reflexivity.
  - eexists. exact Hnew.
  - intros Hno. unfold Os.old_data. rewrite Hnew.
    apply replace_absent, Hno.
  - intros q n Hq Hn. rewrite node_at_insert_ne by congruence.
    apply make_dirs_keeps, Hn.
  - apply added_app. wproj. rewrite <- app_assoc. reflexivity.
Qed.

(** On a path that is no regular file, missing or a directory, no helper
    raises and none touches the file system: [read_file] gives [None],
    [count_in_file] 0, [grep_file] no line and [replace_in_file] [False],
    whatever the pattern. *)
Theorem unreadable_file_is_tolerated (w : world) (p : path)
    (pattern search replace : string) :
  Os.is_file_node (Os.node_at (fs w) p) = false ->
  Utils.read_file p w = (Ret None, w)
  /\ Utils.count_in_file p pattern w = (Ret 0, w)
  /\ Utils.grep_file p pattern w = (Ret [], w)
  /\ Utils.replace_in_file E p search replace w = (Ret false, w).
Proof.
  intros Hp.
  assert (Utils.read_file p w = (Ret None, w)) as Hread.
  { rewrite read_file_spec.
    destruct (Os.node_at (fs w) p) as [[]|]; try discriminate; reflexivity. }
  unfold Utils.count_in_file, Utils.grep_file, Utils.replace_in_file.
  unfold mbind, M_bind. rewrite Hread. repeat split.
Qed.

(** The loop of [grep_file]: it adds to [results] the lines that match,
    each with its number, in the order of the lines. *)
Lemma grep_lines_spec pattern (search : string -> bool) :
  Utils.re_search pattern = Some search ->
  forall lines idx results,
  exists new,
    Utils.grep_lines pattern idx lines results = inr (results ++ new)
    /\ (forall n line,
          {| Utils.line_number := n; Utils.content := line |} ∈ new
          <-> idx <= n /\ lines !! Z.to_nat (n - idx) = Some line
              /\ search line = true)
    /\ StronglySorted (fun a b => Utils.line_number a < Utils.line_number b)
                       new.
Proof.
  intros Hre. induction lines as [|line lines IH]; intros idx results.
  - exists []. rewrite app_nil_r. split_and!; [reflexivity| |constructor].
    intros n l. split; [intros Hin; inversion Hin|].
    intros (_ & Hl & _). discriminate.
  - simpl. rewrite Hre.
    assert (forall n l,
      idx <= n /\ (line :: lines) !! Z.to_nat (n - idx) = Some l
      /\ search l = true
      <-> (n = idx /\ l = line /\ search line = true)
          \/ (idx + 1 <= n /\ lines !! Z.to_nat (n - (idx + 1)) = Some l
              /\ search l = true)) as Hsplit.
    { intros n l. destruct (Z.eq_dec n idx) as [->|Hne].
      - rewrite Z.sub_diag. simpl. split.
        + intros (_ & [= ->] & Hs). left. auto.
        + intros [(_ & -> & Hs)|(Hlt & _)]; [|lia]. split_and!; auto; lia.
      - split.
        + intros (Hle & Hl & Hs). right.
          replace (Z.to_nat (n - idx)) with (S (Z.to_nat (n - (idx + 1))))
            in Hl by lia.
          split_and!; auto; lia.
        + intros [(-> & _)|(Hle & Hl & Hs)]; [lia|].
          replace (Z.to_nat (n - idx)) with (S (Z.to_nat (n - (idx + 1))))
            by lia.
          split_and!; auto; lia. }
    destruct (search line) eqn:Hs.
    + destruct (IH (idx + 1)
                  (results ++ [{| Utils.line_number := idx;
                                  Utils.content := line |}]))
        as (new & Hrun & Hin & Hsorted).
      exists ({| Utils.line_number := idx; Utils.content := line |} :: new).
      split_and!.
      * rewrite Hrun, <- app_assoc. reflexivity.
      * intros n l. rewrite Hsplit, elem_of_cons, Hin. split.
        -- intros [[= -> ->]|?]; auto.
        -- intros [(-> & -> & _)|?]; auto.
      * constructor; [exact Hsorted|]. apply Forall_forall.
        intros [n l] Hx. apply Hin in Hx as (Hle & _). simpl. lia.
    + destruct (IH (idx + 1) results) as (new & Hrun & Hin & Hsorted).
      exists new. split_and!; [exact Hrun| |exact Hsorted].
      intros n l. rewrite Hsplit, Hin. split; [auto|].
      intros [(_ & -> & Hs')|?]; [congruence|assumption].
Qed.

(** [grep_file] on a regular file, with a pattern that compiles, returns
    exactly the lines that match, each with its number counted from 1, in
    increasing order of the numbers, and leaves the world as it is.  (The
    text has no carriage return.) *)
Theorem grep_file_numbers_lines (w : world) (p : path) (data : string)
    (mtime : Q) (pattern : string) (search : string -> bool) :
  Os.node_at (fs w) p = Some (File data mtime) ->
  PyStr.unix_text data = true ->
  Utils.re_search pattern = Some search ->
  exists hits,
    Utils.grep_file p pattern w = (Ret hits, w)
    /\ (forall n line,
          {| Utils.line_number := n; Utils.content := line |} ∈ hits
          <-> 1 <= n
              /\ PyStr.split "010" data !! Z.to_nat (n - 1) = Some line
              /\ search line = true)
    /\ StronglySorted (fun a b => Utils.line_number a < Utils.line_number b)
                       hits.
Proof.
  intros Hnode _ Hre.
  destruct (grep_lines_spec pattern search Hre (PyStr.split "010" data) 1 [])
    as (hits & Hrun & Hin & Hsorted).
  exists hits. split_and!; [|exact Hin|exact Hsorted].
  unfold Utils.grep_file, mbind, M_bind. rewrite read_file_spec, Hnode, Hrun.
  reflexivity.
Qed.

End file_helpers.

(** Writing [b.txt] below a directory [a] that is not there yet. *)
Lemma write_file_read_file_witness :
  let E := Scenario.base_env in
  let w := Scenario.world_of {[ ["work"] := Dir 0 ]} in
  let p := ["work"; "a"; "b.txt"] in
  let r := (Utils.write_file E p "text";; Utils.read_file p) w in
  r.1 = Ret (Some "text")
  /\ Os.is_dir_node (Os.node_at (fs r.2) (PathLib.parent p)) = true
  /\ (forall q n, q <> p -> Os.node_at (fs w) q = Some n ->
                  Os.node_at (fs r.2) q = Some n)
  /\ Trace.added w r.2 = [EvMkdir (PathLib.parent p); EvWrite p "text"].
Proof.
  intros E w p.
  assert (Os.blocking (fs w) (PathLib.parent p) = None) as Hb
    by (vm_compute; reflexivity).
  assert (Os.is_dir_node (Os.node_at (fs w) p) = false) as Hp
    by (vm_compute; reflexivity).
  assert (PyStr.unix_text "text" = true) as Htext by (vm_compute; reflexivity).
  exact (write_file_read_file E w p "text" Hb Hp Htext).
Defined.

(** Two lines appended to a log that holds one. *)
Lemma append_file_twice_witness :
  let E := Scenario.base_env in
  let w := Scenario.world_of
             {[ ["work"] := Dir 0; ["work"; "log"] := File "one;" 0 ]} in
  let p := ["work"; "log"] in
  let twice := (Utils.append_file E p "two;";; Utils.append_file E p "three;") w in
  let once := Utils.append_file E p ("two;" +:+ "three;") w in
  twice.1 = Ret tt
  /\ once.1 = Ret tt
  /\ (forall q,
        match Os.node_at (fs twice.2) q, Os.node_at (fs once.2) q with
        | Some (File data _), Some (File data' _) => data = data'
        | Some (Dir _), Some (Dir _) | None, None => True
        | _, _ => False
        end)
  /\ Os.old_data (fs twice.2) p = Os.old_data (fs w) p +:+ "two;" +:+ "three;".
Proof.
  intros E w p.
  assert (Os.blocking (fs w) (PathLib.parent p) = None) as Hb
    by (vm_compute; reflexivity).
  assert (Os.is_dir_node (Os.node_at (fs w) p) = false) as Hp
    by (vm_compute; reflexivity).
  exact (append_file_twice E w p "two;" "three;" Hb Hp).
Defined.

(** A file of three lines, searched and rewritten. *)
Lemma replace_in_file_rewrites_witness :
  let E := Scenario.base_env in
  let data := "alpha" +:+ PyStr.nl +:+ "beta" +:+ PyStr.nl +:+ "alphabet" in
  let w := Scenario.world_of
             {[ ["work"] := Dir 0; ["work"; "f.txt"] := File data 0 ]} in
  let p := ["work"; "f.txt"] in
  let r := Utils.replace_in_file E p "alpha" "A" w in
  r.1 = Ret true
  /\ (exists t, Os.node_at (fs r.2) p
                = Some (File (PyStr.replace data "alpha" "A") t))
  /\ (PyStr.contains "alpha" data = false -> Os.old_data (fs r.2) p = data)
  /\ (forall q n, q <> p -> Os.node_at (fs w) q = Some n ->
                  Os.node_at (fs r.2) q = Some n)
  /\ Trace.added w r.2
     = [EvMkdir (PathLib.parent p);
        EvWrite p (PyStr.replace data "alpha" "A")].
Proof.
  intros E data w p.
  assert (Os.node_at (fs w) p = Some (File data 0)) as Hnode
    by (vm_compute; reflexivity).
  assert (Os.blocking (fs w) (PathLib.parent p) = None) as Hb
    by (vm_compute; reflexivity).
  assert (PyStr.unix_text data = true) as Htext by (vm_compute; reflexivity).
  exact (replace_in_file_rewrites E w p data 0 "alpha" "A" Hnode Hb Htext).
Defined.

Example replace_in_file_text :
  let data := "alpha" +:+ PyStr.nl +:+ "beta" +:+ PyStr.nl +:+ "alphabet" in
  PyStr.replace data "alpha" "A"
  = "A" +:+ PyStr.nl +:+ "beta" +:+ PyStr.nl +:+ "Abet".
Proof. vm_compute. reflexivity. Qed.

(** A path that is not there. *)
Lemma unreadable_file_is_tolerated_witness :
  let E := Scenario.base_env in
  let w := Scenario.world_of {[ ["work"] := Dir 0 ]} in
  let p := ["work"; "none.txt"] in
  Utils.read_file p w = (Ret None, w)
  /\ Utils.count_in_file p "(" w = (Ret 0, w)
  /\ Utils.grep_file p "(" w = (Ret [], w)
  /\ Utils.replace_in_file E p "a" "b" w = (Ret false, w).
Proof.
  intros E w p.
  assert (Os.is_file_node (Os.node_at (fs w) p) = false) as Hp
    by (vm_compute; reflexivity).
  exact (unreadable_file_is_tolerated E w p "(" "a" "b" Hp).
Defined.

(** The same file of three lines, searched for [alpha]. *)
Lemma grep_file_numbers_lines_witness :
  let data := "alpha" +:+ PyStr.nl +:+ "beta" +:+ PyStr.nl +:+ "alphabet" in
  let w := Scenario.world_of
             {[ ["work"] := Dir 0; ["work"; "f.txt"] := File data 0 ]} in
  let p := ["work"; "f.txt"] in
  exists hits,
    Utils.grep_file p "alpha" w = (Ret hits, w)
    /\ (forall n line,
          {| Utils.line_number := n; Utils.content := line |} ∈ hits
          <-> 1 <= n
              /\ PyStr.split "010" data !! Z.to_nat (n - 1) = Some line
              /\ PyStr.contains "alpha" line = true)
    /\ StronglySorted (fun a b => Utils.line_number a < Utils.line_number b)
                       hits.
Proof.
  intros data w p.
  assert (Os.node_at (fs w) p = Some (File data 0)) as Hnode
    by (vm_compute; reflexivity).
  assert (PyStr.unix_text data = true) as Htext by (vm_compute; reflexivity).
  assert (Utils.re_search "alpha" = Some (PyStr.contains "alpha")) as Hre
    by (vm_compute; reflexivity).
  exact (grep_file_numbers_lines w p data 0 "alpha" (PyStr.contains "alpha")
           Hnode Htext Hre).
Defined.

Example grep_file_alpha :
  let data := "alpha" +:+ PyStr.nl +:+ "beta" +:+ PyStr.nl +:+ "alphabet" in
  let w := Scenario.world_of
             {[ ["work"] := Dir 0; ["work"; "f.txt"] := File data 0 ]} in
  (Utils.grep_file ["work"; "f.txt"] "alpha" w).1
  = Ret [{| Utils.line_number := 1; Utils.content := "alpha" |};
         {| Utils.line_number := 3; Utils.content := "alphabet" |}].
Proof. vm_compute. reflexivity. Qed.

(** ** Poetry commands *)

(** Every command [get_poetry_command] returns goes through [poetry], and an
    action that is none of the six it knows is passed to [poetry run] as it
    is. *)
Theorem poetry_command_runs_poetry (action : string) :
  String.prefix "poetry " (Utils.get_poetry_command action) = true
  /\ (action ∉ ["install"; "test"; "lint"; "format"; "check"; "dev"] ->
      Utils.get_poetry_command action = "poetry run " +:+ action).
Proof.
  unfold Utils.get_poetry_command. split.
  - destruct (Utils.poetry_commands !! action) as [command|] eqn:Hc;
      [|reflexivity].
    unfold Utils.poetry_commands in Hc.
    apply elem_of_list_to_map_2 in Hc.
    repeat (apply elem_of_cons in Hc as [[= -> ->]|Hc]; [reflexivity|]).
    inversion Hc.
  - intros Hnot.
    assert (Utils.poetry_commands !! action = None) as ->; [|reflexivity].
    apply not_elem_of_list_to_map_1. exact Hnot.
Qed.

(** ** What the observer accepts and records *)

Section observer.
Context `{PyRuntime} (E : env).

Let cfg : path := home E ++ [".claude"; "homunculus"].
Let log : path := cfg ++ ["observations.jsonl"].
Let adir : path := cfg ++ ["observations.archive"].

Lemma slice_bound s (k : Z) :
  0 <= k -> Z.of_nat (String.length (PyStr.slice s None (Some k))) <= k.
Proof.
  intros Hk. rewrite <- (Z2Nat.id k Hk) at 1. rewrite slice_prefix.
  assert (forall n s, (String.length (PyStr.take n s) <= n)%nat) as Hlen.
  { clear. induction n as [|n IH]; intros [|c s]; simpl; try lia.
    specialize (IH s). lia. }
  specialize (Hlen (Z.to_nat k) s). lia.
Qed.

Lemma truncated_bound v :
  Z.of_nat (String.length (Observe.truncated v)) <= 5000.
Proof. apply slice_bound. lia. Qed.

(** A text that is recorded as an event: the decoded document is an object
    whose [hook_type], when it has one, supports [in], and the record has six
    entries. *)
Lemma parsed_shape text :
  Event.parsed_ok (Observe.parse_hook_input text) = true ->
  exists d start tool session,
    json_loads text = Some (PDict d)
    /\ Event.is_start (PDict d) = inr start
    /\ Observe.parse_hook_input text
       = PDict [("parsed", PBool true);
                ("event", PStr (Event.event_name start));
                ("tool", tool);
                ("input", if start
                          then PStr (Observe.truncated
                                       (default (default (PDict [])
                                                   (Py.assoc "input" d))
                                          (Py.assoc "tool_input" d)))
                          else PNone);
                ("output", if start then PNone
                           else PStr (Observe.truncated
                                        (default (default (PStr "")
                                                    (Py.assoc "output" d))
                                           (Py.assoc "tool_output" d))));
                ("session", session)].
Proof.
  unfold Observe.parse_hook_input, Event.parsed_ok, Event.is_start.
  destruct (json_loads text) as [data|]; [|discriminate].
  destruct data as [| | | | | |d]; try discriminate.
  cbn [from_option mbind res_bind Py.get mret res_ret].
  destruct (Py.str_in "Pre" _) as [e|start] eqn:Hin; [discriminate|].
  intros _. exists d, start. eexists _, _.
  split_and!; [reflexivity|exact Hin|].
  destruct start; reflexivity.
Qed.

(** An input is recorded as a tool event exactly when it decodes to a json
    object whose [hook_type], if it has one, is a string, a list or an
    object; anything else, well-formed json included, is recorded as a parse
    error. *)
Theorem event_accepted_iff (text : string) :
  Event.parsed_ok (Observe.parse_hook_input text) = true
  <-> exists d,
        json_loads text = Some (PDict d)
        /\ match Py.assoc "hook_type" d with
           | None | Some (PStr _) | Some (PList _) | Some (PDict _) => True
           | Some _ => False
           end.
Proof.
  split.
  - intros (d & start & _ & _ & Hload & Hstart & _)%parsed_shape.
    exists d. split; [exact Hload|].
    unfold Event.is_start in Hstart. simpl in Hstart.
    destruct (Py.assoc "hook_type" d) as [[]|]; try discriminate; exact I.
  - intros (d & Hload & Htype).
    unfold Observe.parse_hook_input, Event.parsed_ok. rewrite Hload.
    cbn [from_option mbind res_bind Py.get mret res_ret].
    destruct (Py.assoc "hook_type" d) as [[]|]; try contradiction;
      reflexivity.
Qed.

Lemma build_observation_bounded (text timestamp : string) :
  Event.parsed_ok (Observe.parse_hook_input text) = true ->
  exists obs,
    Observe.build_observation timestamp (Observe.parse_hook_input text)
    = inr (PDict obs)
    /\ forall key v,
         key = "input" \/ key = "output" ->
         Py.assoc key obs = Some v ->
         exists s, v = PStr s /\ s <> ""
                   /\ Z.of_nat (String.length s) <= 5000.
Proof.
  intros (d & start & tool & session & _ & _ & ->)%parsed_shape.
  unfold Observe.build_observation.
  destruct start.
  - generalize (truncated_bound
                  (default (default (PDict []) (Py.assoc "input" d))
                     (Py.assoc "tool_input" d))).
    generalize (Observe.truncated
                  (default (default (PDict []) (Py.assoc "input" d))
                     (Py.assoc "tool_input" d))).
    intros s Hs. destruct s as [|c s].
    + eexists. split; [reflexivity|].
      intros key v [-> | ->] Hv; discriminate.
    + eexists. split; [reflexivity|].
      intros key v [-> | ->] Hv; [|discriminate].
      injection Hv as <-. eexists; split_and!; [reflexivity|discriminate|].
      exact Hs.
  - generalize (truncated_bound
                  (default (default (PStr "") (Py.assoc "output" d))
                     (Py.assoc "tool_output" d))).
    generalize (Observe.truncated
                  (default (default (PStr "") (Py.assoc "output" d))
                     (Py.assoc "tool_output" d))).
    intros s Hs. destruct s as [|c s].
    + eexists. split; [reflexivity|].
      intros key v [-> | ->] Hv; discriminate.
    + eexists. split; [reflexivity|].
      intros key v [-> | ->] Hv; [discriminate|].
      injection Hv as <-. eexists; split_and!; [reflexivity|discriminate|].
      exact Hs.
Qed.

(** With the file [disabled] in the configuration directory the observer
    leaves through [sys.exit(0)] whatever its input is: it only makes sure the
    directory is there, prints nothing, and every node, the log among them,
    is as it was. *)
Theorem disabled_sentinel_stops_observer (w : world) :
  Os.blocking (fs w) (Observe.get_config_dir E) = None ->
  is_Some (Os.node_at (fs w) (Observe.get_config_dir E // "disabled")) ->
  let r := Observe.main E w in
  r.1 = Raise (SystemExit 0)
  /\ Trace.added w r.2 = [EvMkdir (Observe.get_config_dir E)]
  /\ stderr r.2 = stderr w
  /\ Os.node_at (fs r.2) (Observe.get_observations_file E)
     = Os.node_at (fs w) (Observe.get_observations_file E)
  /\ (forall q n, Os.node_at (fs w) q = Some n -> Os.node_at (fs r.2) q = Some n).
Proof.
  rewrite config_dir_eq, observations_file_eq. fold cfg. fold log.
  intros Hb [n0 Hdis] r.
  assert (r = (Raise (SystemExit 0),
               with_event (EvMkdir cfg)
                 (with_fs (Os.make_dirs (Os.stamp E w) (fs w) cfg) w))) as ->.
  { subst r. unfold Observe.main. rewrite config_dir_eq. fold cfg.
    unfold mbind, M_bind, Os.mkdir. rewrite Hb.
    unfold Os.exists_. wproj.
    rewrite bool_decide_eq_true_2; [reflexivity|].
    exists n0. apply make_dirs_keeps, Hdis. }
  wproj. split_and!.
  - reflexivity.
  - apply added_app. reflexivity.
  - reflexivity.
  - unfold log. apply make_dirs_child.
  - intros q n Hq. apply make_dirs_keeps, Hq.
Qed.

Lemma rename_raises_OSError src dst (w w' : world) e :
  Os.rename src dst w = (Raise e, w') -> is_OSError e = true.
Proof.
  unfold Os.rename. repeat case_match; intros [= <- <-]; reflexivity.
Qed.

(** The errors of a rotation are swallowed.  For a log that is there and
    has reached the limit: when the archive directory cannot be created,
    because a regular file is on the way, [archive_if_needed] returns
    normally and leaves the file system as it is; and when the directory is
    there but the log cannot be renamed, because a directory has the name of
    the archive, it returns normally, the log and that directory stay as
    they are, and no rename is made. *)
Theorem rotation_errors_are_swallowed (w : world) (f : path)
    (max_size_mb : Z) (data : string) (mtime : Q) :
  let archive_dir :=
    home E // ".claude" // "homunculus" // "observations.archive" in
  let archive_path :=
    archive_dir
    // ("observations-" +:+ Strftime.compact (local_time (clock E (ticks w)))
        +:+ ".jsonl") in
  Os.node_at (fs w) f = Some (File data mtime) ->
  max_size_mb * (1024 * 1024) <= PyStr.utf8_length data ->
  let r := Observe.archive_if_needed E f max_size_mb w in
  (is_Some (Os.blocking (fs w) archive_dir) ->
   r.1 = Ret tt /\ fs r.2 = fs w /\ Trace.added w r.2 = [EvArchiveCheck f])
  /\ (Os.blocking (fs w) archive_dir = None ->
      Os.is_dir_node (Os.node_at (fs w) archive_path) = true ->
      r.1 = Ret tt
      /\ Os.node_at (fs r.2) f = Some (File data mtime)
      /\ Os.node_at (fs r.2) archive_path = Os.node_at (fs w) archive_path
      /\ Trace.added w r.2 = [EvArchiveCheck f; EvMkdir archive_dir]).
Proof.
  intros archive_dir archive_path Hf Hsize r.
  assert (Qle_bool (inject_Z max_size_mb) (Observe.size_mb (File data mtime))
          = true) as Hle.
  { apply Qle_bool_iff. apply (size_mb_le max_size_mb (File data mtime)).
    exact Hsize. }
  assert (r
          = match Os.blocking (fs w) archive_dir with
            | Some _ => (Ret tt, with_event (EvArchiveCheck f) w)
            | None =>
                match
                  Os.rename f archive_path
                    (tick (with_event (EvMkdir archive_dir)
                             (with_fs (Os.make_dirs (Os.stamp E w) (fs w)
                                         archive_dir)
                                (with_event (EvArchiveCheck f) w))))
                with
                | (Ret a, w') => (Ret a, w')
                | (Raise e, w') =>
                    if is_OSError e then (Ret tt, w') else (Raise e, w')
                end
            end) as Hrun.
  { subst r.
    unfold Observe.archive_if_needed, mbind, M_bind, try_except, Os.exists_,
      Os.stat, Os.mkdir.
    change (fs (with_event (EvArchiveCheck f) w)) with (fs w).
    rewrite bool_decide_eq_true_2 by (rewrite Hf; eauto).
    cbv beta iota delta [negb].
    change (fs (with_event (EvArchiveCheck f) w)) with (fs w).
    rewrite Hf. cbv beta iota. rewrite Hle. cbv beta iota.
    change (fs (with_event (EvArchiveCheck f) w)) with (fs w).
    change (Observe.get_config_dir E // "observations.archive")
      with archive_dir.
    destruct (Os.blocking (fs w) archive_dir) as [q|]; [reflexivity|].
    unfold Os.now. cbv beta iota. reflexivity. }
  split.
  - intros [q Hq]. rewrite Hrun, Hq. wproj.
    split_and!; [reflexivity|reflexivity|]. apply added_app. reflexivity.
  - intros Hb Hdir. rewrite Hrun, Hb.
    set (m1 := Os.make_dirs (Os.stamp E w) (fs w) archive_dir).
    assert (Os.node_at m1 f = Some (File data mtime)) as Hf1
      by apply make_dirs_keeps, Hf.
    destruct (Os.node_at (fs w) archive_path) as [[|t]|] eqn:Hdst;
      try discriminate.
    assert (Os.node_at m1 archive_path = Some (Dir t)) as Hdst1
      by apply make_dirs_keeps, Hdst.
    unfold Os.rename. wproj. rewrite Hf1, Hdst1. cbn [is_OSError]. wproj.
    split_and!; [reflexivity|exact Hf1|exact Hdst1|].
    apply added_app. wproj. rewrite <- app_assoc. reflexivity.
Qed.

(** *** Rotation and append together *)

Lemma prefixes_app (d l q : path) :
  q ∈ Os.prefixes d -> q ∈ Os.prefixes (d ++ l).
Proof.
  unfold Os.prefixes. intros (n & -> & Hn)%list_elem_of_fmap.
  apply elem_of_seq in Hn. apply list_elem_of_fmap. exists n. split.
  - symmetry. apply take_app_le. lia.
  - apply elem_of_seq. rewrite length_app. lia.
Qed.

Lemma blocking_app (m : gmap path node) (d l : path) :
  Os.blocking m (d ++ l) = None -> Os.blocking m d = None.
Proof.
  intros Hb. apply blocking_none_intro. intros q Hq.
  apply (blocking_none _ _ _ Hb), prefixes_app, Hq.
Qed.

(** Directories are only made on the way to the one asked for. *)
Lemma make_dirs_longer (t : Q) (m : gmap path node) (d q : path) :
  (length d < length q)%nat ->
  Os.node_at (Os.make_dirs t m d) q = Os.node_at m q.
Proof.
  intros Hlen. rewrite make_dirs_node_at.
  destruct (Os.node_at m q); [reflexivity|].
  rewrite bool_decide_eq_false_2; [reflexivity|].
  intros [_ Hle]%elem_of_prefixes. lia.
Qed.

Lemma write_observation_spec (w : world) observation :
  Os.blocking (fs w) cfg = None ->
  Os.is_dir_node (Os.node_at (fs w) log) = false ->
  Observe.write_observation E observation log w
  = (Ret tt,
     with_event (EvAppend log (json_dumps observation +:+ PyStr.nl))
       (with_fs (<[log := File (Os.old_data (fs w) log
                               +:+ json_dumps observation +:+ PyStr.nl)
                            (Os.stamp E w)]>
                   (Os.make_dirs (Os.stamp E w) (fs w) cfg))
          (with_event (EvMkdir cfg) w))).
Proof.
  intros Hb Hp. unfold Observe.write_observation, log.
  rewrite parent_snoc.
  unfold mbind, M_bind, Os.mkdir. rewrite Hb.
  unfold Os.append_text, Os.open_error, Os.old_data. wproj.
  rewrite make_dirs_child, parent_snoc.
  pose proof (make_dirs_is_dir (Os.stamp E w) _ _ Hb) as Hdir.
  fold log in Hp |- *.
  destruct (Os.node_at (fs w) log) as [[]|]; try discriminate.
  - reflexivity.
  - destruct (Os.node_at (Os.make_dirs _ _ cfg) cfg) as [[]|];
      try discriminate.
    reflexivity.
Qed.

(** What [main] does with an accepted event once the configuration
    directory is there and the observer is not disabled. *)
Lemma main_accepted (w : world) text :
  stdin E = Some text ->
  PyStr.strip text <> "" ->
  Event.parsed_ok (Observe.parse_hook_input text) = true ->
  Os.blocking (fs w) cfg = None ->
  Os.node_at (fs w) (cfg ++ ["disabled"]) = None ->
  Observe.main E w
  = (Observe.archive_if_needed E log 10;;
     observation ← lift (Observe.build_observation
                           (Strftime.iso_z (utc_time (clock E (ticks w))))
                           (Observe.parse_hook_input text));
     Observe.write_observation E observation log)
      (tick (with_event (EvMkdir cfg)
               (with_fs (Os.make_dirs (Os.stamp E w) (fs w) cfg) w))).
Proof.
  intros Hin Htext Hok Hb Hdis. unfold Observe.main.
  rewrite config_dir_eq, observations_file_eq, Hin. fold cfg. fold log.
  unfold mbind at 1, M_bind at 1, Os.mkdir. rewrite Hb.
  set (m1 := Os.make_dirs (Os.stamp E w) (fs w) cfg).
  unfold mbind at 1, M_bind at 1, Os.exists_. cbv beta iota.
  change (cfg // "disabled") with (cfg ++ ["disabled"]).
  wproj.
  assert (Os.node_at m1 (cfg ++ ["disabled"]) = None) as ->
    by (unfold m1; rewrite make_dirs_child; exact Hdis).
  rewrite bool_decide_eq_false_2 by (intros [? ?]; discriminate).
  apply truthy_str in Htext. rewrite Htext. cbv beta iota delta [negb].
  unfold mbind at 1, M_bind at 1, Os.now. cbv beta iota.
  unfold Event.parsed_ok in Hok.
  unfold mbind at 1, M_bind at 1.
  destruct (Py.get _ "parsed" PNone) as [e|v]; [discriminate|].
  simpl lift. cbv beta iota. unfold mret at 1, M_ret at 1. rewrite Hok.
  reflexivity.
Qed.

(** What [main] does with an input that is not accepted, once the
    configuration directory is there and the observer is not disabled. *)
Lemma main_rejected (w : world) text :
  stdin E = Some text ->
  PyStr.strip text <> "" ->
  Event.parsed_ok (Observe.parse_hook_input text) = false ->
  Os.blocking (fs w) cfg = None ->
  Os.node_at (fs w) (cfg ++ ["disabled"]) = None ->
  Observe.main E w
  = (Observe.write_observation E
       (Observe.parse_error_observation
          (Strftime.iso_z (utc_time (clock E (ticks w)))) text) log;;
     sys_exit 0)
      (tick (with_event (EvMkdir cfg)
               (with_fs (Os.make_dirs (Os.stamp E w) (fs w) cfg) w))).
Proof.
  intros Hin Htext Hok Hb Hdis. unfold Observe.main.
  rewrite config_dir_eq, observations_file_eq, Hin. fold cfg. fold log.
  unfold mbind at 1, M_bind at 1, Os.mkdir. rewrite Hb.
  set (m1 := Os.make_dirs (Os.stamp E w) (fs w) cfg).
  unfold mbind at 1, M_bind at 1, Os.exists_. cbv beta iota.
  change (cfg // "disabled") with (cfg ++ ["disabled"]).
  wproj.
  assert (Os.node_at m1 (cfg ++ ["disabled"]) = None) as ->
    by (unfold m1; rewrite make_dirs_child; exact Hdis).
  rewrite bool_decide_eq_false_2 by (intros [? ?]; discriminate).
  apply truthy_str in Htext. rewrite Htext. cbv beta iota delta [negb].
  unfold mbind at 1, M_bind at 1, Os.now. cbv beta iota.
  unfold Event.parsed_ok in Hok.
  unfold mbind at 1, M_bind at 1.
  destruct (parse_hook_input_dict text) as [d Hd]. rewrite Hd in Hok |- *.
  cbn [Py.get] in Hok |- *.
  simpl lift. cbv beta iota. unfold mret at 1, M_ret at 1. rewrite Hok.
  reflexivity.
Qed.

(** The texts the observer records are bounded.  The record of an accepted
    event is built without error, and its [input] and [output] entries, when
    it has them, are texts of at least one and at most 5000 characters.  For
    an input that is not accepted, [main] appends one line to the log, the
    record with the keys [timestamp], [event] and [raw], whose [raw] entry
    is the first 1000 characters of the input, and leaves; it makes no
    rotation check.  (For that line the configuration directory can be
    created, the observer is not disabled and the log is no directory.) *)
Theorem recorded_texts_are_bounded (w : world) (text : string) :
  let timestamp := Strftime.iso_z (utc_time (clock E (ticks w))) in
  let config_dir := home E // ".claude" // "homunculus" in
  let log_file := config_dir // "observations.jsonl" in
  (Event.parsed_ok (Observe.parse_hook_input text) = true ->
   exists obs,
     Observe.build_observation timestamp (Observe.parse_hook_input text)
     = inr (PDict obs)
     /\ forall key v,
          key = "input" \/ key = "output" ->
          Py.assoc key obs = Some v ->
          exists s, v = PStr s /\ s <> ""
                    /\ Z.of_nat (String.length s) <= 5000)
  /\ (Event.parsed_ok (Observe.parse_hook_input text) = false ->
      stdin E = Some text ->
      PyStr.strip text <> "" ->
      Os.blocking (fs w) config_dir = None ->
      Os.node_at (fs w) (config_dir // "disabled") = None ->
      Os.is_dir_node (Os.node_at (fs w) log_file) = false ->
      let raw := PyStr.take 1000 text in
      let line :=
        json_dumps (PDict [("timestamp", PStr timestamp);
                           ("event", PStr "parse_error");
                           ("raw", PStr raw)])
        +:+ PyStr.nl in
      let r := Observe.main E w in
      Z.of_nat (String.length raw) <= 1000
      /\ r.1 = Raise (SystemExit 0)
      /\ Trace.added w r.2
         = [EvMkdir config_dir; EvMkdir config_dir; EvAppend log_file line]
      /\ Os.old_data (fs r.2) log_file
         = Os.old_data (fs w) log_file +:+ line).
Proof.
  intros timestamp config_dir log_file.
  split; [apply build_observation_bounded|].
  subst config_dir log_file.
  change (home E // ".claude" // "homunculus") with (Observe.get_config_dir E).
  change (Observe.get_config_dir E // "observations.jsonl")
    with (Observe.get_observations_file E).
  rewrite observations_file_eq, config_dir_eq. fold cfg. fold log.
  change (cfg // "disabled") with (cfg ++ ["disabled"]).
  intros Hok Hin Htext Hb Hdis Hlog raw line r.
  assert (Z.of_nat (String.length raw) <= 1000) as Hraw.
  { subst raw. rewrite <- (slice_prefix text 1000). apply slice_bound. lia. }
  split; [exact Hraw|].
  subst r. rewrite (main_rejected w text Hin Htext Hok Hb Hdis).
  set (m1 := Os.make_dirs (Os.stamp E w) (fs w) cfg).
  set (w2 := tick _).
  assert (Os.blocking (fs w2) cfg = None) as Hb2
    by apply blocking_make_dirs, Hb.
  assert (Os.node_at (fs w2) log = Os.node_at (fs w) log) as Hlog2
    by apply make_dirs_child.
  assert (Observe.parse_error_observation timestamp text
          = PDict [("timestamp", PStr timestamp);
                   ("event", PStr "parse_error");
                   ("raw", PStr raw)]) as Hrec.
  { unfold Observe.parse_error_observation, raw.
    pose proof (slice_prefix text 1000) as Hslice.
    change (Z.of_nat 1000) with 1000 in Hslice. rewrite Hslice.
    reflexivity. }
  fold timestamp. rewrite Hrec. fold line.
  assert ((Observe.write_observation E
             (PDict [("timestamp", PStr timestamp);
                     ("event", PStr "parse_error"); ("raw", PStr raw)]) log;;
           sys_exit 0) w2
          = (Raise (SystemExit 0),
             with_event (EvAppend log line)
               (with_fs (<[log := File (Os.old_data (fs w2) log +:+ line)
                                     (Os.stamp E w2)]>
                           (Os.make_dirs (Os.stamp E w2) (fs w2) cfg))
                  (with_event (EvMkdir cfg) w2)))) as ->.
  { unfold mbind at 1, M_bind at 1.
    rewrite write_observation_spec
      by (try exact Hb2; rewrite Hlog2; exact Hlog).
    reflexivity. }
  wproj. split; [reflexivity|]. split.
  - apply added_app. unfold w2. wproj. rewrite <- !app_assoc. reflexivity.
  - unfold Os.old_data at 1.
    rewrite node_at_insert_eq by (unfold log; apply snoc_ne_nil).
    unfold Os.old_data. rewrite Hlog2. reflexivity.
Qed.

Lemma utf8_length_app (a b : string) :
  PyStr.utf8_length (a +:+ b) = PyStr.utf8_length a + PyStr.utf8_length b.
Proof.
  induction a as [|c a IH]; [reflexivity|].
  rewrite app_cons. cbn [PyStr.utf8_length]. rewrite IH. lia.
Qed.

Lemma utf8_length_doubled (n : positive) (s : string) :
  PyStr.utf8_length (Pos.iter (fun s => s +:+ s) s n)
  = 2 ^ Z.pos n * PyStr.utf8_length s.
Proof.
  induction n as [|n IH] using Pos.peano_ind.
  - cbn [Pos.iter]. rewrite utf8_length_app. lia.
  - rewrite Pos.iter_succ, utf8_length_app, IH, Pos2Z.inj_succ,
      Z.pow_succ_r by lia.
    lia.
Qed.

(** The observer keeps the records of its log across a rotation.  When an
    accepted event arrives at a log below ten megabytes, the log afterwards
    holds what it held followed by the new record's line, and every other
    node is as it was.  When the log has reached ten megabytes, the archive
    file of that second holds what the log held, the log holds the new line
    alone, and every node other than the log and that archive file is as it
    was: an archive file of the same second is replaced, and where there is
    none nothing is lost.  (The observer is not disabled, the archive
    directory can be created, and the name of the archive is not taken by a
    directory.) *)
Theorem rotation_keeps_every_record (w : world) (text data : string)
    (mtime : Q) :
  let config_dir := home E // ".claude" // "homunculus" in
  let log_file := config_dir // "observations.jsonl" in
  let archive_dir := config_dir // "observations.archive" in
  let archive_path :=
    archive_dir
    // ("observations-"
        +:+ Strftime.compact (local_time (clock E (S (ticks w))))
        +:+ ".jsonl") in
  stdin E = Some text ->
  PyStr.strip text <> "" ->
  Event.parsed_ok (Observe.parse_hook_input text) = true ->
  Os.blocking (fs w) archive_dir = None ->
  Os.node_at (fs w) (config_dir // "disabled") = None ->
  Os.node_at (fs w) log_file = Some (File data mtime) ->
  Os.is_dir_node (Os.node_at (fs w) archive_path) = false ->
  let r := Observe.main E w in
  exists observation,
    Observe.build_observation (Strftime.iso_z (utc_time (clock E (ticks w))))
      (Observe.parse_hook_input text) = inr observation
    /\ r.1 = Ret tt
    /\ let line := json_dumps observation +:+ PyStr.nl in
       (PyStr.utf8_length data < 10 * (1024 * 1024) ->
        Os.old_data (fs r.2) log_file = data +:+ line
        /\ forall q n, q <> log_file -> Os.node_at (fs w) q = Some n ->
                       Os.node_at (fs r.2) q = Some n)
       /\ (10 * (1024 * 1024) <= PyStr.utf8_length data ->
           Os.old_data (fs r.2) log_file = line
           /\ Os.node_at (fs r.2) archive_path = Some (File data mtime)
           /\ forall q n, q <> log_file -> q <> archive_path ->
                          Os.node_at (fs w) q = Some n ->
                          Os.node_at (fs r.2) q = Some n).
Proof.
  intros config_dir log_file archive_dir archive_path.
  subst config_dir log_file archive_dir archive_path.
  change (home E // ".claude" // "homunculus") with (Observe.get_config_dir E).
  change (Observe.get_config_dir E // "observations.jsonl")
    with (Observe.get_observations_file E).
  change ("observations-"
          +:+ Strftime.compact (local_time (clock E (S (ticks w))))
          +:+ ".jsonl")
    with (Observe.archive_name (local_time (clock E (S (ticks w))))).
  rewrite observations_file_eq, archive_dir_eq, archive_path_eq, config_dir_eq.
  fold cfg. fold log. fold adir.
  change (cfg // "disabled") with (cfg ++ ["disabled"]).
  set (dst := adir ++ _).
  intros Hin Htext Hok Hba Hdis Hlog Hdst r.
  assert (Os.blocking (fs w) cfg = None) as Hb by apply (blocking_app _ _ _ Hba).
  destruct (build_observation_bounded text
              (Strftime.iso_z (utc_time (clock E (ticks w)))) Hok)
    as (obs & Hbuild & _).
  exists (PDict obs). split; [exact Hbuild|].
  subst r. rewrite (main_accepted w text Hin Htext Hok Hb Hdis).
  set (t := Os.stamp E w).
  set (m1 := Os.make_dirs t (fs w) cfg).
  set (w2 := tick _).
  set (line := json_dumps (PDict obs) +:+ PyStr.nl).
  assert (fs w2 = m1) as Hfs2 by reflexivity.
  assert (Os.node_at (fs w2) log = Some (File data mtime)) as Hlog2
    by (rewrite Hfs2; apply make_dirs_keeps, Hlog).
  assert (Os.blocking m1 cfg = None) as Hb1 by apply blocking_make_dirs, Hb.
  assert (length cfg < length dst)%nat as Hlen
    by (unfold dst, adir; rewrite !length_app; simpl; lia).
  assert (length cfg < length log)%nat as Hlen'
    by (unfold log; rewrite !length_app; simpl; lia).
  assert (dst <> log) as Hne.
  { unfold dst, log, adir. rewrite <- app_assoc.
    intros Heq%app_inv_head. discriminate. }
  pose proof (size_mb_le 10 (File data mtime)) as Hbytes.
  simpl Os.st_size in Hbytes.
  match goal with
  | |- context [(?m w2).1] => set (run := m w2)
  end.
  destruct (Z.lt_ge_cases (PyStr.utf8_length data) (10 * (1024 * 1024)))
    as [Hsmall|Hlarge].
  - assert (~ (inject_Z 10 <= Observe.size_mb (File data mtime))%Q) as Hq
      by (rewrite Hbytes; lia).
    assert (run
            = (Ret tt,
               with_event (EvAppend log line)
                 (with_fs (<[log := File (data +:+ line) (Os.stamp E w2)]>
                             (Os.make_dirs (Os.stamp E w2) m1 cfg))
                    (with_event (EvMkdir cfg)
                       (with_event (EvArchiveCheck log) w2))))) as ->.
    { subst run. unfold mbind at 1, M_bind at 1.
      rewrite (archive_small E w2 log 10 _ Hlog2 Hq).
      unfold mbind at 1, M_bind at 1. rewrite Hbuild. simpl lift.
      unfold mret at 1, M_ret at 1. cbv beta iota.
      rewrite write_observation_spec.
      - unfold Os.old_data.
        change (fs (with_event (EvArchiveCheck log) w2)) with (fs w2).
        rewrite Hlog2. reflexivity.
      - exact Hb1.
      - change (fs (with_event (EvArchiveCheck log) w2)) with (fs w2).
        rewrite Hlog2. reflexivity. }
    wproj. split; [reflexivity|]. split; [|intros; lia].
    intros _. split.
    + unfold Os.old_data, log.
      rewrite node_at_snoc, lookup_insert_eq. reflexivity.
    + intros q n Hq' Hnode.
      rewrite node_at_insert_ne by congruence.
      unfold m1. apply make_dirs_keeps, make_dirs_keeps, Hnode.
  - assert (inject_Z 10 <= Observe.size_mb (File data mtime))%Q as Hq
      by (rewrite Hbytes; lia).
    assert (Os.blocking (fs w2) adir = None) as Hba2
      by (rewrite Hfs2; apply blocking_make_dirs, Hba).
    assert (Os.is_dir_node (Os.node_at (fs w2) dst) = false) as Hdst2.
    { rewrite Hfs2. unfold m1. rewrite make_dirs_longer by assumption.
      exact Hdst. }
    set (t2 := Os.stamp E w2).
    set (m2 := Os.make_dirs t2 m1 adir).
    set (m3 := <[dst := File data mtime]> (delete log m2)).
    assert (forall q, (length q <= length cfg)%nat ->
                      Os.node_at m3 q = Os.node_at m2 q) as Hshort.
    { intros [|a q] Hq'; [reflexivity|].
      unfold m3.
      rewrite node_at_insert_ne by (intros Heq; rewrite <- Heq in Hq'; lia).
      unfold Os.node_at. apply lookup_delete_ne.
      intros Heq. rewrite <- Heq in Hq'. lia. }
    assert (Os.blocking m3 cfg = None) as Hb3.
    { apply blocking_none_intro. intros q Hq'.
      rewrite Hshort by (apply elem_of_prefixes in Hq'; lia).
      assert (Os.blocking m2 cfg = None) as Hb2
        by (unfold m2; apply blocking_make_dirs, Hb1).
      apply (blocking_none _ _ _ Hb2 Hq'). }
    assert (Os.node_at m3 log = None) as Hlog3.
    { unfold m3. rewrite node_at_insert_ne by assumption.
      unfold log. rewrite node_at_snoc. apply lookup_delete_eq. }
    assert (exists w3 t3,
      run = (Ret tt,
             with_event (EvAppend log line)
               (with_fs (<[log := File line t3]> (Os.make_dirs t3 m3 cfg))
                  (with_event (EvMkdir cfg) w3)))) as (w3 & t3 & ->).
    { subst run. unfold mbind at 1, M_bind at 1.
      rewrite (archive_large E w2 log 10 data mtime Hlog2 Hq Hba2 Hdst2).
      fold cfg. fold adir. change (ticks w2) with (S (ticks w)). fold dst.
      rewrite Hfs2. fold t2. fold m2. fold m3.
      set (w3 := with_event (EvRename log dst) _).
      assert (fs w3 = m3) as Hfs3 by reflexivity.
      unfold mbind at 1, M_bind at 1. rewrite Hbuild. simpl lift.
      unfold mret at 1, M_ret at 1. cbv beta iota.
      rewrite write_observation_spec.
      - exists w3, (Os.stamp E w3). unfold Os.old_data.
        rewrite Hfs3, Hlog3. reflexivity.
      - rewrite Hfs3. exact Hb3.
      - rewrite Hfs3, Hlog3. reflexivity. }
    wproj. split; [reflexivity|]. split; [intros; lia|].
    intros _. split_and!.
    + unfold Os.old_data, log.
      rewrite node_at_snoc, lookup_insert_eq. reflexivity.
    + rewrite node_at_insert_ne by (intros Heq; apply Hne; symmetry; exact Heq).
      rewrite make_dirs_longer by assumption.
      unfold m3, dst. rewrite node_at_snoc. apply lookup_insert_eq.
    + intros q n Hq1 Hq2 Hnode.
      rewrite node_at_insert_ne by congruence.
      apply make_dirs_keeps. unfold m3.
      rewrite node_at_insert_ne by congruence.
      destruct q as [|a q]; [exact Hnode|].
      unfold Os.node_at at 1. rewrite lookup_delete_ne by congruence.
      change (Os.node_at m2 (a :: q) = Some n).
      unfold m2, m1. apply make_dirs_keeps, make_dirs_keeps, Hnode.
Qed.

End observer.

(** The bound at the [Edit] event of the first scenario, and the line
    recorded for an input that is not json. *)
Lemma recorded_texts_are_bounded_witness :
  let E := Scenario.with_stdin "not json" Scenario.base_env in
  let w := Scenario.world_of Scenario.logged in
  let timestamp := "2025-03-14T11:30:05Z" in
  let line :=
    json_dumps (PDict [("timestamp", PStr timestamp);
                       ("event", PStr "parse_error");
                       ("raw", PStr (PyStr.take 1000 "not json"))])
    +:+ PyStr.nl in
  let r := Observe.main E w in
  (exists obs,
     Observe.build_observation timestamp
       (Observe.parse_hook_input Scenario.edit_event)
     = inr (PDict obs)
     /\ forall key v,
          key = "input" \/ key = "output" ->
          Py.assoc key obs = Some v ->
          exists s, v = PStr s /\ s <> ""
                    /\ Z.of_nat (String.length s) <= 5000)
  /\ Z.of_nat (String.length (PyStr.take 1000 "not json")) <= 1000
  /\ r.1 = Raise (SystemExit 0)
  /\ Trace.added w r.2
     = [EvMkdir Scenario.config_dir; EvMkdir Scenario.config_dir;
        EvAppend Scenario.observations line]
  /\ Os.old_data (fs r.2) Scenario.observations = "{}" +:+ line.
Proof.
  intros E w timestamp line r.
  assert (Event.parsed_ok (Observe.parse_hook_input Scenario.edit_event)
          = true) as Hok by (vm_compute; reflexivity).
  assert (Event.parsed_ok (Observe.parse_hook_input "not json") = false)
    as Hbad by (vm_compute; reflexivity).
  assert (stdin E = Some "not json") as Hin by reflexivity.
  assert (PyStr.strip "not json" <> "") as Htext
    by (vm_compute; discriminate).
  assert (Os.blocking (fs w) (home E // ".claude" // "homunculus") = None)
    as Hb by (vm_compute; reflexivity).
  assert (Os.node_at (fs w)
            (home E // ".claude" // "homunculus" // "disabled") = None)
    as Hdis by (vm_compute; reflexivity).
  assert (Os.is_dir_node
            (Os.node_at (fs w)
               (home E // ".claude" // "homunculus" // "observations.jsonl"))
          = false) as Hlog by (vm_compute; reflexivity).
  split.
  - exact (proj1 (recorded_texts_are_bounded E w Scenario.edit_event) Hok).
  - exact (proj2 (recorded_texts_are_bounded E w "not json")
             Hbad Hin Htext Hb Hdis Hlog).
Defined.

(** A log of two bytes against a limit of 0: with a regular file in the way
    of the archive directory, and with a directory of the archive's name. *)
Lemma rotation_errors_are_swallowed_witness :
  let E := Scenario.base_env in
  let w1 := Scenario.world_of Scenario.archive_blocked in
  let w2 := Scenario.world_of Scenario.archive_taken in
  let blocked := Observe.archive_if_needed E Scenario.observations 0 w1 in
  let taken := Observe.archive_if_needed E Scenario.observations 0 w2 in
  (blocked.1 = Ret tt
   /\ fs blocked.2 = fs w1
   /\ Trace.added w1 blocked.2 = [EvArchiveCheck Scenario.observations])
  /\ (taken.1 = Ret tt
      /\ Os.node_at (fs taken.2) Scenario.observations = Some (File "{}" 0)
      /\ Os.node_at (fs taken.2) Scenario.archive = Some (Dir 0)
      /\ Trace.added w2 taken.2
         = [EvArchiveCheck Scenario.observations;
            EvMkdir Scenario.archive_dir]).
Proof.
  intros E w1 w2 blocked taken.
  assert (Os.node_at (fs w1) Scenario.observations = Some (File "{}" 0))
    as Hf1 by (vm_compute; reflexivity).
  assert (Os.node_at (fs w2) Scenario.observations = Some (File "{}" 0))
    as Hf2 by (vm_compute; reflexivity).
  assert (0 * (1024 * 1024) <= PyStr.utf8_length "{}") as Hsize
    by (vm_compute; discriminate).
  assert (is_Some (Os.blocking (fs w1) Scenario.archive_dir)) as Hb1
    by (exists Scenario.archive_dir; vm_compute; reflexivity).
  assert (Os.blocking (fs w2) Scenario.archive_dir = None) as Hb2
    by (vm_compute; reflexivity).
  assert (Os.node_at (fs w2) Scenario.archive = Some (Dir 0)) as Hdst
    by (vm_compute; reflexivity).
  split.
  - exact (proj1 (rotation_errors_are_swallowed E w1 Scenario.observations 0
                    "{}" 0 Hf1 Hsize) Hb1).
  - destruct (proj2 (rotation_errors_are_swallowed E w2 Scenario.observations
                       0 "{}" 0 Hf2 Hsize) Hb2)
      as (Hret & Hlog & Harch & Htrace).
    + change (Os.is_dir_node (Os.node_at (fs w2) Scenario.archive) = true).
      rewrite Hdst. reflexivity.
    + split_and!; [exact Hret|exact Hlog| |exact Htrace].
      etransitivity; [exact Harch|exact Hdst].
Defined.

(** The [Edit] event on [stdin] of an observer that has been disabled. *)
Lemma disabled_sentinel_stops_observer_witness :
  let E := Scenario.with_stdin Scenario.edit_event Scenario.base_env in
  let w := Scenario.world_of
             (<[Scenario.config_dir ++ ["disabled"] := File "" 0]>
                Scenario.logged) in
  let r := Observe.main E w in
  r.1 = Raise (SystemExit 0)
  /\ Trace.added w r.2 = [EvMkdir (Observe.get_config_dir E)]
  /\ stderr r.2 = stderr w
  /\ Os.node_at (fs r.2) (Observe.get_observations_file E)
     = Os.node_at (fs w) (Observe.get_observations_file E)
  /\ (forall q n, Os.node_at (fs w) q = Some n -> Os.node_at (fs r.2) q = Some n).
Proof.
  intros E w.
  assert (Os.blocking (fs w) (Observe.get_config_dir E) = None) as Hb
    by (vm_compute; reflexivity).
  assert (is_Some (Os.node_at (fs w) (Observe.get_config_dir E // "disabled")))
    as Hdis by (exists (File "" 0); vm_compute; reflexivity).
  exact (disabled_sentinel_stops_observer E w Hb Hdis).
Defined.

(** Documents that decode and are still recorded as parse errors: a list,
    and an object whose [hook_type] is [null]. *)
Example rejected_documents :
  Event.parsed_ok (Observe.parse_hook_input "[1, 2]") = false
  /\ Event.parsed_ok
       (Observe.parse_hook_input
          ("{" +:+ Scenario.q "hook_type" +:+ ": null}")) = false
  /\ Event.parsed_ok (Observe.parse_hook_input "{}") = true.
Proof. split_and!; vm_compute; reflexivity. Qed.

(** The [Edit] event arriving at a log of ten megabytes, beside the archive
    of an earlier day: the log goes to the archive of this second, the new
    record starts a new log, and the earlier archive is as it was. *)
Lemma rotation_keeps_every_record_witness :
  let E := Scenario.with_stdin Scenario.edit_event Scenario.base_env in
  let w := Scenario.world_of (Scenario.logged_with Scenario.full_log) in
  let earlier :=
    Scenario.archive_dir ++ ["observations-20250301-080000.jsonl"] in
  let r := Observe.main E w in
  10 * (1024 * 1024) <= PyStr.utf8_length Scenario.full_log
  /\ exists observation,
       Observe.build_observation "2025-03-14T11:30:05Z"
         (Observe.parse_hook_input Scenario.edit_event) = inr observation
       /\ r.1 = Ret tt
       /\ Os.old_data (fs r.2) Scenario.observations
          = json_dumps observation +:+ PyStr.nl
       /\ Os.node_at (fs r.2) Scenario.archive
          = Some (File Scenario.full_log 0)
       /\ Os.node_at (fs r.2) earlier = Some (File "{}" 0).
Proof.
  intros E w earlier r.
  assert (10 * (1024 * 1024) <= PyStr.utf8_length Scenario.full_log) as Hsize.
  { unfold Scenario.full_log. rewrite utf8_length_doubled.
    vm_compute. discriminate. }
  split; [exact Hsize|].
  assert (stdin E = Some Scenario.edit_event) as Hin by reflexivity.
  assert (PyStr.strip Scenario.edit_event <> "") as Htext
    by (vm_compute; discriminate).
  assert (Event.parsed_ok (Observe.parse_hook_input Scenario.edit_event) = true)
    as Hok by (vm_compute; reflexivity).
  assert (home E // ".claude" // "homunculus" // "observations.jsonl"
          = Scenario.observations) as Hlogp by (vm_compute; reflexivity).
  assert (home E // ".claude" // "homunculus" // "observations.archive"
          // ("observations-"
              +:+ Strftime.compact (local_time (clock E (S (ticks w))))
              +:+ ".jsonl")
          = Scenario.archive) as Harchp by (vm_compute; reflexivity).
  assert (forall data : string,
    let w := Scenario.world_of (Scenario.logged_with data) in
    Os.blocking (fs w)
      (home E // ".claude" // "homunculus" // "observations.archive") = None
    /\ Os.node_at (fs w) (home E // ".claude" // "homunculus" // "disabled")
       = None
    /\ Os.node_at (fs w) Scenario.observations = Some (File data 0)
    /\ Os.is_dir_node (Os.node_at (fs w) Scenario.archive) = false
    /\ Os.node_at (fs w) earlier = Some (File "{}" 0)) as Hworld.
  { intros data. vm_compute. repeat split. }
  destruct (Hworld Scenario.full_log) as (Hba & Hdis & Hlog & Hdst & Hearlier).
  rewrite <- Hlogp in Hlog. rewrite <- Harchp in Hdst.
  destruct (rotation_keeps_every_record E w Scenario.edit_event
              Scenario.full_log 0 Hin Htext Hok Hba Hdis Hlog Hdst)
    as (observation & Hbuild & Hret & _ & Hlarge).
  destruct (Hlarge Hsize) as (Hnew & Harchived & Hkept).
  rewrite Hlogp in Hnew, Hkept. rewrite Harchp in Harchived, Hkept.
  exists observation. split_and!.
  - exact Hbuild.
  - exact Hret.
  - exact Hnew.
  - exact Harchived.
  - apply Hkept; [vm_compute; discriminate|vm_compute; discriminate|].
    exact Hearlier.
Defined.

(** ** What [find_files] returns *)

Section newest_first.
Context {A : Type} (key : A -> Q).
Implicit Types (l : list A) (x y : A).

(** [x] comes before [y] in a list sorted newest first. *)
Let before (x y : A) : Prop := (key y <= key x)%Q.

Lemma insert_newest_perm x l : insert_newest key x l ≡ₚ x :: l.
Proof.
  induction l as [|h t IH]; simpl; [reflexivity|].
  destruct (Qle_bool (key h) (key x)); [reflexivity|].
  rewrite IH. apply Permutation_swap.
Qed.

Lemma sort_newest_perm l : sort_newest key l ≡ₚ l.
Proof.
  induction l as [|h t IH]; simpl; [reflexivity|].
  rewrite insert_newest_perm, IH. reflexivity.
Qed.

Lemma insert_newest_sorted x l :
  StronglySorted before l -> StronglySorted before (insert_newest key x l).
Proof.
  induction 1 as [|h t Ht IH Hall]; simpl.
  - repeat constructor.
  - destruct (Qle_bool (key h) (key x)) eqn:Hle.
    + apply Qle_bool_iff in Hle. constructor; [constructor; assumption|].
      constructor; [exact Hle|].
      eapply Forall_impl; [exact Hall|]. intros y Hy. unfold before in *.
      eapply Qle_trans; [exact Hy|exact Hle].
    + assert (key x < key h)%Q as Hlt.
      { apply Qnot_le_lt. intros Hle'%Qle_bool_iff. congruence. }
      constructor; [exact IH|].
      apply Forall_forall. intros y Hy.
      apply elem_of_insert_newest in Hy as [->|Hy].
      * apply Qlt_le_weak, Hlt.
      * rewrite Forall_forall in Hall. apply Hall, Hy.
Qed.

Lemma sort_newest_sorted l : StronglySorted before (sort_newest key l).
Proof.
  induction l as [|h t IH]; simpl; [constructor|].
  apply insert_newest_sorted, IH.
Qed.

End newest_first.

Section file_search.
Context `{PyRuntime} (E : env).
Implicit Types (m : gmap path node) (d p rest : path) (x : Utils.found).

Lemma elem_of_flat_map {A B} (f : A -> list B) (l : list A) (b : B) :
  b ∈ flat_map f l <-> exists a, a ∈ l /\ b ∈ f a.
Proof.
  rewrite list_elem_of_In, in_flat_map. split.
  - intros (a & Ha & Hb). exists a. rewrite !list_elem_of_In. auto.
  - intros (a & Ha & Hb). exists a. rewrite <- !list_elem_of_In. auto.
Qed.

(** [x] is the entry of a regular file below [d] whose name matches, at the
    end of a chain [rest] of at most [fuel] names along which every node
    before the last is a directory; without recursion the chain is one name
    long. *)
Let listed (regex : string -> bool) (recursive : bool) m d (fuel : nat) x
  : Prop :=
  exists rest data mtime,
    (0 < length rest <= fuel)%nat
    /\ (recursive = false -> length rest = 1%nat)
    /\ m !! (d ++ rest) = Some (File data mtime)
    /\ regex (PathLib.name (d ++ rest)) = true
    /\ (forall k, (0 < k < length rest)%nat ->
                  Os.is_dir_node (m !! (d ++ take k rest)) = true)
    /\ x = {| Utils.found_path := PathLib.to_str (d ++ rest);
              Utils.found_mtime := mtime |}.

Lemma hits_listed regex recursive m :
  forall fuel d x,
    x ∈ Utils.hits fuel regex recursive m d
    <-> listed regex recursive m d fuel x.
Proof.
  unfold listed.
  induction fuel as [|fuel IH]; intros d x.
  - simpl. split; [intros Hin; inversion Hin|].
    intros (rest & ? & ? & ? & _). lia.
  - simpl Utils.hits. rewrite elem_of_flat_map. split.
    + intros ([p n] & Hentry & Hx).
      apply elem_of_entries in Hentry as (Hn & Hpar & Hp).
      pose proof (child_snoc p d Hpar Hp) as Hsnoc.
      cbn [fst snd] in Hx. set (s := PathLib.name p) in *.
      destruct n as [data mtime|t].
      * destruct (regex s) eqn:Hs; [|inversion Hx].
        apply list_elem_of_singleton in Hx.
        exists [s], data, mtime. rewrite <- Hsnoc.
        split_and!; simpl; try lia; auto.
      * destruct recursive; [|inversion Hx].
        apply IH in Hx
          as (rest & data & mtime & Hlen & _ & Hfile & Hname & Hdirs & ->).
        exists (s :: rest), data, mtime.
        assert (forall l, d ++ s :: l = p ++ l) as Hcons.
        { intros l. change (d ++ s :: l) with (d ++ [s] ++ l).
          rewrite app_assoc, <- Hsnoc. reflexivity. }
        pose proof (Hcons rest) as Heq.
        rewrite Heq. split_and!; simpl; try lia; auto; try discriminate.
        intros [|[|k]] Hk; try lia.
        -- replace (d ++ take 1 (s :: rest)) with p by exact Hsnoc.
           rewrite Hn. reflexivity.
        -- change (take (S (S k)) (s :: rest)) with (s :: take (S k) rest).
           rewrite Hcons.
           apply Hdirs. simpl in Hk. lia.
    + intros (rest & data & mtime & Hlen & Hflat & Hfile & Hname & Hdirs & ->).
      destruct rest as [|s rest]; [simpl in Hlen; lia|].
      destruct rest as [|s' rest].
      * exists (d ++ [s], File data mtime). split.
        -- apply elem_of_entries. split_and!; [exact Hfile|apply parent_snoc|].
           apply snoc_ne_nil.
        -- cbn [fst snd]. rewrite Hname. apply list_elem_of_here.
      * assert (recursive = true) as ->.
        { destruct recursive; [reflexivity|].
          specialize (Hflat eq_refl). discriminate. }
        pose proof (Hdirs 1%nat ltac:(simpl; lia)) as Hdir. simpl in Hdir.
        destruct (m !! (d ++ [s])) as [[|t]|] eqn:Hds; try discriminate.
        exists (d ++ [s], Dir t). split.
        -- apply elem_of_entries. split_and!; [exact Hds|apply parent_snoc|].
           apply snoc_ne_nil.
        -- cbn [fst snd]. apply IH.
           assert (forall l, (d ++ [s]) ++ l = d ++ s :: l) as Heq
             by (intros l; rewrite <- app_assoc; reflexivity).
           exists (s' :: rest), data, mtime. rewrite Heq.
           split_and!; auto; try discriminate.
           ++ simpl. lia.
           ++ simpl in *. lia.
           ++ intros k Hk. rewrite Heq.
              apply (Hdirs (S k)). simpl in *. lia.
Qed.

(** A chain that ends at a node of the file system is no longer than the
    file system is deep. *)
Lemma chain_length m d rest n :
  m !! (d ++ rest) = Some n -> (length rest <= Utils.max_depth m)%nat.
Proof.
  intros Hn.
  assert (length (d ++ rest) <= Utils.max_depth m)%nat as Hle.
  { unfold Utils.max_depth. apply max_list_elem_of_le.
    apply list_elem_of_fmap. exists (d ++ rest). split; [reflexivity|].
    apply list_elem_of_fmap. exists (d ++ rest, n). split; [reflexivity|].
    apply elem_of_map_to_list, Hn. }
  rewrite length_app in Hle. lia.
Qed.

(** [find_files] on a directory returns, newest first, entries of regular
    files whose name matches the pattern and that lie below the directory at
    the end of a chain of directories, directly in it when the search is not
    recursive; without an age limit it returns every such file and leaves
    the world as it is, and with one it still changes neither the file
    system nor what was printed. *)
Theorem find_files_finds_matching_files (w : world) (directory : path)
    (pattern : string) (regex : string -> bool) (recursive : bool)
    (max_age_days : option Q) :
  re_compile (Utils.glob_to_regex pattern) = Some regex ->
  Os.is_dir_node (Os.node_at (fs w) directory) = true ->
  let matching (x : Utils.found) : Prop :=
    exists rest data mtime,
      rest <> []
      /\ (recursive = false -> length rest = 1%nat)
      /\ fs w !! (directory ++ rest) = Some (File data mtime)
      /\ regex (PathLib.name (directory ++ rest)) = true
      /\ (forall k, (0 < k < length rest)%nat ->
                    Os.is_dir_node (fs w !! (directory ++ take k rest)) = true)
      /\ x = {| Utils.found_path := PathLib.to_str (directory ++ rest);
                Utils.found_mtime := mtime |} in
  exists results w',
    Utils.find_files E directory pattern max_age_days recursive w
    = (Ret results, w')
    /\ fs w' = fs w /\ stderr w' = stderr w /\ trace w' = trace w
    /\ StronglySorted
         (fun x y => (Utils.found_mtime y <= Utils.found_mtime x)%Q) results
    /\ (forall x, x ∈ results -> matching x)
    /\ (max_age_days = None ->
        w' = w /\ forall x, matching x -> x ∈ results).
Proof.
  intros Hre Hdir matching.
  set (fuel := S (Utils.max_depth (fs w))).
  set (all := Utils.hits fuel regex recursive (fs w) directory).
  assert (forall x, x ∈ all <-> matching x) as Hall.
  { intros x. unfold all. rewrite hits_listed. unfold listed, matching.
    split.
    - intros (rest & data & mtime & Hlen & Hflat & Hfile & Hname & Hdirs & ->).
      exists rest, data, mtime. split_and!; auto.
      intros ->. simpl in Hlen. lia.
    - intros (rest & data & mtime & Hne & Hflat & Hfile & Hname & Hdirs & ->).
      exists rest, data, mtime. split_and!; auto.
      + destruct rest; [congruence|simpl; lia].
      + pose proof (chain_length _ _ _ _ Hfile). unfold fuel. lia. }
  assert (bool_decide (is_Some (Os.node_at (fs w) directory)) = true) as Hex.
  { apply bool_decide_eq_true_2.
    destruct (Os.node_at (fs w) directory); [eauto|discriminate]. }
  destruct max_age_days as [max|].
  - destruct (search_dir_spec E regex recursive max fuel directory [] w Hdir)
      as [_ Hsome].
    exists (sort_newest Utils.found_mtime (Utils.judge E max (ticks w) all)),
      (nticks (length all) w).
    split_and!; try reflexivity.
    + unfold Utils.find_files.
      unfold mbind at 1, M_bind at 1, Os.exists_. rewrite Hex, Hre.
      cbv beta iota delta [negb].
      unfold mbind at 1, M_bind at 1. cbv beta iota.
      unfold mbind at 1, M_bind at 1. fold fuel. rewrite Hsome. reflexivity.
    + apply sort_newest_sorted.
    + intros x Hx%elem_of_sort_newest. apply Hall.
      apply elem_of_judge in Hx as (i & Hi & _).
      apply (list_elem_of_lookup_2 _ _ _ Hi).
    + discriminate.
  - destruct (search_dir_spec E regex recursive 0%Q fuel directory [] w Hdir)
      as [Hnone _].
    exists (sort_newest Utils.found_mtime all), w.
    split_and!; try reflexivity.
    + unfold Utils.find_files.
      unfold mbind at 1, M_bind at 1, Os.exists_. rewrite Hex, Hre.
      cbv beta iota delta [negb].
      unfold mbind at 1, M_bind at 1. cbv beta iota.
      unfold mbind at 1, M_bind at 1. fold fuel. rewrite Hnone. reflexivity.
    + apply sort_newest_sorted.
    + intros x Hx%elem_of_sort_newest. apply Hall, Hx.
    + intros _. split; [reflexivity|].
      intros x Hx. apply elem_of_sort_newest, Hall, Hx.
Qed.

(** Where there is no directory: [find_files] returns the empty list for a
    path that does not exist, without compiling the pattern; on a path that
    exists and is no directory it raises, the error of the pattern when that
    does not compile and [NotADirectoryError] otherwise.  The world is left
    as it is. *)
Theorem find_files_without_directory (w : world) (directory : path)
    (pattern : string) (max_age_days : option Q) (recursive : bool) :
  Os.is_dir_node (Os.node_at (fs w) directory) = false ->
  Utils.find_files E directory pattern max_age_days recursive w
  = match Os.node_at (fs w) directory,
          re_compile (Utils.glob_to_regex pattern) with
    | None, _ => (Ret [], w)
    | Some _, None => (Raise (ReError (Utils.glob_to_regex pattern)), w)
    | Some _, Some _ => (Raise (OSError ENOTDIR directory), w)
    end.
Proof.
  intros Hdir. unfold Utils.find_files.
  unfold mbind at 1, M_bind at 1, Os.exists_.
  destruct (Os.node_at (fs w) directory) as [[data mtime|t]|] eqn:Hn;
    try discriminate.
  - rewrite bool_decide_eq_true_2 by eauto. cbv beta iota delta [negb].
    destruct (re_compile _) as [regex|]; [|reflexivity].
    unfold mbind at 1, M_bind at 1. cbv beta iota.
    unfold mbind at 1, M_bind at 1. simpl Utils.search_dir.
    unfold mbind at 1, M_bind at 1, Os.iterdir. rewrite Hn. reflexivity.
  - rewrite bool_decide_eq_false_2 by (intros [? ?]; discriminate).
    reflexivity.
Qed.

End file_search.

(** The search of the sessions directory of the scenario. *)
Lemma find_files_finds_matching_files_witness :
  let E := Scenario.base_env in
  let w := Scenario.world_of Scenario.aged in
  let directory := Scenario.sessions_dir in
  let regex :=
    default (fun _ => false) (re_compile (Utils.glob_to_regex "*-session.tmp")) in
  let matching (x : Utils.found) : Prop :=
    exists rest data mtime,
      rest <> []
      /\ (false = false -> length rest = 1%nat)
      /\ fs w !! (directory ++ rest) = Some (File data mtime)
      /\ regex (PathLib.name (directory ++ rest)) = true
      /\ (forall k, (0 < k < length rest)%nat ->
                    Os.is_dir_node (fs w !! (directory ++ take k rest)) = true)
      /\ x = {| Utils.found_path := PathLib.to_str (directory ++ rest);
                Utils.found_mtime := mtime |} in
  exists results w',
    Utils.find_files E directory "*-session.tmp" None false w
    = (Ret results, w')
    /\ fs w' = fs w /\ stderr w' = stderr w /\ trace w' = trace w
    /\ StronglySorted
         (fun x y => (Utils.found_mtime y <= Utils.found_mtime x)%Q) results
    /\ (forall x, x ∈ results -> matching x)
    /\ (@None Q = None ->
        w' = w /\ forall x, matching x -> x ∈ results).
Proof.
  intros E w directory regex.
  assert (re_compile (Utils.glob_to_regex "*-session.tmp") = Some regex) as Hre
    by (vm_compute; reflexivity).
  assert (Os.is_dir_node (Os.node_at (fs w) directory) = true) as Hdir
    by (vm_compute; reflexivity).
  exact (find_files_finds_matching_files E w directory "*-session.tmp" regex
           false None Hre Hdir).
Defined.

(** A search below a marker file, which is no directory, and below a path
    that is not there. *)
Lemma find_files_without_directory_witness :
  let E := Scenario.base_env in
  let w := Scenario.world_of Scenario.aged in
  let directory := Scenario.sessions_dir ++ ["a-session.tmp"] in
  Utils.find_files E directory "*.md" None false w
  = match Os.node_at (fs w) directory,
          re_compile (Utils.glob_to_regex "*.md") with
    | None, _ => (Ret [], w)
    | Some _, None => (Raise (ReError (Utils.glob_to_regex "*.md")), w)
    | Some _, Some _ => (Raise (OSError ENOTDIR directory), w)
    end.
Proof.
  intros E w directory.
  assert (Os.is_dir_node (Os.node_at (fs w) directory) = false) as Hdir
    by (vm_compute; reflexivity).
  exact (find_files_without_directory E w directory "*.md" None false Hdir).
Defined.

Example find_files_on_a_file :
  let w := Scenario.world_of Scenario.aged in
  (Utils.find_files Scenario.base_env
     (Scenario.sessions_dir ++ ["a-session.tmp"]) "*.md" None false w).1
  = Raise (OSError ENOTDIR (Scenario.sessions_dir ++ ["a-session.tmp"]))
  /\ (Utils.find_files Scenario.base_env
        (Scenario.sessions_dir ++ ["none"]) "*.md" None false w).1
     = Ret [].
Proof. split; vm_compute; reflexivity. Qed.

(** ** The session-start hook *)

Section session_start.
Context `{PyRuntime} (E : env).

(** The cut-off of [find_recent_files] is the age limit of [find_files]:
    a file is not older than [d] days exactly when it was modified at or
    after [now - d * 24 * 60 * 60]. *)
Lemma cutoff_is_age_limit (now mtime : Q) (d : Z) :
  (now - inject_Z (d * 24 * 60 * 60) <= mtime
   <-> (now - mtime) / inject_Z (60 * 60 * 24) <= inject_Z d)%Q.
Proof.
  rewrite !inject_Z_mult.
  change (inject_Z (60 * 60 * 24)) with (86400 # 1)%Q.
  change (inject_Z 24) with (24 # 1)%Q. change (inject_Z 60) with (60 # 1)%Q.
  generalize (inject_Z d). intros x.
  split; intros Hle.
  - apply Qle_shift_div_r; [reflexivity|]. lra.
  - apply (Qmult_le_r _ _ (86400 # 1)) in Hle; [|reflexivity].
    unfold Qdiv in Hle.
    rewrite <- Qmult_assoc, (Qmult_comm (/ _)), Qmult_inv_r, Qmult_1_r in Hle
      by discriminate.
    lra.
Qed.

(** [find_recent_files] on a directory reads the clock once and returns,
    newest first, exactly the regular files of the directory whose name
    matches the pattern and that were modified at or after the cut-off, the
    clock's reading minus [max_age_days] days; the cut-off keeps the files
    that the age test of [find_files] keeps for the same limit.  On a path
    that does not exist it returns the empty list without reading the
    clock.  (The pattern is one component of [*], [?] and literal
    characters.) *)
Theorem find_recent_files_keeps_recent (w : world) (directory : path)
    (pattern : string) (max_age_days : Z) :
  Glob.plain pattern = true ->
  Os.is_dir_node (Os.node_at (fs w) directory) = true ->
  let now := clock E (ticks w) in
  let cutoff := (posix now - inject_Z (max_age_days * 24 * 60 * 60))%Q in
  exists found : list (path * node),
    SessionStart.find_recent_files E directory pattern max_age_days w
    = (Ret found.*1, tick w)
    /\ StronglySorted (fun a b => (Os.st_mtime b.2 <= Os.st_mtime a.2)%Q) found
    /\ (forall p n,
          (p, n) ∈ found
          <-> fs w !! p = Some n /\ p <> [] /\ PathLib.parent p = directory
              /\ Glob.fnmatch pattern (PathLib.name p) = true
              /\ Os.is_file_node (Some n) = true
              /\ (cutoff <= Os.st_mtime n)%Q)
    /\ (forall mtime,
          (cutoff <= mtime)%Q
          <-> Utils.too_old (inject_Z max_age_days) now mtime = false)
    /\ (forall w0, Os.node_at (fs w0) directory = None ->
          SessionStart.find_recent_files E directory pattern max_age_days w0
          = (Ret [], w0)).
Proof.
  intros _ Hdir now cutoff.
  set (key := fun kv : path * node => Os.st_mtime kv.2).
  set (recent := fun kv : path * node =>
                   Os.is_file_node (Some kv.2) = true
                   /\ Qle_bool cutoff (Os.st_mtime kv.2) = true).
  set (listing := filter (fun kv : path * node =>
                            Glob.fnmatch pattern (PathLib.name kv.1) = true)
                         (Os.entries (fs w) directory)).
  exists (sort_newest key (filter recent listing)). split_and!.
  - unfold SessionStart.find_recent_files.
    unfold mbind at 1, M_bind at 1, Os.exists_.
    rewrite bool_decide_eq_true_2
      by (destruct (Os.node_at (fs w) directory); [eauto|discriminate]).
    cbv beta iota delta [negb].
    unfold mbind at 1, M_bind at 1, Os.now. cbv beta iota.
    unfold mbind at 1, M_bind at 1, Os.glob. cbv beta iota.
    change (fs (tick w)) with (fs w). rewrite Hdir. reflexivity.
  - apply sort_newest_sorted.
  - intros p n. rewrite elem_of_sort_newest.
    unfold recent, listing. rewrite !list_elem_of_filter, elem_of_entries.
    cbn [fst snd]. rewrite Qle_bool_iff. tauto.
  - intros mtime. unfold cutoff. rewrite too_old_false.
    apply cutoff_is_age_limit.
  - intros w0 Hnone. unfold SessionStart.find_recent_files.
    unfold mbind at 1, M_bind at 1, Os.exists_.
    rewrite Hnone, bool_decide_eq_false_2 by (intros [? ?]; discriminate).
    reflexivity.
Qed.

End session_start.

(** The markers of one, eight and thirty days against the seven days of the
    hook. *)
Lemma find_recent_files_keeps_recent_witness :
  let E := Scenario.base_env in
  let w := Scenario.world_of Scenario.aged in
  let directory := Scenario.sessions_dir in
  let now := clock E (ticks w) in
  let cutoff := (posix now - inject_Z (7 * 24 * 60 * 60))%Q in
  exists found : list (path * node),
    SessionStart.find_recent_files E directory "*-session.tmp" 7 w
    = (Ret found.*1, tick w)
    /\ StronglySorted (fun a b => (Os.st_mtime b.2 <= Os.st_mtime a.2)%Q) found
    /\ (forall p n,
          (p, n) ∈ found
          <-> fs w !! p = Some n /\ p <> [] /\ PathLib.parent p = directory
              /\ Glob.fnmatch "*-session.tmp" (PathLib.name p) = true
              /\ Os.is_file_node (Some n) = true
              /\ (cutoff <= Os.st_mtime n)%Q)
    /\ (forall mtime,
          (cutoff <= mtime)%Q
          <-> Utils.too_old (inject_Z 7) now mtime = false)
    /\ (forall w0, Os.node_at (fs w0) directory = None ->
          SessionStart.find_recent_files E directory "*-session.tmp" 7 w0
          = (Ret [], w0)).
Proof.
  intros E w directory.
  assert (Glob.plain "*-session.tmp" = true) as Hplain
    by (vm_compute; reflexivity).
  assert (Os.is_dir_node (Os.node_at (fs w) directory) = true) as Hdir
    by (vm_compute; reflexivity).
  exact (find_recent_files_keeps_recent E w directory "*-session.tmp" 7
           Hplain Hdir).
Defined.

(** ** The entry points that catch every error *)

Section entry_points.
Context `{PyRuntime} (E : env).

#[local] Abbreviation tame := Outcome.tame.

Lemma tame_ret {A} (a : A) : tame (mret a).
Proof. intros w. exact I. Qed.

Lemma tame_bind {A B} (m : M A) (f : A -> M B) :
  tame m -> (forall a, tame (f a)) -> tame (m ≫= f).
Proof.
  intros Hm Hf w. unfold mbind, M_bind. specialize (Hm w).
  destruct (m w) as [[a|e] w']; simpl in *; [apply Hf|assumption].
Qed.

Lemma tame_try {A} (m : M A) handles h :
  tame m -> (forall e, tame (h e)) -> tame (try_except m handles h).
Proof.
  intros Hm Hh w. unfold try_except. specialize (Hm w).
  destruct (m w) as [[a|e] w']; simpl in *; [exact I|].
  destruct (handles e); [apply Hh|assumption].
Qed.

Lemma tame_lift_int s : tame (lift (Py.int s)).
Proof.
  intros w. destruct (Py.int s) as [e|n] eqn:Hint; [|exact I].
  apply int_error in Hint as ->. reflexivity.
Qed.

Lemma tame_lift_str_int n : tame (lift (Py.str_int n)).
Proof.
  intros w. unfold Py.str_int. destruct (_ <? _); [reflexivity|exact I].
Qed.

Lemma tame_eprint line : tame (eprint line).
Proof. intros w. exact I. Qed.

Lemma tame_now : tame (Os.now E).
Proof. intros w. exact I. Qed.

Lemma tame_exists p : tame (Os.exists_ p).
Proof. intros w. exact I. Qed.

Lemma tame_glob d pattern : tame (Os.glob d pattern).
Proof. intros w. exact I. Qed.

Lemma tame_read_text p : tame (Os.read_text p).
Proof.
  intros w. unfold Os.read_text.
  destruct (Os.node_at _ _) as [[]|]; reflexivity.
Qed.

Lemma tame_mkdir p : tame (Os.mkdir E p).
Proof. intros w. unfold Os.mkdir. destruct (Os.blocking _ _); reflexivity. Qed.

Lemma tame_append_text p text : tame (Os.append_text E p text).
Proof.
  intros w. unfold Os.append_text. destruct (Os.open_error _ _); reflexivity.
Qed.

Lemma tame_write_text p text : tame (Os.write_text E p text).
Proof.
  intros w. unfold Os.write_text. destruct (Os.open_error _ _); reflexivity.
Qed.

Lemma tame_append_text_opened p text : tame (Os.append_text_opened E p text).
Proof.
  intros w. unfold Os.append_text_opened.
  destruct (Os.open_error (fs w) p); [reflexivity|].
  apply (tame_bind (Os.now E) (fun t => Os.append_text E p (text t)));
    [apply tame_now|intros t; apply tame_append_text].
Qed.

Lemma tame_find_recent_files d pattern days :
  tame (SessionStart.find_recent_files E d pattern days).
Proof.
  unfold SessionStart.find_recent_files.
  apply tame_bind; [apply tame_exists|]. intros present.
  destruct (negb present); [apply tame_ret|].
  apply tame_bind; [apply tame_now|]. intros t.
  apply tame_bind; [apply tame_glob|]. intros listing. apply tame_ret.
Qed.

(** An entry point whose body is tame always returns: it either is the
    body, or the body's error turned into one printed line. *)
Lemma run_catches (main : M unit) (prefix : string) (w : world) :
  tame main ->
  try_except main is_Exception (fun e => eprint (prefix +:+ exn_str e)) w
  = match main w with
    | (Ret _, w') => (Ret tt, w')
    | (Raise e, w') => (Ret tt, with_line (prefix +:+ exn_str e) w')
    end.
Proof.
  intros Hmain. unfold try_except. specialize (Hmain w).
  destruct (main w) as [[[]|e] w']; simpl in *; [reflexivity|].
  rewrite Hmain. reflexivity.
Qed.

End entry_points.

Create HintDb tame.

#[local] Hint Resolve tame_ret tame_lift_int tame_lift_str_int tame_eprint
  tame_now tame_exists
  tame_glob tame_read_text tame_mkdir tame_append_text tame_write_text
  tame_append_text_opened tame_find_recent_files : tame.

(** Decompose an action and show that no part leaves through [sys.exit]. *)
Ltac tame :=
  repeat first
    [ apply tame_bind; [|intros ?]
    | apply tame_try; [|intros ?]
    | progress eauto with tame
    | match goal with
      | |- Outcome.tame (if ?b then _ else _) => destruct b
      | |- Outcome.tame (match ?x with _ => _ end) => destruct x
      | |- Outcome.tame (when ?b _) => destruct b; unfold when
      end ].

Section hooks_return.
Context `{PyRuntime} (E : env).

Lemma tame_session_start : Outcome.tame (SessionStart.main E).
Proof. unfold SessionStart.main, SessionStart.is_poetry_project. tame. Qed.

Lemma tame_session_end : Outcome.tame (SessionEnd.main E).
Proof. unfold SessionEnd.main. tame. Qed.

Lemma tame_pre_compact : Outcome.tame (PreCompact.main E).
Proof. unfold PreCompact.main. tame. Qed.

Lemma tame_evaluate_hook : Outcome.tame (EvaluateHook.main E).
Proof. unfold EvaluateHook.main. tame. Qed.

Lemma tame_suggest_compact : Outcome.tame (SuggestCompact.main E).
Proof.
  unfold SuggestCompact.main, SuggestCompact.read_threshold,
    SuggestCompact.check.
  tame.
Qed.

(** The session hooks never fail: each entry point returns normally in
    every world, as its body does when that returns, and otherwise with the
    body's error turned into one line on the diagnostic stream and nothing
    else done after the point of failure. *)
Theorem session_hooks_never_fail (w : world) :
  let caught (main : M unit) (prefix : string) : outcome unit * world :=
    match main w with
    | (Ret _, w') => (Ret tt, w')
    | (Raise e, w') => (Ret tt, with_line (prefix +:+ exn_str e) w')
    end in
  SessionStart.run E w = caught (SessionStart.main E) "[SessionStart] Error: "
  /\ SessionEnd.run E w = caught (SessionEnd.main E) "[SessionEnd] Error: "
  /\ PreCompact.run E w = caught (PreCompact.main E) "[PreCompact] Error: "
  /\ EvaluateHook.run E w
     = caught (EvaluateHook.main E) "[EvaluateSession] Error: "
  /\ (SessionStart.run E w).1 = Ret tt
  /\ (SessionEnd.run E w).1 = Ret tt
  /\ (PreCompact.run E w).1 = Ret tt
  /\ (EvaluateHook.run E w).1 = Ret tt.
Proof.
  intros caught.
  pose proof (run_catches (SessionStart.main E) "[SessionStart] Error: " w
                tame_session_start) as Hstart.
  pose proof (run_catches (SessionEnd.main E) "[SessionEnd] Error: " w
                tame_session_end) as Hend.
  pose proof (run_catches (PreCompact.main E) "[PreCompact] Error: " w
                tame_pre_compact) as Hpre.
  pose proof (run_catches (EvaluateHook.main E) "[EvaluateSession] Error: " w
                tame_evaluate_hook) as Heval.
  unfold SessionStart.run, SessionEnd.run, PreCompact.run, EvaluateHook.run.
  rewrite Hstart, Hend, Hpre, Heval. unfold caught.
  split_and!; try reflexivity.
  - destruct (SessionStart.main E w) as [[[]|e] w']; reflexivity.
  - destruct (SessionEnd.main E w) as [[[]|e] w']; reflexivity.
  - destruct (PreCompact.main E w) as [[[]|e] w']; reflexivity.
  - destruct (EvaluateHook.main E w) as [[[]|e] w']; reflexivity.
Qed.

(** Nor does the tool-count hook: in every world and with any value of
    [COMPACT_THRESHOLD] or of the counter file, its entry point returns
    normally. *)
Theorem suggest_compact_never_fails (w : world) :
  SuggestCompact.run E w
  = match SuggestCompact.main E w with
    | (Ret _, w') => (Ret tt, w')
    | (Raise e, w') =>
        (Ret tt, with_line ("[StrategicCompact] Error: " +:+ exn_str e) w')
    end
  /\ (SuggestCompact.run E w).1 = Ret tt.
Proof.
  pose proof (run_catches (SuggestCompact.main E) "[StrategicCompact] Error: " w
                tame_suggest_compact) as Hrun.
  unfold SuggestCompact.run. rewrite Hrun. split; [reflexivity|].
  destruct (SuggestCompact.main E w) as [[[]|e] w']; reflexivity.
Qed.

End hooks_return.

(** ** The sessions and learned-skills directories *)

Section state_directories.
Context (E : env).
Implicit Types (m : gmap path node) (p q : path).

Let sessions : path := home E ++ [".claude"; "sessions"].
Let learned : path := home E ++ [".claude"; "skills"; "learned"].

Lemma sessions_not_on_the_way : sessions ∉ Os.prefixes learned.
Proof.
  unfold Os.prefixes. intros (n & Heq & Hn)%list_elem_of_fmap.
  assert (n = length (home E) + 2)%nat as ->.
  { apply (f_equal length) in Heq. unfold sessions, learned in Heq.
    rewrite length_take, !length_app in Heq. simpl in Heq. lia. }
  unfold sessions, learned in Heq. rewrite take_app_add in Heq.
  apply app_inv_head in Heq. discriminate.
Qed.

Lemma child_of_sessions_not_on_the_way s :
  sessions ++ [s] ∉ Os.prefixes learned.
Proof.
  unfold Os.prefixes. intros (n & Heq & Hn)%list_elem_of_fmap.
  assert (n = length (home E) + 3)%nat as ->.
  { apply (f_equal length) in Heq. unfold sessions, learned in Heq.
    apply elem_of_seq in Hn. unfold learned in Hn.
    rewrite length_take, !length_app in Heq. rewrite !length_app in Hn.
    simpl in Heq, Hn. lia. }
  unfold sessions, learned in Heq. rewrite take_app_add, <- app_assoc in Heq.
  apply app_inv_head in Heq. discriminate.
Qed.

(** Making the learned-skills directory makes neither the sessions
    directory nor anything in it. *)
Lemma learned_leaves_sessions t m :
  Os.node_at (Os.make_dirs t m learned) sessions = Os.node_at m sessions
  /\ forall s, Os.node_at (Os.make_dirs t m learned) (sessions ++ [s])
               = Os.node_at m (sessions ++ [s]).
Proof.
  split; [|intros s]; rewrite make_dirs_node_at.
  - destruct (Os.node_at m sessions); [reflexivity|].
    rewrite bool_decide_eq_false_2; [reflexivity|].
    apply sessions_not_on_the_way.
  - destruct (Os.node_at m (sessions ++ [s])); [reflexivity|].
    rewrite bool_decide_eq_false_2; [reflexivity|].
    apply child_of_sessions_not_on_the_way.
Qed.

End state_directories.

(** ** The session-evaluation hook *)

Section evaluate_hook.
Context `{PyRuntime} (E : env).
Implicit Types (m : gmap path node) (p q : path).

Let sessions : path := home E ++ [".claude"; "sessions"].
Let learned : path := home E ++ [".claude"; "skills"; "learned"].
Let elog : path := sessions ++ ["evaluation-log.txt"].

Lemma evaluate_hook_dirs :
  EvaluateHook.get_sessions_dir E = sessions
  /\ EvaluateHook.get_learned_skills_dir E = learned
  /\ sessions // "evaluation-log.txt" = elog.
Proof.
  unfold EvaluateHook.get_sessions_dir, EvaluateHook.get_learned_skills_dir,
    EvaluateHook.get_claude_dir, elog, sessions, learned.
  change ((home E ++ [".claude"; "sessions"]) // "evaluation-log.txt")
    with ((home E ++ [".claude"; "sessions"]) ++ ["evaluation-log.txt"]).
  change (home E // ".claude" // "sessions")
    with ((home E ++ [".claude"]) ++ ["sessions"]).
  change (home E // ".claude" // "skills" // "learned")
    with (((home E ++ [".claude"]) ++ ["skills"]) ++ ["learned"]).
  rewrite <- !app_assoc. split_and!; reflexivity.
Qed.

(** Two file systems with the same entries in a directory list equally many
    entries of any kind there. *)
Lemma entries_count (P : path * node -> Prop) `{forall kv, Decision (P kv)}
    m m' d :
  (forall p n, (p, n) ∈ Os.entries m d <-> (p, n) ∈ Os.entries m' d) ->
  length (filter P (Os.entries m d)) = length (filter P (Os.entries m' d)).
Proof.
  intros Hsame. apply Permutation_length, NoDup_Permutation.
  - apply NoDup_filter. unfold Os.entries.
    apply NoDup_filter, NoDup_map_to_list.
  - apply NoDup_filter. unfold Os.entries.
    apply NoDup_filter, NoDup_map_to_list.
  - intros [p n]. rewrite !list_elem_of_filter, Hsame. reflexivity.
Qed.

(** Without a sessions directory the evaluation is not logged: the hook
    makes the learned-skills directory, fails to open the log, whose
    directory it never makes, and says so in one line. *)
Theorem evaluation_needs_sessions_directory (w : world) :
  let sessions_dir := EvaluateHook.get_sessions_dir E in
  let learned_dir := EvaluateHook.get_learned_skills_dir E in
  let evaluation_log := sessions_dir // "evaluation-log.txt" in
  Os.blocking (fs w) learned_dir = None ->
  Os.node_at (fs w) sessions_dir = None ->
  Os.node_at (fs w) evaluation_log = None ->
  let r := EvaluateHook.run E w in
  r.1 = Ret tt
  /\ drop (length (stderr w)) (stderr r.2)
     = ["[EvaluateSession] Error: "
        +:+ exn_str (OSError ENOENT evaluation_log)]
  /\ Trace.added w r.2 = [EvMkdir learned_dir]
  /\ Os.node_at (fs r.2) sessions_dir = None
  /\ Os.node_at (fs r.2) evaluation_log = None
  /\ Os.is_dir_node (Os.node_at (fs r.2) learned_dir) = true.
Proof.
  intros sessions_dir learned_dir evaluation_log.
  subst sessions_dir learned_dir evaluation_log.
  destruct evaluate_hook_dirs as (-> & -> & ->).
  intros Hb Hs Hl r.
  set (m1 := Os.make_dirs (Os.stamp E w) (fs w) learned).
  destruct (learned_leaves_sessions E (Os.stamp E w) (fs w)) as [Hs1 Hl1].
  fold sessions learned m1 in Hs1, Hl1.
  assert (r = (Ret tt,
               with_line ("[EvaluateSession] Error: "
                          +:+ exn_str (OSError ENOENT elog))
                 (tick (with_event (EvMkdir learned) (with_fs m1 w))))) as ->.
  { subst r. unfold EvaluateHook.run, try_except, EvaluateHook.main.
    destruct evaluate_hook_dirs as (-> & -> & ->).
    unfold mbind, M_bind, Os.mkdir. rewrite Hb.
    unfold Os.now, Os.append_text, Os.open_error. wproj. fold m1.
    unfold elog at 1 2. rewrite Hl1, parent_snoc, Hs1. fold elog.
    rewrite Hl, Hs. reflexivity. }
  wproj. split_and!.
  - reflexivity.
  - apply drop_app_length.
  - apply added_app. reflexivity.
  - rewrite Hs1. exact Hs.
  - unfold elog. rewrite Hl1. exact Hl.
  - apply make_dirs_is_dir, Hb.
Qed.


End evaluate_hook.

(** A home directory without [.claude]. *)
Lemma evaluation_needs_sessions_directory_witness :
  let E := Scenario.base_env in
  let w := Scenario.world_of {[ ["home"] := Dir 0; ["home"; "dev"] := Dir 0 ]} in
  let sessions_dir := EvaluateHook.get_sessions_dir E in
  let learned_dir := EvaluateHook.get_learned_skills_dir E in
  let evaluation_log := sessions_dir // "evaluation-log.txt" in
  let r := EvaluateHook.run E w in
  r.1 = Ret tt
  /\ drop (length (stderr w)) (stderr r.2)
     = ["[EvaluateSession] Error: "
        +:+ exn_str (OSError ENOENT evaluation_log)]
  /\ Trace.added w r.2 = [EvMkdir learned_dir]
  /\ Os.node_at (fs r.2) sessions_dir = None
  /\ Os.node_at (fs r.2) evaluation_log = None
  /\ Os.is_dir_node (Os.node_at (fs r.2) learned_dir) = true.
Proof.
  intros E w sessions_dir learned_dir evaluation_log.
  assert (Os.blocking (fs w) learned_dir = None) as Hb
    by (vm_compute; reflexivity).
  assert (Os.node_at (fs w) sessions_dir = None) as Hs
    by (vm_compute; reflexivity).
  assert (Os.node_at (fs w) evaluation_log = None) as Hl
    by (vm_compute; reflexivity).
  exact (evaluation_needs_sessions_directory E w Hb Hs Hl).
Defined.

Example evaluation_without_sessions_directory :
  let w := Scenario.world_of {[ ["home"] := Dir 0; ["home"; "dev"] := Dir 0 ]} in
  stderr (EvaluateHook.run Scenario.base_env w).2
  = ["[EvaluateSession] Error: [Errno 2] No such file or directory: '/home/dev/.claude/sessions/evaluation-log.txt'"].
Proof. vm_compute. reflexivity. Qed.


Example evaluation_with_one_skill :
  let skills := ["home"; "dev"; ".claude"; "skills"] in
  let w := Scenario.world_of
             (<[skills ++ ["learned"; "tdd.md"] := File "# tdd" 0]>
                (<[skills ++ ["learned"] := Dir 0]>
                   (<[skills := Dir 0]> Scenario.aged))) in
  let r := EvaluateHook.main Scenario.base_env w in
  stderr r.2
  = ["[EvaluateSession] Session evaluated - 1 learned skills in library";
     "[EvaluateSession] Use /learn command to manually extract patterns"]
  /\ Os.old_data (fs r.2) (Scenario.sessions_dir ++ ["evaluation-log.txt"])
     = "[2025-03-14 12:30:05] Session evaluation triggered" +:+ PyStr.nl.
Proof. cbv zeta. split; vm_compute; reflexivity. Qed.

(** ** What the session-start hook reports *)

Section session_start_report.
Context `{PyRuntime} (E : env).
Implicit Types (m : gmap path node) (p q : path) (w : world).

Let sessions : path := home E ++ [".claude"; "sessions"].
Let learned : path := home E ++ [".claude"; "skills"; "learned"].

(** The character that follows the tag [[SessionStart] ] of a line. *)
Let mark (line : string) : option ascii := String.get 15 line.

Lemma session_start_dirs :
  SessionStart.get_sessions_dir E = sessions
  /\ SessionStart.get_learned_skills_dir E = learned.
Proof.
  unfold SessionStart.get_sessions_dir, SessionStart.get_learned_skills_dir,
    SessionStart.get_claude_dir, sessions, learned.
  change (home E // ".claude" // "sessions")
    with ((home E ++ [".claude"]) ++ ["sessions"]).
  change (home E // ".claude" // "skills" // "learned")
    with (((home E ++ [".claude"]) ++ ["skills"]) ++ ["learned"]).
  rewrite <- !app_assoc. split; reflexivity.
Qed.

(** The numeral of a natural number starts with a digit. *)
Lemma pretty_nat_head (n : nat) :
  exists c rest, pretty n = String c rest /\ Py.is_digit c = true.
Proof.
  change (pretty n) with (pretty (N.of_nat n)).
  assert (PyStr.every Py.is_digit (pretty (N.of_nat n)) = true) as Hall
    by (apply every_pretty_N; intros d; apply digit_char).
  destruct (pretty (N.of_nat n)) as [|c rest] eqn:Hp.
  - exfalso. unfold pretty, pretty_N in Hp. case_decide; [discriminate|].
    destruct (digits_go_pretty_N_go (N.of_nat n) ltac:(lia)) as [k Hk].
    specialize (Hk "" 0 false). rewrite Hp in Hk. discriminate.
  - simpl in Hall. apply andb_true_iff in Hall as [Hc _]. eauto.
Qed.

Lemma mark_learned_line skills d :
  exists c, mark (SessionStart.learned_line skills d) = Some c
            /\ Py.is_digit c = true.
Proof.
  unfold SessionStart.learned_line.
  destruct (pretty_nat_head (length skills)) as (c & rest & -> & Hc).
  exists c. split; [reflexivity|exact Hc].
Qed.

(** [find_recent_files] returns and changes only the clock. *)
Lemma find_recent_files_reads d pattern days w :
  exists files w',
    SessionStart.find_recent_files E d pattern days w = (Ret files, w')
    /\ fs w' = fs w /\ stderr w' = stderr w /\ trace w' = trace w.
Proof.
  unfold SessionStart.find_recent_files, mbind, M_bind, Os.exists_, Os.now,
    Os.glob.
  destruct (negb _); eexists _, _; (split; [reflexivity|]); auto.
Qed.

(** The lines about the project, read off a file system. *)
Let project_lines m : list string :=
  let there (name : string) :=
    bool_decide (is_Some (Os.node_at m (cwd E // name))) in
  if there "pyproject.toml"
  then SessionStart.poetry_line
       :: (if there "poetry.lock" then [SessionStart.lock_line] else [])
  else if there "requirements.txt" then [SessionStart.requirements_line]
       else [].

(** One run of [main] where both directories can be made: the lines about
    sessions, those about learned skills, and those about the project. *)
Lemma session_start_run w :
  Os.blocking (fs w) sessions = None ->
  Os.blocking (fs w) learned = None ->
  exists w' about_sessions about_skills,
    SessionStart.main E w = (Ret tt, w')
    /\ fs w' = Os.make_dirs (Os.stamp E w)
                 (Os.make_dirs (Os.stamp E w) (fs w) sessions) learned
    /\ trace w' = trace w ++ [EvMkdir sessions; EvMkdir learned]
    /\ stderr w'
       = stderr w ++ about_sessions ++ about_skills ++ project_lines (fs w')
    /\ Forall (fun line => mark line = Some "F"%char
                           \/ mark line = Some "L"%char) about_sessions
    /\ Forall (fun line => exists c, mark line = Some c
                                     /\ Py.is_digit c = true) about_skills.
Proof.
  intros Hbs Hbl. unfold SessionStart.main.
  destruct session_start_dirs as [-> ->].
  unfold mbind at 1, M_bind at 1, Os.mkdir. rewrite Hbs.
  set (t := Os.stamp E w).
  set (m1 := Os.make_dirs t (fs w) sessions).
  unfold mbind at 1, M_bind at 1. wproj.
  rewrite (blocking_make_dirs t _ _ sessions Hbl : Os.blocking m1 learned = None).
  change (Os.stamp E (with_event (EvMkdir sessions) (with_fs m1 w))) with t.
  set (m2 := Os.make_dirs t m1 learned).
  set (w2 := with_event (EvMkdir learned) _).
  assert (fs w2 = m2) as Hfs2 by reflexivity.
  assert (trace w2 = trace w ++ [EvMkdir sessions; EvMkdir learned]) as Htr2
    by (unfold w2; wproj; rewrite <- app_assoc; reflexivity).
  assert (stderr w2 = stderr w) as Herr2 by reflexivity.
  clearbody w2.
  unfold mbind at 1, M_bind at 1.
  destruct (find_recent_files_reads sessions "*-session.tmp" 7 w2)
    as (files & w3 & -> & Hfs3 & Herr3 & Htr3).
  rewrite Hfs2 in Hfs3. rewrite Herr2 in Herr3. rewrite Htr2 in Htr3.
  clear Hfs2 Htr2 Herr2.
  assert (exists w4 about_sessions,
    (match files with
     | latest :: _ =>
         eprint (SessionStart.found_line files);;
         eprint (SessionStart.latest_line latest)
     | [] => mret tt
     end) w3 = (Ret tt, w4)
    /\ fs w4 = m2 /\ trace w4 = trace w3
    /\ stderr w4 = stderr w3 ++ about_sessions
    /\ Forall (fun line => mark line = Some "F"%char
                           \/ mark line = Some "L"%char) about_sessions)
    as (w4 & about_sessions & Hrun4 & Hfs4 & Htr4 & Herr4 & Hmarks4).
  { destruct files as [|latest files'].
    - exists w3, []. rewrite app_nil_r. split_and!; auto.
    - eexists _, [_; _]. split; [reflexivity|]. wproj.
      rewrite <- app_assoc. split_and!; auto. }
  unfold mbind at 1, M_bind at 1. rewrite Hrun4.
  unfold mbind at 1, M_bind at 1, Os.glob. cbv beta iota. rewrite Hfs4.
  set (skills := if Os.is_dir_node (Os.node_at m2 learned) then _ else []).
  assert (exists w5 about_skills,
    (match skills with
     | _ :: _ => eprint (SessionStart.learned_line skills learned)
     | [] => mret tt
     end) w4 = (Ret tt, w5)
    /\ fs w5 = m2 /\ trace w5 = trace w4
    /\ stderr w5 = stderr w4 ++ about_skills
    /\ Forall (fun line => exists c, mark line = Some c
                                     /\ Py.is_digit c = true) about_skills)
    as (w5 & about_skills & Hrun5 & Hfs5 & Htr5 & Herr5 & Hmarks5).
  { destruct skills as [|skill skills'] eqn:Hskills.
    - exists w4, []. rewrite app_nil_r. split_and!; auto.
    - eexists _, [_]. split; [reflexivity|]. wproj. split_and!; auto.
      repeat constructor. apply mark_learned_line. }
  unfold mbind at 1, M_bind at 1. rewrite Hrun5.
  assert (exists w6,
    (poetry ← SessionStart.is_poetry_project E (Some (cwd E));
     if poetry : bool
     then
       eprint SessionStart.poetry_line;;
       locked ← Os.exists_ (cwd E // "poetry.lock");
       when locked (eprint SessionStart.lock_line)
     else
       pip ← Os.exists_ (cwd E // "requirements.txt");
       when pip (eprint SessionStart.requirements_line)) w5 = (Ret tt, w6)
    /\ fs w6 = m2 /\ trace w6 = trace w5
    /\ stderr w6 = stderr w5 ++ project_lines m2)
    as (w6 & -> & Hfs6 & Htr6 & Herr6).
  { unfold project_lines, SessionStart.is_poetry_project, mbind, M_bind,
      Os.exists_, when, eprint.
    cbn [default from_option id]. rewrite Hfs5.
    destruct (bool_decide (is_Some (Os.node_at m2 (cwd E // "pyproject.toml")))).
    - wproj. rewrite Hfs5.
      destruct (bool_decide (is_Some (Os.node_at m2 (cwd E // "poetry.lock"))));
        eexists; (split; [reflexivity|]); wproj; rewrite <- ?app_assoc; auto.
    - cbv beta iota. rewrite Hfs5.
      destruct (bool_decide
                  (is_Some (Os.node_at m2 (cwd E // "requirements.txt"))));
        eexists; (split; [reflexivity|]); wproj; rewrite ?app_nil_r; auto. }
  exists w6, about_sessions, about_skills. rewrite Hfs6.
  split_and!; auto.
  - congruence.
  - rewrite Herr6, Herr5, Herr4, Herr3, <- !app_assoc. reflexivity.
Qed.

Lemma project_line_place line c (about_sessions about_skills rest : list string) :
  mark line = Some c ->
  c <> "F"%char -> c <> "L"%char -> Py.is_digit c = false ->
  Forall (fun line => mark line = Some "F"%char
                      \/ mark line = Some "L"%char) about_sessions ->
  Forall (fun line => exists c, mark line = Some c
                                /\ Py.is_digit c = true) about_skills ->
  line ∈ about_sessions ++ about_skills ++ rest <-> line ∈ rest.
Proof.
  intros Hmark HF HL Hdigit Hsessions Hskills.
  rewrite !elem_of_app. split; [|auto].
  intros [Hin|[Hin|Hin]]; [| |exact Hin]; exfalso.
  - rewrite Forall_forall in Hsessions.
    destruct (Hsessions _ Hin) as [Hm|Hm]; congruence.
  - rewrite Forall_forall in Hskills.
    destruct (Hskills _ Hin) as (c' & Hm & Hc'). congruence.
Qed.

(** The session-start hook only makes its two directories and reads: where
    both can be made it returns normally, creates or changes no file, and
    leaves every node as it was.  Of the project it reports Poetry exactly
    when [pyproject.toml] exists in the working directory, the lock file
    exactly when [poetry.lock] exists as well, and a pip project exactly when
    there is no [pyproject.toml] but a [requirements.txt]. *)
Theorem session_start_reports_project (w : world) :
  let sessions_dir := SessionStart.get_sessions_dir E in
  let learned_dir := SessionStart.get_learned_skills_dir E in
  Os.blocking (fs w) sessions_dir = None ->
  Os.blocking (fs w) learned_dir = None ->
  let r := SessionStart.main E w in
  let printed := drop (length (stderr w)) (stderr r.2) in
  let there (name : string) : Prop :=
    is_Some (Os.node_at (fs r.2) (cwd E // name)) in
  r.1 = Ret tt
  /\ Trace.added w r.2 = [EvMkdir sessions_dir; EvMkdir learned_dir]
  /\ (forall q n, Os.node_at (fs w) q = Some n -> Os.node_at (fs r.2) q = Some n)
  /\ (SessionStart.poetry_line ∈ printed <-> there "pyproject.toml")
  /\ (SessionStart.lock_line ∈ printed
      <-> there "pyproject.toml" /\ there "poetry.lock")
  /\ (SessionStart.requirements_line ∈ printed
      <-> ~ there "pyproject.toml" /\ there "requirements.txt").
Proof.
  intros sessions_dir learned_dir. subst sessions_dir learned_dir.
  destruct session_start_dirs as [-> ->].
  intros Hbs Hbl r printed there.
  destruct (session_start_run w Hbs Hbl)
    as (w' & about_sessions & about_skills & Hrun & Hfs & Htr & Herr
        & Hsessions & Hskills).
  subst printed there r. rewrite Hrun. cbn [fst snd].
  rewrite Herr, drop_app_length.
  assert (forall line c,
    mark line = Some c -> c <> "F"%char -> c <> "L"%char ->
    Py.is_digit c = false ->
    line ∈ about_sessions ++ about_skills ++ project_lines (fs w')
    <-> line ∈ project_lines (fs w')) as Hplace.
  { intros line c ? ? ? ?.
    apply (project_line_place line c); assumption. }
  rewrite (Hplace SessionStart.poetry_line "P"%char)
    by (reflexivity || discriminate).
  rewrite (Hplace SessionStart.lock_line "p"%char)
    by (reflexivity || discriminate).
  rewrite (Hplace SessionStart.requirements_line "r"%char)
    by (reflexivity || discriminate).
  split_and!.
  - reflexivity.
  - apply added_app, Htr.
  - intros q n Hn. rewrite Hfs. do 2 apply make_dirs_keeps. exact Hn.
  - unfold project_lines.
    destruct (bool_decide_reflect
                (is_Some (Os.node_at (fs w') (cwd E // "pyproject.toml"))))
      as [Hp|Hp].
    + split; [auto|]. intros _. apply list_elem_of_here.
    + split; [|contradiction]. intros Hin. exfalso.
      destruct (bool_decide _);
        [apply list_elem_of_singleton in Hin; discriminate|inversion Hin].
  - unfold project_lines.
    destruct (bool_decide_reflect
                (is_Some (Os.node_at (fs w') (cwd E // "pyproject.toml"))))
      as [Hp|Hp];
      destruct (bool_decide_reflect
                  (is_Some (Os.node_at (fs w') (cwd E // "poetry.lock"))))
        as [Hl|Hl].
    + split; [auto|]. intros _.
      apply list_elem_of_further, list_elem_of_here.
    + split; [|tauto]. intros Hin. exfalso.
      apply list_elem_of_singleton in Hin. discriminate.
    + split; [|tauto]. intros Hin. exfalso.
      destruct (bool_decide _);
        [apply list_elem_of_singleton in Hin; discriminate|inversion Hin].
    + split; [|tauto]. intros Hin. exfalso.
      destruct (bool_decide _);
        [apply list_elem_of_singleton in Hin; discriminate|inversion Hin].
  - unfold project_lines.
    destruct (bool_decide_reflect
                (is_Some (Os.node_at (fs w') (cwd E // "pyproject.toml"))))
      as [Hp|Hp];
      destruct (bool_decide_reflect
                  (is_Some (Os.node_at (fs w') (cwd E // "requirements.txt"))))
        as [Hq|Hq].
    + split; [|tauto]. intros Hin. exfalso.
      apply elem_of_cons in Hin as [Hin|Hin]; [discriminate|].
      destruct (bool_decide _);
        [apply list_elem_of_singleton in Hin; discriminate|inversion Hin].
    + split; [|tauto]. intros Hin. exfalso.
      apply elem_of_cons in Hin as [Hin|Hin]; [discriminate|].
      destruct (bool_decide _);
        [apply list_elem_of_singleton in Hin; discriminate|inversion Hin].
    + split; [intros _; split; assumption|]. intros _.
      apply list_elem_of_here.
    + split; [intros Hin; inversion Hin|tauto].
Qed.

End session_start_report.

(** A Poetry project with a lock file and a [requirements.txt] beside it:
    the pip project is not reported. *)
Lemma session_start_reports_project_witness :
  let E := Scenario.base_env in
  let w := Scenario.world_of
             (<[["work"; "requirements.txt"] := File "" 0]>
                (<[["work"; "poetry.lock"] := File "" 0]>
                   (<[["work"; "pyproject.toml"] := File "" 0]>
                      (<[["work"] := Dir 0]> Scenario.aged)))) in
  let sessions_dir := SessionStart.get_sessions_dir E in
  let learned_dir := SessionStart.get_learned_skills_dir E in
  let r := SessionStart.main E w in
  let printed := drop (length (stderr w)) (stderr r.2) in
  let there (name : string) : Prop :=
    is_Some (Os.node_at (fs r.2) (cwd E // name)) in
  r.1 = Ret tt
  /\ Trace.added w r.2 = [EvMkdir sessions_dir; EvMkdir learned_dir]
  /\ (forall q n, Os.node_at (fs w) q = Some n -> Os.node_at (fs r.2) q = Some n)
  /\ (SessionStart.poetry_line ∈ printed <-> there "pyproject.toml")
  /\ (SessionStart.lock_line ∈ printed
      <-> there "pyproject.toml" /\ there "poetry.lock")
  /\ (SessionStart.requirements_line ∈ printed
      <-> ~ there "pyproject.toml" /\ there "requirements.txt").
Proof.
  intros E w sessions_dir learned_dir.
  assert (Os.blocking (fs w) sessions_dir = None) as Hbs
    by (vm_compute; reflexivity).
  assert (Os.blocking (fs w) learned_dir = None) as Hbl
    by (vm_compute; reflexivity).
  exact (session_start_reports_project E w Hbs Hbl).
Defined.

Example session_start_in_a_poetry_project :
  let w := Scenario.world_of
             (<[["work"; "requirements.txt"] := File "" 0]>
                (<[["work"; "poetry.lock"] := File "" 0]>
                   (<[["work"; "pyproject.toml"] := File "" 0]>
                      (<[["work"] := Dir 0]> Scenario.aged)))) in
  stderr (SessionStart.main Scenario.base_env w).2
  = ["[SessionStart] Found 1 recent session(s)";
     "[SessionStart] Latest: /home/dev/.claude/sessions/a-session.tmp";
     "[SessionStart] Poetry project detected";
     "[SessionStart] poetry.lock found - dependencies are locked"].
Proof. vm_compute. reflexivity. Qed.

(** ** The evaluation gate without a transcript or with a bad
    configuration *)

Section gate_edges.
Context `{PyRuntime} (E : env).

(** The configuration file must hold a json object: with any other
    document in it, a list or a number say, the gate stops with an
    [AttributeError] at its first look into the configuration, before it
    creates or prints anything; nothing catches the error. *)
Theorem config_must_be_an_object (w : world) (text : string) (mtime : Q)
    (v : pyval) :
  Os.node_at (fs w) (EvaluateSession.get_config_dir E // "config.json")
  = Some (File text mtime) ->
  json_loads text = Some v ->
  Py.is_dict v = false ->
  EvaluateSession.load_config E w = (Ret v, w)
  /\ EvaluateSession.main E w = (Raise (AttributeError v), w).
Proof.
  intros Hfile Hload Hdict.
  assert (EvaluateSession.load_config E w = (Ret v, w)) as Hconfig.
  { unfold EvaluateSession.load_config, mbind, M_bind, Os.exists_, try_except,
      Os.read_text.
    rewrite Hfile, bool_decide_eq_true_2 by eauto.
    rewrite Hfile, Hload. reflexivity. }
  split; [exact Hconfig|].
  unfold EvaluateSession.main. unfold mbind at 1, M_bind at 1.
  rewrite Hconfig. unfold mbind at 1, M_bind at 1.
  destruct v; try discriminate; reflexivity.
Qed.

(** Without a transcript the gate is silent: when
    [CLAUDE_TRANSCRIPT_PATH] is unset or empty, or names a path that does not
    exist, the gate leaves through [sys.exit(0)] once the learned-skills
    directory is made; it prints nothing, counts nothing and does not look at
    the minimum, whatever type that has. *)
Theorem gate_without_transcript (w : world) (config minimum : pyval)
    (dest : path * string) :
  EvaluateSession.load_config E w = (Ret config, w) ->
  Py.get config "min_session_length" (PInt 10) = inr minimum ->
  EvaluateSession.learned_skills_path E config = inr dest ->
  Os.blocking (fs w) dest.1 = None ->
  match environ E !! "CLAUDE_TRANSCRIPT_PATH" with
  | None | Some EmptyString => True
  | Some name =>
      Os.node_at (fs w) (cwd E // name) = None
      /\ cwd E // name ∉ Os.prefixes dest.1
  end ->
  let r := EvaluateSession.main E w in
  r.1 = Raise (SystemExit 0)
  /\ stderr r.2 = stderr w
  /\ Trace.added w r.2 = [EvMkdir dest.1]
  /\ (forall q n, Os.node_at (fs w) q = Some n -> Os.node_at (fs r.2) q = Some n).
Proof.
  intros Hcfg Hmin Hdest Hb Hcase r.
  assert (r = (Raise (SystemExit 0),
               with_event (EvMkdir dest.1)
                 (with_fs (Os.make_dirs (Os.stamp E w) (fs w) dest.1) w)))
    as ->.
  { subst r. unfold EvaluateSession.main.
    unfold mbind at 1, M_bind at 1. rewrite Hcfg.
    unfold mbind at 1, M_bind at 1. rewrite Hmin. simpl lift.
    unfold mret at 1, M_ret at 1. cbv beta iota.
    unfold mbind at 1, M_bind at 1. rewrite Hdest. simpl lift.
    unfold mret at 1, M_ret at 1. cbv beta iota.
    unfold mbind at 1, M_bind at 1, Os.mkdir. rewrite Hb.
    destruct (environ E !! "CLAUDE_TRANSCRIPT_PATH") as [[|c name]|];
      try reflexivity.
    destruct Hcase as [Hnone Hway].
    cbn [default from_option id Py.truthy String.eqb negb].
    unfold mbind at 1, M_bind at 1, Os.exists_. wproj.
    rewrite make_dirs_node_at, Hnone, (bool_decide_eq_false_2 _ Hway).
    rewrite bool_decide_eq_false_2 by (intros [? ?]; discriminate).
    reflexivity. }
  wproj. split_and!.
  - reflexivity.
  - reflexivity.
  - apply added_app. reflexivity.
  - intros q n Hn. apply make_dirs_keeps, Hn.
Qed.

End gate_edges.

(** A configuration file that holds a list. *)
Lemma config_must_be_an_object_witness :
  let E := Scenario.transcript_env in
  let w := Scenario.world_of
             (<[["opt"; "skill"; "config.json"] := File "[10]" 0]>
                (Scenario.with_transcript (Scenario.transcript 7 5))) in
  EvaluateSession.load_config E w = (Ret (PList [PInt 10]), w)
  /\ EvaluateSession.main E w = (Raise (AttributeError (PList [PInt 10])), w).
Proof.
  intros E w.
  assert (Os.node_at (fs w) (EvaluateSession.get_config_dir E // "config.json")
          = Some (File "[10]" 0)) as Hfile by (vm_compute; reflexivity).
  assert (json_loads "[10]" = Some (PList [PInt 10])) as Hload
    by (vm_compute; reflexivity).
  assert (Py.is_dict (PList [PInt 10]) = false) as Hdict by reflexivity.
  exact (config_must_be_an_object E w "[10]" 0 (PList [PInt 10])
           Hfile Hload Hdict).
Defined.

(** The transcript of the scenario without the variable that names it. *)
Lemma gate_without_transcript_witness :
  let E := Scenario.base_env in
  let w := Scenario.world_of (Scenario.with_transcript (Scenario.transcript 7 5)) in
  let learned := ["home"; "dev"; ".claude"; "skills"; "learned"] in
  let dest := (learned, PathLib.to_str learned) in
  let r := EvaluateSession.main E w in
  r.1 = Raise (SystemExit 0)
  /\ stderr r.2 = stderr w
  /\ Trace.added w r.2 = [EvMkdir dest.1]
  /\ (forall q n, Os.node_at (fs w) q = Some n -> Os.node_at (fs r.2) q = Some n).
Proof.
  intros E w learned dest.
  assert (EvaluateSession.load_config E w = (Ret (PDict []), w)) as Hcfg
    by (vm_compute; reflexivity).
  assert (Py.get (PDict []) "min_session_length" (PInt 10) = inr (PInt 10))
    as Hmin by reflexivity.
  assert (EvaluateSession.learned_skills_path E (PDict []) = inr dest) as Hdest
    by (vm_compute; reflexivity).
  assert (Os.blocking (fs w) dest.1 = None) as Hb by (vm_compute; reflexivity).
  assert (match environ E !! "CLAUDE_TRANSCRIPT_PATH" with
          | None | Some EmptyString => True
          | Some name =>
              Os.node_at (fs w) (cwd E // name) = None
              /\ cwd E // name ∉ Os.prefixes dest.1
          end) as Hcase by (vm_compute; exact I).
  exact (gate_without_transcript E w (PDict []) (PInt 10) dest
           Hcfg Hmin Hdest Hb Hcase).
Defined.

(** ** Commands and modified files *)

Section processes.
Context `{PyRuntime} `{Utils.PyRegex} `{Utils.Subprocess} (is_windows : bool).

Lemma rev_app_append s acc : String.rev_app s acc = String.rev s +:+ acc.
Proof.
  unfold String.rev. revert acc.
  induction s as [|c s IH]; intros acc; [reflexivity|].
  simpl. rewrite IH, (IH (String c "")), append_assoc. reflexivity.
Qed.

(** A text whose reversal starts with [c] ends with [c]. *)
Lemma rev_head s c rest :
  String.rev s = String c rest -> s = String.rev rest +:+ String c "".
Proof.
  intros Hrev. rewrite <- (rev_involutive s), Hrev.
  unfold String.rev at 1. simpl. apply rev_app_append.
Qed.

(** [command_exists] answers [True] only for a name made of letters,
    digits, [_], [.] and [-], not empty, possibly followed by one line feed,
    and only when the look-up of that name ended with status 0; a name with
    any other character, a blank or a shell operator say, is answered
    [False] whatever the look-up would say. *)
Theorem command_exists_checks_the_name (cmd : string) :
  let lookup := Utils.run_argv [if is_windows then "where" else "which"; cmd] in
  (Utils.command_exists is_windows cmd = inr true
   <-> Utils.command_name_ok cmd = true
       /\ exists result, lookup = inr result /\ Utils.returncode result = 0)
  /\ (Utils.command_name_ok cmd = true ->
      exists body,
        (cmd = body \/ cmd = body +:+ PyStr.nl)
        /\ body <> ""
        /\ PyStr.every Utils.is_command_char body = true)
  /\ (Utils.command_name_ok cmd = false ->
      Utils.command_exists is_windows cmd = inr false).
Proof.
  intros lookup. split_and!.
  - unfold Utils.command_exists. fold lookup.
    destruct (Utils.command_name_ok cmd); cbv beta iota delta [negb].
    + destruct lookup as [e|result].
      * split.
        -- destruct (is_Exception e); discriminate.
        -- intros (_ & result & [=] & _).
      * split.
        -- intros [= Hcode]. split; [reflexivity|].
           exists result. split; [reflexivity|]. apply Z.eqb_eq, Hcode.
        -- intros (_ & result' & [= <-] & ->). reflexivity.
    + split; [discriminate|]. intros (? & _). discriminate.
  - unfold Utils.command_name_ok.
    destruct (String.rev cmd) as [|c rest] eqn:Hrev.
    + intros [Hne Hall]%andb_true_iff. exists cmd. split_and!; auto.
      intros ->. discriminate.
    + assert (forall body,
        negb (String.eqb body "") && PyStr.every Utils.is_command_char body
        = true ->
        body <> "" /\ PyStr.every Utils.is_command_char body = true) as Hok.
      { intros body [Hne Hall]%andb_true_iff. split; [|exact Hall].
        intros ->. discriminate. }
      destruct (Ascii.eqb_spec c "010") as [->|Hc].
      * intros Hbody. exists (String.rev rest).
        destruct (Hok _ Hbody) as [? ?]. split_and!; auto.
        right. apply rev_head, Hrev.
      * intros Hbody.
        assert (negb (String.eqb cmd "")
                && PyStr.every Utils.is_command_char cmd = true) as Hcmd.
        { revert Hbody. clear -Hc.
          destruct c as [[] [] [] [] [] [] [] []]; try (intros Hb; exact Hb).
          congruence. }
        exists cmd. destruct (Hok _ Hcmd) as [? ?]. split_and!; auto.
  - intros Hbad. unfold Utils.command_exists. rewrite Hbad. reflexivity.
Qed.

Lemma matches_one_spec (search : string -> string -> bool) patterns file :
  (forall p, p ∈ patterns -> Utils.re_search p = Some (search p)) ->
  Utils.matches_one patterns file
  = inr (existsb (fun p => search p file) patterns).
Proof.
  induction patterns as [|p patterns IH]; intros Hall; [reflexivity|].
  simpl. rewrite (Hall p) by apply list_elem_of_here.
  destruct (search p file); [reflexivity|].
  apply IH. intros q Hq. apply Hall, list_elem_of_further, Hq.
Qed.

Lemma filter_files_spec (search : string -> string -> bool) patterns :
  (forall p, p ∈ patterns -> Utils.re_search p = Some (search p)) ->
  forall files filtered,
    Utils.filter_files patterns files filtered
    = inr (filtered
           ++ List.filter (fun file => existsb (fun p => search p file) patterns)
                          files).
Proof.
  intros Hall. induction files as [|file files IH]; intros filtered.
  - simpl. rewrite app_nil_r. reflexivity.
  - simpl. rewrite (matches_one_spec search patterns file Hall).
    cbn [mbind res_bind]. rewrite IH.
    destruct (existsb _ patterns); [rewrite <- app_assoc|]; reflexivity.
Qed.

(** In a working tree, [get_git_modified_files] returns the lines of what
    [git diff --name-only HEAD] prints that are not empty, in their order:
    all of them without patterns, also for an empty list of patterns, and
    otherwise those in which some pattern is found, each once. *)
Theorem git_modified_files_are_filtered (patterns : list string)
    (search : string -> string -> bool) (repo diff : Utils.completed) :
  Utils.run_shell "git rev-parse --git-dir" None = inr repo ->
  Utils.returncode repo = 0 ->
  Utils.run_shell "git diff --name-only HEAD" None = inr diff ->
  Utils.returncode diff = 0 ->
  (forall p, p ∈ patterns -> Utils.re_search p = Some (search p)) ->
  let files :=
    List.filter (fun f => negb (String.eqb f ""))
                (PyStr.split "010" (PyStr.strip (Utils.out diff))) in
  Utils.get_git_modified_files None = inr files
  /\ Utils.get_git_modified_files (Some []) = inr files
  /\ (patterns <> [] ->
      Utils.get_git_modified_files (Some patterns)
      = inr (List.filter
               (fun file => existsb (fun p => search p file) patterns) files)).
Proof.
  intros Hrepo Hrepo0 Hdiff Hdiff0 Hall files.
  assert (forall ps,
    Utils.get_git_modified_files ps
    = match ps with
      | Some ((_ :: _) as patterns) => Utils.filter_files patterns files []
      | _ => inr files
      end) as Hget.
  { intros ps. unfold Utils.get_git_modified_files, Utils.is_git_repo,
      Utils.run_command.
    rewrite Hrepo, Hrepo0, Hdiff, Hdiff0. reflexivity. }
  split_and!.
  - apply Hget.
  - apply Hget.
  - intros Hne. rewrite Hget.
    destruct patterns as [|p patterns]; [congruence|].
    apply (filter_files_spec search (p :: patterns) Hall files []).
Qed.

(** Outside a working tree, when [git rev-parse] ends with another status
    than 0 or cannot be run, [get_git_modified_files] returns the empty list
    and looks at no pattern. *)
Theorem git_modified_files_without_repository
    (patterns : option (list string)) :
  match Utils.run_shell "git rev-parse --git-dir" None with
  | inr result => Utils.returncode result <> 0
  | inl e => is_Exception e = true
  end ->
  Utils.is_git_repo = inr false
  /\ Utils.get_git_modified_files patterns = inr [].
Proof.
  intros Hrepo.
  assert (Utils.is_git_repo = inr false) as Hgit.
  { unfold Utils.is_git_repo, Utils.run_command.
    destruct (Utils.run_shell _ None) as [e|result].
    - rewrite Hrepo. reflexivity.
    - apply Z.eqb_neq in Hrepo. rewrite Hrepo. reflexivity. }
  split; [exact Hgit|].
  unfold Utils.get_git_modified_files. rewrite Hgit. reflexivity.
Qed.

End processes.

(** A name followed by a line feed passes the check of the name. *)
Lemma command_exists_checks_the_name_witness :
  let cmd := "git" +:+ PyStr.nl in
  exists body,
    (cmd = body \/ cmd = body +:+ PyStr.nl)
    /\ body <> ""
    /\ PyStr.every Utils.is_command_char body = true.
Proof.
  intros cmd.
  assert (Utils.command_name_ok cmd = true) as Hok by (vm_compute; reflexivity).
  exact (proj1 (proj2 (command_exists_checks_the_name
                         (H1 := Scenario.everything_installed) false cmd))
           Hok).
Defined.

Example command_names :
  Utils.command_exists (H1 := Scenario.everything_installed) false "git"
  = inr true
  /\ Utils.command_exists (H1 := Scenario.everything_installed) false
       "git; rm -rf x" = inr false
  /\ Utils.command_exists (H1 := Scenario.everything_installed) false "" = inr false
  /\ Utils.command_exists (H1 := Scenario.everything_installed) false
       ("git" +:+ PyStr.nl) = inr true.
Proof. split_and!; vm_compute; reflexivity. Qed.

(** The three modified files of the scenario, filtered for [py]. *)
Lemma git_modified_files_are_filtered_witness :
  let files :=
    List.filter (fun f => negb (String.eqb f ""))
                (PyStr.split "010"
                   (PyStr.strip ("src/a.py" +:+ PyStr.nl +:+ "README.md"
                                 +:+ PyStr.nl +:+ "src/b.py" +:+ PyStr.nl))) in
  let search (p : string) := PyStr.contains p in
  Utils.get_git_modified_files (H1 := Scenario.repository) None = inr files
  /\ Utils.get_git_modified_files (H1 := Scenario.repository) (Some [])
     = inr files
  /\ (["py"] <> [] ->
      Utils.get_git_modified_files (H1 := Scenario.repository) (Some ["py"])
      = inr (List.filter
               (fun file => existsb (fun p => search p file) ["py"]) files)).
Proof.
  intros files search.
  assert (forall p, p ∈ ["py"] -> Utils.re_search p = Some (search p)) as Hall.
  { intros p ->%list_elem_of_singleton. vm_compute. reflexivity. }
  exact (git_modified_files_are_filtered (H1 := Scenario.repository) ["py"]
           search
           {| Utils.returncode := 0; Utils.out := ".git" +:+ PyStr.nl;
              Utils.err := "" |}
           {| Utils.returncode := 0;
              Utils.out := "src/a.py" +:+ PyStr.nl +:+ "README.md"
                           +:+ PyStr.nl +:+ "src/b.py" +:+ PyStr.nl;
              Utils.err := "" |}
           eq_refl eq_refl eq_refl eq_refl Hall).
Defined.

Example modified_python_files :
  Utils.get_git_modified_files (H1 := Scenario.repository) (Some ["py"])
  = inr ["src/a.py"; "src/b.py"]
  /\ Utils.get_git_modified_files (H1 := Scenario.repository) None
     = inr ["src/a.py"; "README.md"; "src/b.py"].
Proof. split; vm_compute; reflexivity. Qed.

(** A directory that is no working tree. *)
Lemma git_modified_files_without_repository_witness :
  Utils.is_git_repo (H1 := Scenario.no_repository) = inr false
  /\ Utils.get_git_modified_files (H1 := Scenario.no_repository) (Some ["("])
     = inr [].
Proof.
  assert (match Utils.run_shell (Subprocess := Scenario.no_repository)
                  "git rev-parse --git-dir" None with
          | inr result => Utils.returncode result <> 0
          | inl e => is_Exception e = true
          end) as Hrepo by (vm_compute; discriminate).
  exact (git_modified_files_without_repository (H1 := Scenario.no_repository)
           (Some ["("]) Hrepo).
Defined.

(** ** The check for print statements *)

Section check_print.
Context `{Utils.Subprocess} (E : env).

(** The world after [lines] went to the diagnostic stream. *)
Let said (lines : list string) (w : world) : world :=
  {| fs := fs w; ticks := ticks w; stderr := stderr w ++ lines;
     trace := trace w |}.

Let nonempty (lines : list string) : bool :=
  match lines with [] => false | _ => true end.

Lemma said_nil w : said [] w = w.
Proof. destruct w. unfold said. simpl. rewrite app_nil_r. reflexivity. Qed.

Lemma said_said l1 l2 w : said l2 (said l1 w) = said (l1 ++ l2) w.
Proof. unfold said. simpl. rewrite app_assoc. reflexivity. Qed.

Lemma nonempty_app l1 l2 : nonempty (l1 ++ l2) = nonempty l1 || nonempty l2.
Proof. destruct l1; reflexivity. Qed.

Lemma python_files_spec names w :
  CheckPrint.python_files E names w
  = (Ret (List.filter
            (fun f => PyStr.endswith ".py" f
                      && bool_decide (is_Some (Os.node_at (fs w) (cwd E // f))))
            names), w).
Proof.
  induction names as [|f names IH]; [reflexivity|].
  cbn [CheckPrint.python_files List.filter].
  unfold mbind at 1, M_bind at 1.
  destruct (PyStr.endswith ".py" f); cbn [andb].
  - unfold Os.exists_ at 1. cbv beta iota.
    unfold mbind, M_bind. rewrite IH.
    destruct (bool_decide _); reflexivity.
  - unfold mret at 1, M_ret at 1. cbv beta iota.
    unfold mbind, M_bind. rewrite IH. reflexivity.
Qed.

Lemma scan_lines_spec file lines :
  forall line_num has_print w,
    let warnings :=
      omap id
        (imap (fun i line =>
                 if CheckPrint.reported line
                 then Some (CheckPrint.warning_line file
                              (line_num + Z.of_nat i))
                 else None)
              lines) in
    CheckPrint.scan_lines file line_num lines has_print w
    = (Ret (has_print || nonempty warnings), said warnings w).
Proof.
  induction lines as [|line lines IH]; intros line_num has_print w.
  - cbn. rewrite orb_false_r, said_nil. reflexivity.
  - cbn zeta. rewrite imap_cons. cbn [omap list_omap CheckPrint.scan_lines].
    rewrite Z.add_0_r.
    rewrite (imap_ext _
               (fun i line =>
                  if CheckPrint.reported line
                  then Some (CheckPrint.warning_line file
                               (line_num + 1 + Z.of_nat i))
                  else None))
      by (intros i x _; cbn; replace (line_num + Z.of_nat (S i))
            with (line_num + 1 + Z.of_nat i) by lia; reflexivity).
    set (rest := omap id _). unfold id, CheckPrint.reported.
    destruct (PyStr.startswith "#" (PyStr.lstrip line)); cbn [negb andb].
    + apply IH.
    + destruct (PyStr.contains "print(" line
                && negb (PyStr.contains (CheckPrint.triple "034") line)
                && negb (PyStr.contains (CheckPrint.triple "'") line)).
      * unfold mbind at 1, M_bind at 1, eprint at 1. cbv beta iota.
        rewrite (IH (line_num + 1) true). fold rest. cbn [nonempty orb].
        rewrite orb_true_r. f_equal.
        unfold said, with_line. simpl. rewrite <- app_assoc. reflexivity.
      * apply IH.
Qed.

Lemma file_warnings_spec file content has_print w :
  CheckPrint.scan_lines file 1 (PyStr.split "010" content) has_print w
  = (Ret (has_print || nonempty (CheckPrint.file_warnings file content)),
     said (CheckPrint.file_warnings file content) w).
Proof.
  rewrite scan_lines_spec. unfold CheckPrint.file_warnings.
  rewrite (imap_ext _
             (fun i line =>
                if CheckPrint.reported line
                then Some (CheckPrint.warning_line file (Z.of_nat (S i)))
                else None))
    by (intros i x _; cbn; replace (1 + Z.of_nat i) with (Z.of_nat (S i))
          by lia; reflexivity).
  reflexivity.
Qed.

Lemma scan_files_spec files :
  forall has_print w,
    let scanned := CheckPrint.readable_prefix E (fs w) files in
    let warnings :=
      flat_map (fun f => CheckPrint.file_warnings f
                           (Os.old_data (fs w) (cwd E // f)))
               scanned in
    exists o,
      CheckPrint.scan_files E files has_print w = (o, said warnings w)
      /\ (scanned = files -> o = Ret (has_print || nonempty warnings))
      /\ (scanned <> files -> exists e, o = Raise e /\ is_Exception e = true).
Proof.
  induction files as [|file files IH]; intros has_print w.
  - exists (Ret has_print). cbn. rewrite said_nil, orb_false_r.
    split_and!; [reflexivity|reflexivity|congruence].
  - cbn zeta. cbn [CheckPrint.scan_files CheckPrint.readable_prefix].
    unfold mbind at 1, M_bind at 1, Os.read_text at 1, CheckPrint.readable.
    unfold Os.old_data at 1.
    destruct (Os.node_at (fs w) (cwd E // file)) as [[data mtime|mtime]|]
      eqn:Hnode; cbn [Os.is_file_node]; cbv beta iota.
    + unfold mbind at 1, M_bind at 1. rewrite file_warnings_spec.
      cbv beta iota.
      set (first := CheckPrint.file_warnings file data).
      destruct (IH (has_print || nonempty first) (said first w))
        as (o & Hrun & Hok & Hbad).
      change (fs (said first w)) with (fs w) in *.
      exists o. cbn [flat_map]. unfold Os.old_data at 1. rewrite Hnode.
      fold first. split_and!.
      * rewrite Hrun, said_said. reflexivity.
      * intros [= Hall]. rewrite (Hok Hall), nonempty_app, orb_assoc.
        reflexivity.
      * intros Hnot. apply Hbad. congruence.
    + exists (Raise (OSError EISDIR (cwd E // file))). cbn [flat_map].
      rewrite said_nil. split_and!; [reflexivity|discriminate|eauto].
    + exists (Raise (OSError ENOENT (cwd E // file))). cbn [flat_map].
      rewrite said_nil. split_and!; [reflexivity|discriminate|eauto].
Qed.

(** In a working tree the check visits, in the order [git diff] prints them,
    the names that end in [.py] and exist, whatever the status of
    [git diff]; it stops without a word at the first one that is not a
    regular file.  For each file read it warns about the lines that hold
    [print(] and no run of three quotation marks and do not start, after
    white space, with [#], by their number from 1; the closing hint follows
    when every file was read and there was a warning.  The input is printed
    once, and nothing but the diagnostic stream changes. *)
Theorem check_print_reports_print_lines (w : world) (data : string)
    (repo diff : Utils.completed) :
  Utils.run_argv ["git"; "rev-parse"; "--git-dir"] = inr repo ->
  Utils.returncode repo = 0 ->
  Utils.run_argv ["git"; "diff"; "--name-only"; "HEAD"] = inr diff ->
  let names := PyStr.split "010" (PyStr.strip (Utils.out diff)) in
  let files :=
    List.filter
      (fun f => PyStr.endswith ".py" f
                && bool_decide (is_Some (Os.node_at (fs w) (cwd E // f))))
      names in
  let scanned := CheckPrint.readable_prefix E (fs w) files in
  let text (f : string) := Os.old_data (fs w) (cwd E // f) in
  forallb (fun f => bool_decide (".." ∉ PathLib.parts f)) names = true ->
  forallb (fun f => PyStr.unix_text (text f)) scanned = true ->
  let warnings := flat_map (fun f => CheckPrint.file_warnings f (text f))
                           scanned in
  let hint :=
    match warnings with
    | [] => []
    | _ => if bool_decide (scanned = files) then [CheckPrint.hint_line]
           else []
    end in
  exists w',
    CheckPrint.main E data w = (Ret [data], w')
    /\ stderr w' = stderr w ++ warnings ++ hint
    /\ fs w' = fs w /\ ticks w' = ticks w /\ trace w' = trace w.
Proof.
  intros Hrepo Hrepo0 Hdiff names files scanned text _ _ warnings hint.
  destruct (scan_files_spec files false w) as (o & Hrun & Hok & Hbad).
  change (CheckPrint.scan_files E files false w = (o, said warnings w))
    in Hrun.
  change (scanned = files -> o = Ret (false || nonempty warnings)) in Hok.
  change (scanned <> files -> exists e, o = Raise e /\ is_Exception e = true)
    in Hbad.
  assert (CheckPrint.main E data w = (Ret [data], said (warnings ++ hint) w))
    as Hmain.
  { unfold CheckPrint.main, CheckPrint.checks.
    rewrite Hrepo, Hdiff.
    unfold mbind at 1, M_bind at 1, try_except at 1. cbn [lift].
    unfold mbind at 1, M_bind at 1. unfold mret at 1, M_ret at 1.
    cbv beta iota. rewrite Hrepo0. cbn [Z.eqb negb].
    unfold mbind at 1, M_bind at 1. unfold mret at 1, M_ret at 1.
    cbv beta iota.
    unfold mbind at 1, M_bind at 1. rewrite python_files_spec.
    cbv beta iota. fold names files.
    unfold mbind at 1, M_bind at 1. rewrite Hrun. unfold hint.
    destruct (decide (scanned = files)) as [Hall|Hnot].
    - rewrite (Hok Hall), (bool_decide_eq_true_2 _ Hall). cbn [orb].
      destruct warnings as [|line rest]; cbn [nonempty when].
      + reflexivity.
      + unfold mbind at 1, M_bind at 1, eprint at 1. cbv beta iota.
        unfold said, with_line. cbn. rewrite <- app_assoc. reflexivity.
    - destruct (Hbad Hnot) as (e & -> & He). rewrite He.
      rewrite (bool_decide_eq_false_2 _ Hnot).
      destruct warnings; rewrite ?app_nil_r; reflexivity. }
  exists (said (warnings ++ hint) w). split; [exact Hmain|].
  split_and!; reflexivity.
Qed.

(** Whatever [git] answers and whatever the files hold, the check returns
    normally with the input printed once, as long as running [git] raises
    nothing but an [Exception]; it only adds to the diagnostic stream. *)
Theorem check_print_passes_input_through (w : world) (data : string) :
  (forall argv e, Utils.run_argv argv = inl e -> is_Exception e = true) ->
  exists w',
    CheckPrint.main E data w = (Ret [data], w')
    /\ stderr w `prefix_of` stderr w'
    /\ fs w' = fs w /\ ticks w' = ticks w /\ trace w' = trace w.
Proof.
  intros Hraise.
  assert (exists lines,
            CheckPrint.main E data w = (Ret [data], said lines w)) as Hmain.
  { unfold CheckPrint.main, CheckPrint.checks.
    unfold mbind at 1, M_bind at 1, try_except at 1.
    unfold mbind at 1, M_bind at 1.
    destruct (Utils.run_argv ["git"; "rev-parse"; "--git-dir"])
      as [e|repo] eqn:Hrepo.
    { exists []. cbn. rewrite (Hraise _ _ Hrepo), said_nil. reflexivity. }
    cbn [lift]. unfold mret at 1, M_ret at 1. cbv beta iota.
    destruct (Utils.returncode repo =? 0); cbn [negb].
    2: { exists []. rewrite said_nil. reflexivity. }
    unfold mbind at 1, M_bind at 1.
    destruct (Utils.run_argv ["git"; "diff"; "--name-only"; "HEAD"])
      as [e|diff] eqn:Hdiff.
    { exists []. cbn. rewrite (Hraise _ _ Hdiff), said_nil. reflexivity. }
    cbn [lift]. unfold mret at 1, M_ret at 1. cbv beta iota.
    unfold mbind at 1, M_bind at 1. rewrite python_files_spec.
    cbv beta iota.
    set (files := List.filter _ _).
    destruct (scan_files_spec files false w) as (o & Hrun & Hok & Hbad).
    cbn zeta in Hrun. set (warnings := flat_map _ _) in *.
    unfold mbind at 1, M_bind at 1. rewrite Hrun.
    destruct (decide (CheckPrint.readable_prefix E (fs w) files = files))
      as [Hall|Hnot].
    - rewrite (Hok Hall). cbn [orb].
      destruct (nonempty warnings); cbn [when].
      + exists (warnings ++ [CheckPrint.hint_line]).
        unfold mbind at 1, M_bind at 1, eprint at 1. cbv beta iota.
        unfold said, with_line. cbn. rewrite <- app_assoc. reflexivity.
      + exists warnings. reflexivity.
    - destruct (Hbad Hnot) as (e & -> & He). rewrite He.
      exists warnings. reflexivity. }
  destruct Hmain as (lines & Hmain).
  exists (said lines w). split; [exact Hmain|].
  split_and!; try reflexivity. apply prefix_app_r. reflexivity.
Qed.

End check_print.

(** The scenario: [a.py] is read, the directory [pkg.py] ends the scan
    before [b.py], and the hint is not printed. *)
Lemma check_print_reports_print_lines_witness :
  let E := Scenario.base_env in
  let w := Scenario.world_of Scenario.sources in
  let names :=
    PyStr.split "010"
      (PyStr.strip ("a.py" +:+ PyStr.nl +:+ "notes.txt" +:+ PyStr.nl
                    +:+ "pkg.py" +:+ PyStr.nl +:+ "b.py" +:+ PyStr.nl
                    +:+ "gone.py" +:+ PyStr.nl)) in
  let files :=
    List.filter
      (fun f => PyStr.endswith ".py" f
                && bool_decide (is_Some (Os.node_at (fs w) (cwd E // f))))
      names in
  let scanned := CheckPrint.readable_prefix E (fs w) files in
  let text (f : string) := Os.old_data (fs w) (cwd E // f) in
  let warnings := flat_map (fun f => CheckPrint.file_warnings f (text f))
                           scanned in
  let hint :=
    match warnings with
    | [] => []
    | _ => if bool_decide (scanned = files) then [CheckPrint.hint_line]
           else []
    end in
  exists w',
    CheckPrint.main (H := Scenario.modified) E "{}" w = (Ret ["{}"], w')
    /\ stderr w' = stderr w ++ warnings ++ hint
    /\ fs w' = fs w /\ ticks w' = ticks w /\ trace w' = trace w.
Proof.
  intros E w names files scanned text.
  assert (forallb (fun f => bool_decide (".." ∉ PathLib.parts f)) names = true)
    as Hnames by (vm_compute; reflexivity).
  assert (forallb (fun f => PyStr.unix_text (text f)) scanned = true)
    as Htext by (vm_compute; reflexivity).
  exact (check_print_reports_print_lines (H := Scenario.modified) E w "{}"
           {| Utils.returncode := 0; Utils.out := ".git" +:+ PyStr.nl;
              Utils.err := "" |}
           {| Utils.returncode := 0;
              Utils.out := "a.py" +:+ PyStr.nl +:+ "notes.txt" +:+ PyStr.nl
                           +:+ "pkg.py" +:+ PyStr.nl +:+ "b.py" +:+ PyStr.nl
                           +:+ "gone.py" +:+ PyStr.nl;
              Utils.err := "" |}
           eq_refl eq_refl eq_refl Hnames Htext).
Defined.

Example check_print_on_the_scenario :
  let run := CheckPrint.main (H := Scenario.modified) Scenario.base_env "{}"
               (Scenario.world_of Scenario.sources) in
  run.1 = Ret ["{}"]
  /\ stderr run.2 = ["[Hook] WARNING: print() found in a.py:2"].
Proof. split; vm_compute; reflexivity. Qed.

Example check_print_lines :
  CheckPrint.file_warnings "m.py"
    ("print(1)" +:+ PyStr.nl +:+ "# print(2)" +:+ PyStr.nl
     +:+ "x = 1  # print(3)" +:+ PyStr.nl
     +:+ "pprint(4)" +:+ PyStr.nl
     +:+ "print(" +:+ CheckPrint.triple "034" +:+ ")" +:+ PyStr.nl
     +:+ "print (5)")
  = ["[Hook] WARNING: print() found in m.py:1";
     "[Hook] WARNING: print() found in m.py:3";
     "[Hook] WARNING: print() found in m.py:4"].
Proof. vm_compute. reflexivity. Qed.

(** The scenario, in which [git] always answers. *)
Lemma check_print_passes_input_through_witness :
  let E := Scenario.base_env in
  let w := Scenario.world_of Scenario.sources in
  exists w',
    CheckPrint.main (H := Scenario.modified) E "{}" w = (Ret ["{}"], w')
    /\ stderr w `prefix_of` stderr w'
    /\ fs w' = fs w /\ ticks w' = ticks w /\ trace w' = trace w.
Proof.
  intros E w.
  assert (forall argv e,
            Utils.run_argv (Subprocess := Scenario.modified) argv = inl e ->
            is_Exception e = true) as Hraise.
  { intros argv e. cbn. repeat case_bool_decide; discriminate. }
  exact (check_print_passes_input_through (H := Scenario.modified) E w "{}"
           Hraise).
Defined.
